(** * Casper_Fusion: a shallow embedding of the per-tick pipeline

    The development follows the Python sources module by module:
    [casper.models], [casper.config], [casper.presets],
    [casper.fusion.engine], [casper.fusion.strategies],
    [casper.governance.clarity_risk], [casper.audit.chain],
    [casper.sensors.simulator], [casper.state] and [casper.step_engine].

    Conventions.
    - Python [float] is modelled by the real numbers [R] (exact
      arithmetic, no rounding); [int] by [Z]; [str] by [string].
      Statements about computed floats are therefore kept to what
      rounding preserves: comparisons, bounds set by a clip, single
      operations, and equalities up to a stated tolerance.  The numeric
      kernels are repeated over the kernel's binary64 floats, where the
      effect of rounding on a concrete input is computed.
    - [np.clip x lo hi] is [Rmin (Rmax x lo) hi]; Python [max] is [Rmax].
    - A [dict] is an association list in insertion order with unique keys.
    - A raised exception is the [Raise] constructor of [result].
    - Record fields carry a short prefix of their class ([m_] for
      SensorMeasurement, [fe_] for FusedEstimate, [tel_] for Telemetry,
      [ar_] for AuditRecord, [st_] for EngineState, [cfg_] for
      FusionConfig), since one field name occurs in several classes. *)

From Stdlib Require Import Floats.
From Stdlib Require Import Reals Lra Lia ZArith List String Ascii Bool.
From Stdlib Require Import Permutation Sorted OrdersEx DecimalString.
From Stdlib Require Import RelationClasses.
Import ListNotations.

Local Open Scope string_scope.
Local Open Scope list_scope.
Local Open Scope R_scope.

Set Warnings "-inexact-float".

(* ================================================================== *)
(** ** Numbers *)
(* ================================================================== *)

Definition Rleb (x y : R) : bool := if Rle_dec x y then true else false.
Definition Rltb (x y : R) : bool := if Rlt_dec x y then true else false.

(** [np.clip(x, lo, hi)] *)
Definition clip (x lo hi : R) : R := Rmin (Rmax x lo) hi.

Fixpoint Rsum (l : list R) : R :=
  match l with
  | [] => 0
  | x :: l' => x + Rsum l'
  end.

(* ================================================================== *)
(** ** Exceptions *)
(* ================================================================== *)

Inductive Error : Type :=
| NotImplementedError (msg : string)
| ValidationError (model : string)
| ShapeError
| KeyError (key : string)
| AttributeError
| ValueError.

Inductive result (A : Type) : Type :=
| Ok (a : A)
| Raise (e : Error).
Arguments Ok {A} a.
Arguments Raise {A} e.

(* ================================================================== *)
(** ** casper.models *)
(* ================================================================== *)

Inductive SensorType : Type := IMU | GNSS | BARO | RADAR | EOIR | RF | LINK.

Definition SensorType_value (t : SensorType) : string :=
  match t with
  | IMU => "IMU" | GNSS => "GNSS" | BARO => "BARO" | RADAR => "RADAR"
  | EOIR => "EOIR" | RF => "RF" | LINK => "LINK"
  end.

Inductive SystemState : Type := STABLE | TENSE | HIGH_RISK | CRITICAL.

(** Values a metadata map ([Dict[str, Any]]) can hold and [json.dumps]
    can serialise. *)
#[warnings="-register-all"]
Inductive JSON : Type :=
| JNull
| JBool (b : bool)
| JInt (n : Z)
| JFloat (x : R)
| JString (s : string)
| JArray (l : list JSON)
| JObject (kv : list (string * JSON)).

Definition Dict (V : Type) : Type := list (string * V).

Definition dict_keys {V} (d : Dict V) : list string := map fst d.
Definition dict_values {V} (d : Dict V) : list V := map snd d.

(** [d.get(k, default)] *)
Fixpoint dict_get {V} (d : Dict V) (k : string) (default : V) : V :=
  match d with
  | [] => default
  | (k', v) :: d' => if String.eqb k' k then v else dict_get d' k default
  end.

(** [d.get(k)] / [k in d] *)
Fixpoint dict_find {V} (d : Dict V) (k : string) : option V :=
  match d with
  | [] => None
  | (k', v) :: d' => if String.eqb k' k then Some v else dict_find d' k
  end.

Definition dict_mem {V} (d : Dict V) (k : string) : bool :=
  match dict_find d k with Some _ => true | None => false end.

(** [d[k] = v]: an existing key keeps its position, a new key goes last. *)
Fixpoint dict_set {V} (d : Dict V) (k : string) (v : V) : Dict V :=
  match d with
  | [] => [(k, v)]
  | (k', v') :: d' =>
      if String.eqb k' k then (k', v) :: d' else (k', v') :: dict_set d' k v
  end.

Record SensorMeasurement : Type := mkSensorMeasurement {
  m_tick : Z;
  m_utc_timestamp : string;
  m_sensor_id : string;
  m_sensor_type : SensorType;
  m_z : list R;               (* measurement vector z *)
  m_R : list (list R);        (* covariance matrix R, as rows *)
  m_quality : R;
  m_latency_ms : R;
  m_dropped : bool;
  m_meta : Dict JSON
}.

Definition in_range (lo x hi : R) : bool := Rleb lo x && Rleb x hi.

(** The field constraints and validators of the pydantic model
    ([tick >= 0], [0 <= quality <= 1], [latency_ms >= 0], [R] square). *)
Definition SensorMeasurement_ok (m : SensorMeasurement) : bool :=
  (0 <=? m_tick m)%Z &&
  in_range 0.0 (m_quality m) 1.0 &&
  Rleb 0.0 (m_latency_ms m) &&
  forallb (fun row => (List.length row =? List.length (m_R m))%nat) (m_R m).

(** [SensorMeasurement(...)]: construction validates. *)
Definition new_SensorMeasurement (m : SensorMeasurement)
    : result SensorMeasurement :=
  if SensorMeasurement_ok m then Ok m
  else Raise (ValidationError "SensorMeasurement").

Record FusedEstimate : Type := mkFusedEstimate {
  fe_lat : R;
  fe_lon : R;
  fe_altitude_m : R;
  fe_velocity_mps : R;
  fe_heading_deg : R;
  fe_threat_index : R;
  fe_civ_density : R;
  fe_fusion_conf : R;
  fe_surprise : R;
  fe_sensor_contrib : Dict R;
  fe_used_meas_count : Z
}.

(** The [Field(ge=..., le=...)] constraints of [FusedEstimate]. *)
Definition FusedEstimate_ok (e : FusedEstimate) : bool :=
  in_range (-90.0) (fe_lat e) 90.0 &&
  in_range (-180.0) (fe_lon e) 180.0 &&
  in_range (-1000.0) (fe_altitude_m e) 50000.0 &&
  in_range 0.0 (fe_velocity_mps e) 2000.0 &&
  in_range 0.0 (fe_heading_deg e) 360.0 &&
  in_range 0.0 (fe_threat_index e) 100.0 &&
  in_range 0.0 (fe_civ_density e) 1.0 &&
  in_range 0.0 (fe_fusion_conf e) 1.0 &&
  in_range 0.0 (fe_surprise e) 1.0 &&
  (0 <=? fe_used_meas_count e)%Z.

(** [FusedEstimate(...)]: construction validates. *)
Definition new_FusedEstimate (e : FusedEstimate) : result FusedEstimate :=
  if FusedEstimate_ok e then Ok e else Raise (ValidationError "FusedEstimate").

(* ================================================================== *)
(** ** casper.config *)
(* ================================================================== *)

Record FusionConfig : Type := mkFusionConfig {
  cfg_dt_seconds : R;
  cfg_fusion_time_gate_ms : R;
  cfg_stale_ticks : Z;
  cfg_max_telemetry_history : nat;
  cfg_max_measurement_history : nat;
  cfg_max_audit_history : nat;
  cfg_position_fusion_weight : Dict R;
  cfg_clarity_warning_threshold : R;
  cfg_clarity_critical_threshold : R;
  cfg_fusion_conf_warning : R;
  cfg_fusion_conf_critical : R
}.

(** [FusionConfig()] *)
Definition default_FusionConfig : FusionConfig := {|
  cfg_dt_seconds := 1.0;
  cfg_fusion_time_gate_ms := 350.0;
  cfg_stale_ticks := 6;
  cfg_max_telemetry_history := 600;
  cfg_max_measurement_history := 3000;
  cfg_max_audit_history := 1000;
  cfg_position_fusion_weight :=
    [("GNSS", 1.0); ("EOIR", 0.8); ("RADAR", 0.9); ("BARO", 0.3)];
  cfg_clarity_warning_threshold := 75.0;
  cfg_clarity_critical_threshold := 65.0;
  cfg_fusion_conf_warning := 0.6;
  cfg_fusion_conf_critical := 0.4
|}.

(* ================================================================== *)
(** ** casper.fusion.engine: the time gate *)
(* ================================================================== *)

(** [age_ms = abs((tick_delta * dt_seconds * 1000.0) + m.latency_ms)] *)
Definition age_ms (cfg : FusionConfig) (current_tick : Z)
    (m : SensorMeasurement) : R :=
  let tick_delta := (current_tick - m_tick m)%Z in
  Rabs (IZR tick_delta * cfg_dt_seconds cfg * 1000.0 + m_latency_ms m).

(** The body of the loop [for m in reversed(history)]: the argument is
    the history already reversed, most recent first. *)
Fixpoint select_scan (cfg : FusionConfig) (current_tick : Z) (gate_ms : R)
    (most_recent_first : list SensorMeasurement) : list SensorMeasurement :=
  match most_recent_first with
  | [] => []
  | m :: older =>
      if m_dropped m then
        select_scan cfg current_tick gate_ms older            (* continue *)
      else if Rleb (age_ms cfg current_tick m) gate_ms then
        m :: select_scan cfg current_tick gate_ms older       (* append *)
      else
        []                                                    (* break *)
  end.

(** [FusionEngine.select_measurements] *)
Definition select_measurements (cfg : FusionConfig)
    (history : list SensorMeasurement) (current_tick : Z)
    : list SensorMeasurement :=
  let gate_ms := cfg_fusion_time_gate_ms cfg in
  select_scan cfg current_tick gate_ms (rev history).

(** The selection as the specification words it: among the non-dropped
    measurements, most recent first, the longest leading run that lies
    within the (inclusive) gate. *)
Fixpoint take_while {A} (p : A -> bool) (l : list A) : list A :=
  match l with
  | [] => []
  | x :: l' => if p x then x :: take_while p l' else []
  end.

Definition within_gate (cfg : FusionConfig) (current_tick : Z)
    (m : SensorMeasurement) : bool :=
  Rleb (age_ms cfg current_tick m) (cfg_fusion_time_gate_ms cfg).

Definition select_measurements_spec (cfg : FusionConfig)
    (history : list SensorMeasurement) (current_tick : Z)
    : list SensorMeasurement :=
  take_while (within_gate cfg current_tick)
    (filter (fun m => negb (m_dropped m)) (rev history)).

(* ================================================================== *)
(** ** casper.fusion.strategies *)
(* ================================================================== *)

(** [np.trace(m.R)]: the sum of the diagonal of the covariance matrix. *)
Fixpoint trace_from (i : nat) (rows : list (list R)) : R :=
  match rows with
  | [] => 0
  | row :: rows' => nth i row 0 + trace_from (S i) rows'
  end.

Definition trace (rows : list (list R)) : R := trace_from 0 rows.

(** [np.diag([...])] *)
Fixpoint diag_from (before : nat) (d : list R) : list (list R) :=
  match d with
  | [] => []
  | x :: d' =>
      (repeat 0 before ++ x :: repeat 0 (List.length d'))
        :: diag_from (S before) d'
  end.

Definition diag (d : list R) : list (list R) := diag_from 0 d.

(** [WeightedFusion._weight] *)
Definition _weight (cfg : FusionConfig) (m : SensorMeasurement) : R :=
  let cov_trace := trace (m_R m) in
  let cov_term := 1.0 / Rmax cov_trace 1e-9 in
  let latency_term := 1.0 / (1.0 + (m_latency_ms m / 200.0)) in
  let quality_term := clip (m_quality m) 0.0 1.0 in
  let type_weight :=
    dict_get (cfg_position_fusion_weight cfg)
      (SensorType_value (m_sensor_type m)) 0.5 in
  Rmax 0.0 (cov_term * latency_term * quality_term * type_weight).

(** [m.sensor_type in (GNSS, EOIR, RADAR) and not m.dropped] *)
Definition position_capable (t : SensorType) : bool :=
  match t with
  | GNSS | EOIR | RADAR => true
  | _ => false
  end.

Definition usable (m : SensorMeasurement) : bool :=
  position_capable (m_sensor_type m) && negb (m_dropped m).

(** The two branches of the weight normalisation in [fuse]. *)
Definition normalize (weights : list R) : list R :=
  if Rleb (Rsum weights) 1e-12 then
    map (fun _ => 1 / INR (List.length weights)) weights
  else
    map (fun w => w / Rsum weights) weights.

(** [m.z[:3]] *)
Definition z3 (m : SensorMeasurement) : list R := firstn 3 (m_z m).

(** Column [j] of [(Z * weights[:, None]).sum(axis=0)]. *)
Fixpoint weighted_column (j : nat) (ms : list SensorMeasurement)
    (weights : list R) : R :=
  match ms, weights with
  | m :: ms', w :: ws' => nth j (z3 m) 0 * w + weighted_column j ms' ws'
  | _, _ => 0
  end.

Definition weighted_sum (ms : list SensorMeasurement) (weights : list R)
    : list R :=
  [weighted_column 0 ms weights;
   weighted_column 1 ms weights;
   weighted_column 2 ms weights].

(** [scale = np.array([1e-3, 1e-3, 10.0])] *)
Definition scale : list R := [1e-3; 1e-3; 10.0].

(** One row of [weights[:, None] * diffs_scaled ** 2], summed. *)
Definition scaled_sq_dev (m : SensorMeasurement) (fused : list R) : R :=
  Rsum (map (fun j => ((nth j (z3 m) 0 - nth j fused 0) / nth j scale 1) ^ 2)
            (seq 0 3)).

Fixpoint weighted_sq_dev (ms : list SensorMeasurement) (weights : list R)
    (fused : list R) : R :=
  match ms, weights with
  | m :: ms', w :: ws' =>
      w * scaled_sq_dev m fused + weighted_sq_dev ms' ws' fused
  | _, _ => 0
  end.

Definition dispersion (ms : list SensorMeasurement) (weights : list R)
    (fused : list R) : R :=
  sqrt (weighted_sq_dev ms weights fused).

(** [WeightedFusion.calculate_confidence]: returns
    [(fusion_conf, surprise)]. *)
Definition WeightedFusion_calculate_confidence
    (measurements : list SensorMeasurement)
    (weights : list R) (fused : list R) : R * R :=
  if (List.length measurements <? 2)%nat then (0.5, 0.5)
  else
    let surprise := clip (dispersion measurements weights fused / 2.0) 0.0 1.0 in
    let fusion_conf := clip (1.0 - surprise) 0.0 1.0 in
    (fusion_conf, surprise).

(** [WeightedFusion._fallback] *)
Definition _fallback : result FusedEstimate :=
  new_FusedEstimate {|
    fe_lat := 0.0; fe_lon := 0.0; fe_altitude_m := 0.0;
    fe_velocity_mps := 0.0; fe_heading_deg := 0.0;
    fe_threat_index := 0.0; fe_civ_density := 0.0;
    fe_fusion_conf := 0.1; fe_surprise := 1.0;
    fe_sensor_contrib := []; fe_used_meas_count := 0 |}.

(** [{m.sensor_id: float(w) for m, w in zip(pos_meas, weights)}] *)
Fixpoint contrib_from (acc : Dict R) (ms : list SensorMeasurement)
    (weights : list R) : Dict R :=
  match ms, weights with
  | m :: ms', w :: ws' => contrib_from (dict_set acc (m_sensor_id m) w) ms' ws'
  | _, _ => acc
  end.

(** [WeightedFusion.fuse].  [np.stack] and the indexing [fused[0..2]]
    need every stacked [z[:3]] to have three components; with a shorter
    one the method raises, here [ShapeError]. *)
Definition WeightedFusion_fuse (cfg : FusionConfig)
    (measurements : list SensorMeasurement) : result FusedEstimate :=
  let pos_meas := filter usable measurements in
  match pos_meas with
  | [] => _fallback
  | _ :: _ =>
      let weights := normalize (map (_weight cfg) pos_meas) in
      if forallb (fun m => (3 <=? List.length (m_z m))%nat) pos_meas then
        let fused := weighted_sum pos_meas weights in
        let '(fusion_conf, surprise) :=
          WeightedFusion_calculate_confidence pos_meas weights fused in
        let contrib := contrib_from [] pos_meas weights in
        new_FusedEstimate {|
          fe_lat := nth 0 fused 0;
          fe_lon := nth 1 fused 0;
          fe_altitude_m := nth 2 fused 0;
          fe_velocity_mps := 0.0; fe_heading_deg := 0.0;
          fe_threat_index := 0.0; fe_civ_density := 0.0;
          fe_fusion_conf := fusion_conf; fe_surprise := surprise;
          fe_sensor_contrib := contrib;
          fe_used_meas_count := Z.of_nat (List.length pos_meas) |}
      else Raise ShapeError
  end.

(** [KalmanFusion.fuse] *)
Definition KalmanFusion_fuse (cfg : FusionConfig)
    (measurements : list SensorMeasurement) : result FusedEstimate :=
  Raise (NotImplementedError
           "KalmanFusion is a stub and must be explicitly implemented.").

(** The interface [FusionStrategy]: an object is the record of its
    methods. *)
Record FusionStrategy : Type := mkFusionStrategy {
  fuse : list SensorMeasurement -> result FusedEstimate;
  calculate_confidence :
    list SensorMeasurement -> list R -> list R -> result (R * R)
}.

Definition WeightedFusion (cfg : FusionConfig) : FusionStrategy := {|
  fuse := WeightedFusion_fuse cfg;
  calculate_confidence :=
    fun ms ws fused => Ok (WeightedFusion_calculate_confidence ms ws fused)
|}.

Definition KalmanFusion (cfg : FusionConfig) : FusionStrategy := {|
  fuse := KalmanFusion_fuse cfg;
  calculate_confidence := fun _ _ _ => Raise (NotImplementedError "")
|}.

(* ================================================================== *)
(** ** casper.fusion.engine: the engine *)
(* ================================================================== *)

Record FusionEngine : Type := mkFusionEngine {
  eng_config : FusionConfig;
  eng_strategies : Dict FusionStrategy;
  eng_strategy_name : string;
  eng_strategy : FusionStrategy
}.

(** [FusionEngine.__init__].  The final lookup
    [self._strategies[self.strategy_name]] is of a key just checked to be
    present (or of "weighted"); its default is never reached. *)
Definition FusionEngine_init (cfg : FusionConfig) (strategy_name : string)
    : FusionEngine :=
  let strategies :=
    [("weighted", WeightedFusion cfg); ("kalman", KalmanFusion cfg)] in
  let name :=
    if dict_mem strategies strategy_name then strategy_name else "weighted" in
  {| eng_config := cfg;
     eng_strategies := strategies;
     eng_strategy_name := name;
     eng_strategy := dict_get strategies name (WeightedFusion cfg) |}.

(** [FusionEngine.set_strategy] *)
Definition set_strategy (e : FusionEngine) (strategy_name : string)
    : FusionEngine :=
  let name :=
    if dict_mem (eng_strategies e) strategy_name
    then strategy_name else "weighted" in
  {| eng_config := eng_config e;
     eng_strategies := eng_strategies e;
     eng_strategy_name := name;
     eng_strategy :=
       dict_get (eng_strategies e) name (WeightedFusion (eng_config e)) |}.

(** [FusionEngine.fuse] *)
Definition FusionEngine_fuse (e : FusionEngine)
    (history : list SensorMeasurement) (current_tick : Z)
    : result FusedEstimate :=
  let selected := select_measurements (eng_config e) history current_tick in
  fuse (eng_strategy e) selected.

(* ================================================================== *)
(** ** casper.presets *)
(* ================================================================== *)

Record AOConfig : Type := mkAOConfig {
  ao_label : string;
  ao_base_lat : R;
  ao_base_lon : R;
  ao_lat_delta : R;
  ao_lon_delta : R
}.

Record EnvProfile : Type := mkEnvProfile {
  env_name : string;
  env_latency_base : R;
  env_latency_jitter : R;
  env_thermal_bias : R;
  env_imu_drift_bias : R;
  env_gnss_jam_factor : R;
  env_eoir_degrade : R
}.

Record EnvelopePreset : Type := mkEnvelopePreset {
  envp_name : string;
  envp_max_mach : R;
  envp_max_q_kpa : R;
  envp_max_g : R;
  envp_max_thermal_index : R;
  envp_max_latency_ms : R;
  envp_description : string
}.

Definition AO_PRESETS : Dict AOConfig :=
  [("Kharkiv (synthetic)",
    mkAOConfig "Kharkiv Region" 49.9935 36.2304 0.08 0.12);
   ("Black Sea (synthetic)",
    mkAOConfig "Black Sea" 44.5 34.0 0.2 0.3);
   ("Test Range (synthetic)",
    mkAOConfig "Test Range" 35.0 (-117.0) 0.1 0.1)].

Definition ENVIRONMENTS : Dict EnvProfile :=
  [("Clear Skies / Clean Link",
    mkEnvProfile "Clear" 120 40 0.0 0.0 0.0 0.0);
   ("High Latency Link",
    mkEnvProfile "High Lat" 260 80 0.05 0.02 0.05 0.10);
   ("GNSS Degraded / Spoof Risk",
    mkEnvProfile "GNSS Degraded" 180 70 0.03 0.03 0.55 0.15);
   ("EO/IR Degraded",
    mkEnvProfile "EOIR Degraded" 140 60 0.02 0.02 0.05 0.55)].

Definition ENVELOPES : Dict EnvelopePreset :=
  [("Nominal Demo Flight",
    mkEnvelopePreset "Nominal Demo Flight" 1.8 650 4.5 0.78 300
      "Balanced flight envelope");
   ("Conservative Test Profile",
    mkEnvelopePreset "Conservative Test Profile" 1.2 450 3.5 0.65 250
      "Tight, conservative envelope");
   ("Aggressive Envelope Probe",
    mkEnvelopePreset "Aggressive Envelope Probe" 2.3 800 5.5 0.90 350
      "Aggressive test envelope")].

(** [TABLE[key]]: a missing key raises [KeyError]. *)
Definition dict_index {V} (d : Dict V) (k : string) : result V :=
  match dict_find d k with
  | Some v => Ok v
  | None => Raise (KeyError k)
  end.

(* ================================================================== *)
(** ** casper.models: Telemetry; casper.audit.chain: AuditRecord *)
(* ================================================================== *)

Record Telemetry : Type := mkTelemetry {
  tel_tick : Z;
  tel_utc_timestamp : string;
  tel_mission_time_s : R;
  tel_mission_stage_code : string;
  tel_mission_stage_label : string;
  tel_mission_stage_tick : Z;
  tel_flight_phase : string;
  tel_mach : R;
  tel_velocity_mps : R;
  tel_altitude_m : R;
  tel_q_kpa : R;
  tel_thermal_index : R;
  tel_g_load : R;
  tel_link_latency_ms : R;
  tel_imu_drift_deg_s : R;
  tel_lat : R;
  tel_lon : R;
  tel_threat_index : R;
  tel_civ_density : R;
  tel_nav_drift : R;
  tel_comms_loss : R;
  tel_vision_hot_ratio : R;
  tel_clarity : R;
  tel_risk : R;
  tel_predicted_risk : R;
  tel_state : SystemState;
  tel_envelope_pressure : R;
  tel_cc_combined : R;
  tel_cc_nav_conf : R;
  tel_cc_comms_conf : R;
  tel_cc_vision_conf : R;
  tel_cc_clarity_factor : R;
  tel_cc_threat_factor : R;
  tel_fusion_conf : R;
  tel_fusion_surprise : R
}.

(** The [Field(ge=..., le=...)] constraints of [Telemetry]. *)
Definition Telemetry_ok (t : Telemetry) : bool :=
  (0 <=? tel_tick t)%Z &&
  Rleb 0.0 (tel_mission_time_s t) &&
  (0 <=? tel_mission_stage_tick t)%Z &&
  in_range 0.0 (tel_mach t) 5.0 &&
  in_range 0.0 (tel_velocity_mps t) 2000.0 &&
  in_range (-1000.0) (tel_altitude_m t) 50000.0 &&
  in_range 0.0 (tel_q_kpa t) 1000.0 &&
  in_range 0.0 (tel_thermal_index t) 1.0 &&
  in_range 0.0 (tel_g_load t) 10.0 &&
  in_range 0.0 (tel_link_latency_ms t) 2000.0 &&
  in_range 0.0 (tel_imu_drift_deg_s t) 2.0 &&
  in_range (-90.0) (tel_lat t) 90.0 &&
  in_range (-180.0) (tel_lon t) 180.0 &&
  in_range 0.0 (tel_threat_index t) 100.0 &&
  in_range 0.0 (tel_civ_density t) 1.0 &&
  in_range 0.0 (tel_nav_drift t) 100.0 &&
  in_range 0.0 (tel_comms_loss t) 1.0 &&
  in_range 0.0 (tel_vision_hot_ratio t) 1.0 &&
  in_range 0.0 (tel_clarity t) 100.0 &&
  in_range 0.0 (tel_risk t) 100.0 &&
  in_range 0.0 (tel_predicted_risk t) 100.0 &&
  in_range 0.0 (tel_envelope_pressure t) 2.0 &&
  in_range 0.0 (tel_cc_combined t) 1.0 &&
  in_range 0.0 (tel_cc_nav_conf t) 1.0 &&
  in_range 0.0 (tel_cc_comms_conf t) 1.0 &&
  in_range 0.0 (tel_cc_vision_conf t) 1.0 &&
  in_range 0.0 (tel_cc_clarity_factor t) 1.0 &&
  in_range 0.0 (tel_cc_threat_factor t) 1.0 &&
  in_range 0.0 (tel_fusion_conf t) 1.0 &&
  in_range 0.0 (tel_fusion_surprise t) 1.0.

Definition new_Telemetry (t : Telemetry) : result Telemetry :=
  if Telemetry_ok t then Ok t else Raise (ValidationError "Telemetry").

Record AuditRecord : Type := mkAuditRecord {
  ar_tick : Z;
  ar_utc : string;
  ar_used_measurements : list (Dict JSON);
  ar_fused_output : Dict JSON;
  ar_sha256 : string
}.

Definition new_AuditRecord (a : AuditRecord) : result AuditRecord :=
  if (0 <=? ar_tick a)%Z then Ok a else Raise (ValidationError "AuditRecord").

(* ================================================================== *)
(** ** casper.state *)
(* ================================================================== *)

Record EngineState : Type := mkEngineState {
  st_config : FusionConfig;
  st_tick : Z;
  st_mission_time_s : R;
  st_mission_stage_index : Z;
  st_mission_stage_tick : Z;
  st_run_id : Z;
  st_rng_seed : Z;
  st_ao : option AOConfig;
  st_env_name : string;
  st_envelope_name : string;
  st_threshold_name : string;
  st_clarity_ema : R;
  st_history : list Telemetry;
  st_meas_history : list SensorMeasurement;
  st_audit_chain : list AuditRecord;
  st_fused : option FusedEstimate;
  st_last_seen_tick : Dict Z;
  st_terrain : option (list (list R));
  st_fusion_strategy_name : string
}.

(** [deque(maxlen=n).append(x)]: when full, the oldest entry leaves. *)
Definition deque_append {A} (maxlen : nat) (d : list A) (x : A) : list A :=
  let d' := d ++ [x] in
  skipn (List.length d' - maxlen) d'.

(** The wall clock: the values [datetime.utcnow().isoformat() + "Z"]
    and [int(time.time() * 1000)] take, one per call, in call order. *)
Record Clock : Type := mkClock {
  utc_readings : nat -> string;
  time_readings : nat -> Z
}.

(** [EngineState.utc]: reads the clock, not the state. *)
Definition utc (clk : Clock) : string * Clock :=
  (utc_readings clk 0%nat,
   {| utc_readings := fun n => utc_readings clk (S n);
      time_readings := time_readings clk |}).

(** [int(time.time() * 1000)] *)
Definition time_ms (clk : Clock) : Z * Clock :=
  (time_readings clk 0%nat,
   {| utc_readings := utc_readings clk;
      time_readings := fun n => time_readings clk (S n) |}).

(** Field updates of the (mutable) state object. *)
Definition set_meas_history (s : EngineState) (v : list SensorMeasurement) : EngineState :=
  {| st_config := st_config s;
     st_tick := st_tick s;
     st_mission_time_s := st_mission_time_s s;
     st_mission_stage_index := st_mission_stage_index s;
     st_mission_stage_tick := st_mission_stage_tick s;
     st_run_id := st_run_id s;
     st_rng_seed := st_rng_seed s;
     st_ao := st_ao s;
     st_env_name := st_env_name s;
     st_envelope_name := st_envelope_name s;
     st_threshold_name := st_threshold_name s;
     st_clarity_ema := st_clarity_ema s;
     st_history := st_history s;
     st_meas_history := v;
     st_audit_chain := st_audit_chain s;
     st_fused := st_fused s;
     st_last_seen_tick := st_last_seen_tick s;
     st_terrain := st_terrain s;
     st_fusion_strategy_name := st_fusion_strategy_name s |}.

Definition set_last_seen_tick (s : EngineState) (v : Dict Z) : EngineState :=
  {| st_config := st_config s;
     st_tick := st_tick s;
     st_mission_time_s := st_mission_time_s s;
     st_mission_stage_index := st_mission_stage_index s;
     st_mission_stage_tick := st_mission_stage_tick s;
     st_run_id := st_run_id s;
     st_rng_seed := st_rng_seed s;
     st_ao := st_ao s;
     st_env_name := st_env_name s;
     st_envelope_name := st_envelope_name s;
     st_threshold_name := st_threshold_name s;
     st_clarity_ema := st_clarity_ema s;
     st_history := st_history s;
     st_meas_history := st_meas_history s;
     st_audit_chain := st_audit_chain s;
     st_fused := st_fused s;
     st_last_seen_tick := v;
     st_terrain := st_terrain s;
     st_fusion_strategy_name := st_fusion_strategy_name s |}.

Definition set_fused (s : EngineState) (v : option FusedEstimate) : EngineState :=
  {| st_config := st_config s;
     st_tick := st_tick s;
     st_mission_time_s := st_mission_time_s s;
     st_mission_stage_index := st_mission_stage_index s;
     st_mission_stage_tick := st_mission_stage_tick s;
     st_run_id := st_run_id s;
     st_rng_seed := st_rng_seed s;
     st_ao := st_ao s;
     st_env_name := st_env_name s;
     st_envelope_name := st_envelope_name s;
     st_threshold_name := st_threshold_name s;
     st_clarity_ema := st_clarity_ema s;
     st_history := st_history s;
     st_meas_history := st_meas_history s;
     st_audit_chain := st_audit_chain s;
     st_fused := v;
     st_last_seen_tick := st_last_seen_tick s;
     st_terrain := st_terrain s;
     st_fusion_strategy_name := st_fusion_strategy_name s |}.

Definition set_audit_chain (s : EngineState) (v : list AuditRecord) : EngineState :=
  {| st_config := st_config s;
     st_tick := st_tick s;
     st_mission_time_s := st_mission_time_s s;
     st_mission_stage_index := st_mission_stage_index s;
     st_mission_stage_tick := st_mission_stage_tick s;
     st_run_id := st_run_id s;
     st_rng_seed := st_rng_seed s;
     st_ao := st_ao s;
     st_env_name := st_env_name s;
     st_envelope_name := st_envelope_name s;
     st_threshold_name := st_threshold_name s;
     st_clarity_ema := st_clarity_ema s;
     st_history := st_history s;
     st_meas_history := st_meas_history s;
     st_audit_chain := v;
     st_fused := st_fused s;
     st_last_seen_tick := st_last_seen_tick s;
     st_terrain := st_terrain s;
     st_fusion_strategy_name := st_fusion_strategy_name s |}.

Definition set_tick (s : EngineState) (v : Z) : EngineState :=
  {| st_config := st_config s;
     st_tick := v;
     st_mission_time_s := st_mission_time_s s;
     st_mission_stage_index := st_mission_stage_index s;
     st_mission_stage_tick := st_mission_stage_tick s;
     st_run_id := st_run_id s;
     st_rng_seed := st_rng_seed s;
     st_ao := st_ao s;
     st_env_name := st_env_name s;
     st_envelope_name := st_envelope_name s;
     st_threshold_name := st_threshold_name s;
     st_clarity_ema := st_clarity_ema s;
     st_history := st_history s;
     st_meas_history := st_meas_history s;
     st_audit_chain := st_audit_chain s;
     st_fused := st_fused s;
     st_last_seen_tick := st_last_seen_tick s;
     st_terrain := st_terrain s;
     st_fusion_strategy_name := st_fusion_strategy_name s |}.

Definition set_mission_time_s (s : EngineState) (v : R) : EngineState :=
  {| st_config := st_config s;
     st_tick := st_tick s;
     st_mission_time_s := v;
     st_mission_stage_index := st_mission_stage_index s;
     st_mission_stage_tick := st_mission_stage_tick s;
     st_run_id := st_run_id s;
     st_rng_seed := st_rng_seed s;
     st_ao := st_ao s;
     st_env_name := st_env_name s;
     st_envelope_name := st_envelope_name s;
     st_threshold_name := st_threshold_name s;
     st_clarity_ema := st_clarity_ema s;
     st_history := st_history s;
     st_meas_history := st_meas_history s;
     st_audit_chain := st_audit_chain s;
     st_fused := st_fused s;
     st_last_seen_tick := st_last_seen_tick s;
     st_terrain := st_terrain s;
     st_fusion_strategy_name := st_fusion_strategy_name s |}.

Definition set_history (s : EngineState) (v : list Telemetry) : EngineState :=
  {| st_config := st_config s;
     st_tick := st_tick s;
     st_mission_time_s := st_mission_time_s s;
     st_mission_stage_index := st_mission_stage_index s;
     st_mission_stage_tick := st_mission_stage_tick s;
     st_run_id := st_run_id s;
     st_rng_seed := st_rng_seed s;
     st_ao := st_ao s;
     st_env_name := st_env_name s;
     st_envelope_name := st_envelope_name s;
     st_threshold_name := st_threshold_name s;
     st_clarity_ema := st_clarity_ema s;
     st_history := v;
     st_meas_history := st_meas_history s;
     st_audit_chain := st_audit_chain s;
     st_fused := st_fused s;
     st_last_seen_tick := st_last_seen_tick s;
     st_terrain := st_terrain s;
     st_fusion_strategy_name := st_fusion_strategy_name s |}.

(** [EngineState.reset] *)
Definition reset (s : EngineState) (new_seed : option Z) (clk : Clock)
    : EngineState * Clock :=
  let '(now_ms, clk') := time_ms clk in
  ({| st_config := st_config s;
      st_tick := 0;
      st_mission_time_s := 0.0;
      st_mission_stage_index := 0;
      st_mission_stage_tick := 0;
      st_run_id := now_ms;
      st_rng_seed :=
        match new_seed with Some n => n | None => st_rng_seed s end;
      st_ao := st_ao s;
      st_env_name := st_env_name s;
      st_envelope_name := st_envelope_name s;
      st_threshold_name := st_threshold_name s;
      st_clarity_ema := 0.9;
      st_history := [];
      st_meas_history := [];
      st_audit_chain := [];
      st_fused := None;
      st_last_seen_tick := [];
      st_terrain := None;
      st_fusion_strategy_name := st_fusion_strategy_name s |},
   clk').

(* ================================================================== *)
(** ** casper.governance.clarity_risk *)
(* ================================================================== *)

Record ClarityRiskCalculator : Type := mkClarityRiskCalculator {
  crc_config : FusionConfig;
  crc_clarity_ema : R
}.

(** [ClarityRiskCalculator.__init__] *)
Definition ClarityRiskCalculator_init (cfg : FusionConfig)
    : ClarityRiskCalculator :=
  {| crc_config := cfg; crc_clarity_ema := 0.9 |}.

(** [ClarityRiskCalculator.reset] *)
Definition ClarityRiskCalculator_reset (c : ClarityRiskCalculator)
    : ClarityRiskCalculator :=
  {| crc_config := crc_config c; crc_clarity_ema := 0.9 |}.

(** The [physical_state] dictionary of [compute]. *)
Record PhysicalState : Type := mkPhysicalState {
  ps_q_kpa : R;
  ps_thermal_index : R;
  ps_threat_index : R
}.

Definition envelope_pressure (envp : EnvelopePreset) (ps : PhysicalState)
    : R :=
  let q_u := clip (ps_q_kpa ps / envp_max_q_kpa envp) 0 1.6 in
  let t_u := clip (ps_thermal_index ps / envp_max_thermal_index envp) 0 1.8 in
  0.6 * q_u + 0.4 * t_u.

(** The value of [raw] just before the EMA update. *)
Definition raw_clarity (envp : EnvelopePreset) (ps : PhysicalState)
    (fused : FusedEstimate) : R :=
  let threat_u := clip (ps_threat_index ps / 100.0) 0 1.0 in
  let pressure := envelope_pressure envp ps in
  let fusion_conf := fe_fusion_conf fused in
  let surprise := fe_surprise fused in
  let raw := clip (1.0 - pressure - 0.3 * threat_u) 0.55 1.0 in
  let raw := raw * clip (0.70 + 0.30 * fusion_conf) 0.0 1.0 in
  let raw := raw * clip (1.0 - 0.30 * surprise) 0.0 1.0 in
  raw.

(** The outputs of [compute]:
    [(clarity, risk, pred, sys_state, pressure)]. *)
Record Governance : Type := mkGovernance {
  g_clarity : R;
  g_risk : R;
  g_pred : R;
  g_sys_state : SystemState;
  g_pressure : R
}.

(** [ClarityRiskCalculator.compute]: the calculator after the call is
    returned beside the outputs; a failed envelope lookup leaves it as it
    was.  The preset maxima it divides by are those of [ENVELOPES], none
    of them zero. *)
Definition compute (c : ClarityRiskCalculator) (state : EngineState)
    (physical_state : PhysicalState) (fused : FusedEstimate)
    : result Governance * ClarityRiskCalculator :=
  match dict_index ENVELOPES (st_envelope_name state) with
  | Raise e => (Raise e, c)
  | Ok envp =>
      let pressure := envelope_pressure envp physical_state in
      let fusion_conf := fe_fusion_conf fused in
      let surprise := fe_surprise fused in
      let raw := raw_clarity envp physical_state fused in
      let clarity_ema := 0.15 * raw + 0.85 * crc_clarity_ema c in
      let clarity := clarity_ema * 100.0 in
      let risk :=
        clip (pressure * 60.0 + (100.0 - clarity) * 0.45
              + (1.0 - fusion_conf) * 18.0 + surprise * 14.0) 0.0 100.0 in
      let pred := clip (risk + 8.0 * (pressure - 0.8)) 0.0 100.0 in
      let sys_state :=
        if Rleb 90 clarity && Rltb risk 30 then STABLE
        else if Rleb 80 clarity then TENSE
        else if Rleb 65 clarity then HIGH_RISK
        else CRITICAL in
      (Ok {| g_clarity := clarity; g_risk := risk; g_pred := pred;
             g_sys_state := sys_state; g_pressure := pressure |},
       {| crc_config := crc_config c; crc_clarity_ema := clarity_ema |})
  end.

(** [n] successive calls of [compute] on the same inputs; the outputs of
    the last call are returned ([None] for no call). *)
Fixpoint compute_n (n : nat) (c : ClarityRiskCalculator)
    (state : EngineState) (ps : PhysicalState) (fused : FusedEstimate)
    : result (option Governance) * ClarityRiskCalculator :=
  match n with
  | O => (Ok None, c)
  | S n' =>
      match compute_n n' c state ps fused with
      | (Raise e, c') => (Raise e, c')
      | (Ok _, c') =>
          match compute c' state ps fused with
          | (Raise e, c'') => (Raise e, c'')
          | (Ok g, c'') => (Ok (Some g), c'')
          end
      end
  end.

(* ================================================================== *)
(** ** casper.audit.chain *)
(* ================================================================== *)

(** Python's [str] order on keys (code point by code point). *)
Definition key_leb (a b : string) : bool :=
  match String_as_OT.compare a b with
  | Gt => false
  | _ => true
  end.

Fixpoint insert_item {V} (x : string * V) (l : list (string * V))
    : list (string * V) :=
  match l with
  | [] => [x]
  | y :: l' =>
      if key_leb (fst x) (fst y) then x :: y :: l' else y :: insert_item x l'
  end.

(** [sorted(d.items())] for a dictionary with string keys. *)
Definition sort_items {V} (l : list (string * V)) : list (string * V) :=
  fold_right insert_item [] l.

Fixpoint join (sep : string) (l : list string) : string :=
  match l with
  | [] => ""
  | [x] => x
  | x :: l' => String.append x (String.append sep (join sep l'))
  end.

(** [repr] of an [int] *)
Definition int_repr (n : Z) : string := NilZero.string_of_int (Z.to_int n).

Section Audit.

(** What the serialisation and the digest take from the runtime:
    [float.__repr__], the JSON string encoder (quotes and escapes), and
    [hashlib.sha256(raw.encode("utf-8")).hexdigest()]. *)
Variable float_repr : R -> string.
Variable json_escape : string -> string.
Variable sha256_hexdigest : string -> string.

(** [json.dumps(v, sort_keys=True, separators=(",", ":"))] *)
Fixpoint json_dumps (v : JSON) : string :=
  match v with
  | JNull => "null"
  | JBool b => if b then "true" else "false"
  | JInt n => int_repr n
  | JFloat x => float_repr x
  | JString s => json_escape s
  | JArray l =>
      String.append "[" (String.append (join "," (map json_dumps l)) "]")
  | JObject kv =>
      let rendered := map (fun '(k, v) => (k, json_dumps v)) kv in
      let items :=
        map (fun '(k, text) =>
               String.append (json_escape k) (String.append ":" text))
            (sort_items rendered) in
      String.append "{" (String.append (join "," items) "}")
  end.

(** One entry of [used_payload]. *)
Definition measurement_summary (m : SensorMeasurement) : Dict JSON :=
  [("sensor_id", JString (m_sensor_id m));
   ("type", JString (SensorType_value (m_sensor_type m)));
   ("quality", JFloat (m_quality m));
   ("latency_ms", JFloat (m_latency_ms m));
   ("tick", JInt (m_tick m));
   ("z3", JArray (map JFloat (z3 m)));
   ("R_trace", JFloat (trace (m_R m)));
   ("dropped", JBool (m_dropped m));
   ("meta", JObject (m_meta m))].

Definition fused_summary (fused : FusedEstimate) : Dict JSON :=
  [("lat", JFloat (fe_lat fused));
   ("lon", JFloat (fe_lon fused));
   ("altitude_m", JFloat (fe_altitude_m fused));
   ("velocity_mps", JFloat (fe_velocity_mps fused));
   ("heading_deg", JFloat (fe_heading_deg fused));
   ("fusion_conf", JFloat (fe_fusion_conf fused));
   ("surprise", JFloat (fe_surprise fused));
   ("sensor_contrib",
    JObject (map (fun '(k, v) => (k, JFloat v)) (fe_sensor_contrib fused)));
   ("used_meas_count", JInt (fe_used_meas_count fused))].

Definition audit_payload (tick : Z) (utc_now : string)
    (used_payload : list (Dict JSON)) (fused_payload : Dict JSON) : JSON :=
  JObject [("tick", JInt tick);
           ("utc", JString utc_now);
           ("used", JArray (map JObject used_payload));
           ("fused", JObject fused_payload)].

(** [build_audit_record] *)
Definition build_audit_record (tick : Z) (utc_now : string)
    (used_measurements : list SensorMeasurement) (fused : FusedEstimate)
    : result AuditRecord :=
  let used_payload := map measurement_summary used_measurements in
  let fused_payload := fused_summary fused in
  let payload := audit_payload tick utc_now used_payload fused_payload in
  let raw := json_dumps payload in
  let sha := sha256_hexdigest raw in
  new_AuditRecord {|
    ar_tick := tick;
    ar_utc := utc_now;
    ar_used_measurements := used_payload;
    ar_fused_output := fused_payload;
    ar_sha256 := sha |}.

End Audit.

(* ================================================================== *)
(** ** The engine object and the store a step runs in *)
(* ================================================================== *)

(** [StepEngine]: its configuration and its governance calculator (the
    sensor simulator it also holds has no state). *)
Record StepEngine : Type := mkStepEngine {
  se_config : FusionConfig;
  se_clarity_calc : ClarityRiskCalculator
}.

(** [StepEngine.__init__] *)
Definition StepEngine_init (cfg : FusionConfig) : StepEngine :=
  {| se_config := cfg; se_clarity_calc := ClarityRiskCalculator_init cfg |}.

(** The ground truth dictionary of [_generate_truth]. *)
Record Truth : Type := mkTruth {
  tr_mach : R;
  tr_velocity_mps : R;
  tr_altitude_m : R;
  tr_q_kpa : R;
  tr_thermal_index : R;
  tr_g_load : R;
  tr_lat : R;
  tr_lon : R;
  tr_threat_index : R;
  tr_civ_density : R;
  tr_nav_drift : R;
  tr_vision_hot_ratio : R
}.

(** [float(v)] of a metadata value. *)
Definition json_float (v : JSON) : R :=
  match v with
  | JFloat x => x
  | JInt n => IZR n
  | JBool true => 1
  | _ => 0
  end.

(** [next((f(m) for m in measurements if m.sensor_id == sid), default)] *)
Definition first_of {A} (measurements : list SensorMeasurement)
    (sid : string) (f : SensorMeasurement -> A) (default : A) : A :=
  match find (fun m => String.eqb (m_sensor_id m) sid) measurements with
  | Some m => f m
  | None => default
  end.

(** [state.history[-1] if state.history else None] *)
Definition last_telemetry (state : EngineState) : option Telemetry :=
  match rev (st_history state) with
  | [] => None
  | t :: _ => Some t
  end.

Section Pipeline.

(** The pseudo-random generator of numpy, as the code uses it:
    [np.random.default_rng(seed)], [rng.uniform(lo, hi)],
    [rng.normal(mu, sigma)] and [rng.random()], each draw returning the
    value and the generator after it. *)
Variable Rng : Type.
Variable default_rng : Z -> Rng.
Variable rng_uniform : R -> R -> Rng -> R * Rng.
Variable rng_normal : R -> R -> Rng -> R * Rng.
Variable rng_random : Rng -> R * Rng.

Variable float_repr : R -> string.
Variable json_escape : string -> string.
Variable sha256_hexdigest : string -> string.

(** Everything a step can read or write: the engine object, the run
    state, the wall clock and the generator of the tick. *)
Record Store : Type := mkStore {
  s_engine : StepEngine;
  s_state : EngineState;
  s_clock : Clock;
  s_rng : Rng
}.

(** A computation that may raise; what it wrote before raising stays
    written. *)
Definition M (A : Type) : Type := Store -> result A * Store.

Definition ret {A} (a : A) : M A := fun s => (Ok a, s).

Definition bind {A B} (c : M A) (k : A -> M B) : M B :=
  fun s =>
    match c s with
    | (Ok a, s') => k a s'
    | (Raise e, s') => (Raise e, s')
    end.

Notation "x <- c ;; k" := (bind c (fun x => k))
  (at level 61, c at next level, right associativity).
Notation "c ;;; k" := (bind c (fun _ => k))
  (at level 61, right associativity).

Definition lift {A} (r : result A) : M A := fun s => (r, s).

Definition get_state : M EngineState := fun s => (Ok (s_state s), s).

Definition put_state (st : EngineState) : M unit :=
  fun s =>
    (Ok tt, {| s_engine := s_engine s; s_state := st;
               s_clock := s_clock s; s_rng := s_rng s |}).

Definition get_engine : M StepEngine := fun s => (Ok (s_engine s), s).

Definition put_engine (e : StepEngine) : M unit :=
  fun s =>
    (Ok tt, {| s_engine := e; s_state := s_state s;
               s_clock := s_clock s; s_rng := s_rng s |}).

(** [state.utc()] *)
Definition state_utc : M string :=
  fun s =>
    let '(now, clk) := utc (s_clock s) in
    (Ok now, {| s_engine := s_engine s; s_state := s_state s;
                s_clock := clk; s_rng := s_rng s |}).

Definition draw (f : Rng -> R * Rng) : M R :=
  fun s =>
    let '(x, g) := f (s_rng s) in
    (Ok x, {| s_engine := s_engine s; s_state := s_state s;
              s_clock := s_clock s; s_rng := g |}).

Definition uniform (lo hi : R) : M R := draw (rng_uniform lo hi).
Definition normal (mu sigma : R) : M R := draw (rng_normal mu sigma).
Definition random : M R := draw rng_random.

(** [rng.normal(0, std)] for a three-component [std]: three draws. *)
Definition normal3 (std : list R) : M (list R) :=
  n0 <- normal 0 (nth 0 std 0) ;;
  n1 <- normal 0 (nth 1 std 0) ;;
  n2 <- normal 0 (nth 2 std 0) ;;
  ret [n0; n1; n2].

Definition vadd (a b : list R) : list R :=
  map (fun j => nth j a 0 + nth j b 0) (seq 0 3).

Definition vscale (a : list R) (k : R) : list R := map (fun x => x * k) a.

Definition vsquare (a : list R) : list R := map (fun x => x ^ 2) a.

(* ------------------------------------------------------------------ *)
(** *** casper.sensors.simulator *)
(* ------------------------------------------------------------------ *)

Definition simulate_link (state : EngineState) (env : EnvProfile)
    : M SensorMeasurement :=
  jitter <- normal 0 (env_latency_jitter env) ;;
  let link_latency := clip (env_latency_base env + jitter) 40 800 in
  u <- random ;;
  let comms_loss :=
    if Rltb u (0.02 + 0.08 * (link_latency / 600.0)) then 1.0 else 0.0 in
  now <- state_utc ;;
  lift (new_SensorMeasurement {|
    m_tick := st_tick state + 1;
    m_utc_timestamp := now;
    m_sensor_id := "LINK_1";
    m_sensor_type := LINK;
    m_z := [link_latency; comms_loss; 0.0];
    m_R := diag [25.0; 0.05; 1.0];
    m_quality := clip (1.0 - link_latency / 900.0) 0.1 1.0;
    m_latency_ms := link_latency;
    m_dropped := false;
    m_meta := [("comms_loss", JFloat comms_loss)] |}).

Definition simulate_imu (state : EngineState) (env : EnvProfile)
    : M SensorMeasurement :=
  n <- normal 0 0.01 ;;
  let imu_drift := clip (0.02 + env_imu_drift_bias env + Rabs n) 0.005 0.12 in
  now <- state_utc ;;
  l <- normal 0 8 ;;
  lift (new_SensorMeasurement {|
    m_tick := st_tick state + 1;
    m_utc_timestamp := now;
    m_sensor_id := "IMU_1";
    m_sensor_type := IMU;
    m_z := [imu_drift; 0.0; 0.0];
    m_R := diag [0.0004; 1.0; 1.0];
    m_quality := clip (1.0 - imu_drift / 0.15) 0.2 1.0;
    m_latency_ms := clip (20 + l) 5 60;
    m_dropped := false;
    m_meta := [("imu_drift_deg_s", JFloat imu_drift)] |}).

Definition simulate_baro (state : EngineState) (truth : Truth)
    : M SensorMeasurement :=
  baro_noise <- normal 0 7.0 ;;
  let alt_baro := tr_altitude_m truth + baro_noise in
  now <- state_utc ;;
  l <- normal 0 10 ;;
  lift (new_SensorMeasurement {|
    m_tick := st_tick state + 1;
    m_utc_timestamp := now;
    m_sensor_id := "BARO_1";
    m_sensor_type := BARO;
    m_z := [alt_baro; 0.0; 0.0];
    m_R := diag [49.0; 1.0; 1.0];
    m_quality := 0.85;
    m_latency_ms := clip (30 + l) 5 80;
    m_dropped := false;
    m_meta := [("altitude_m_baro", JFloat alt_baro)] |}).

Definition simulate_gnss (state : EngineState) (truth : Truth)
    (env : EnvProfile) : M SensorMeasurement :=
  u <- random ;;
  let gnss_drop := Rltb u (0.02 + env_gnss_jam_factor env * 0.25) in
  let base_std := [0.00025; 0.00025; 3.5] in
  let jam_std := vscale [0.0012; 0.0012; 15.0] (env_gnss_jam_factor env) in
  let std := vadd base_std jam_std in
  let z_true := [tr_lat truth; tr_lon truth; tr_altitude_m truth] in
  if gnss_drop then
    now <- state_utc ;;
    l <- normal 0 35 ;;
    lift (new_SensorMeasurement {|
      m_tick := st_tick state + 1;
      m_utc_timestamp := now;
      m_sensor_id := "GNSS_A";
      m_sensor_type := GNSS;
      m_z := z_true;
      m_R := diag (vsquare std);
      m_quality := 0.0;
      m_latency_ms := clip (120 + l) 60 300;
      m_dropped := true;
      m_meta := [("dropped_reason", JString "synthetic_jam_drop");
                 ("jam_factor", JFloat (env_gnss_jam_factor env))] |})
  else
    noise <- normal3 std ;;
    u2 <- random ;;
    spoof_bias <-
      (if Rltb u2 (env_gnss_jam_factor env * 0.15)
       then normal3 [0.002; 0.002; 10.0]
       else ret [0.0; 0.0; 0.0]) ;;
    let z := vadd (vadd z_true noise) spoof_bias in
    let quality := clip (0.95 - env_gnss_jam_factor env * 0.6) 0.15 0.95 in
    now <- state_utc ;;
    l <- normal 0 25 ;;
    lift (new_SensorMeasurement {|
      m_tick := st_tick state + 1;
      m_utc_timestamp := now;
      m_sensor_id := "GNSS_A";
      m_sensor_type := GNSS;
      m_z := z;
      m_R := diag (vsquare std);
      m_quality := quality;
      m_latency_ms := clip (90 + l) 40 220;
      m_dropped := false;
      m_meta := [("jam_factor", JFloat (env_gnss_jam_factor env))] |}).

Definition simulate_eoir (state : EngineState) (truth : Truth)
    (env : EnvProfile) (comms_loss : R) : M SensorMeasurement :=
  u <- random ;;
  let eoir_drop :=
    Rltb u (0.03 + env_eoir_degrade env * 0.22 + comms_loss * 0.15) in
  let base_std := [0.0006; 0.0006; 8.0] in
  let degrade_std := vscale [0.0013; 0.0013; 20.0] (env_eoir_degrade env) in
  let std := vadd base_std degrade_std in
  let z_true := [tr_lat truth; tr_lon truth; tr_altitude_m truth] in
  if eoir_drop then
    now <- state_utc ;;
    l <- normal 0 55 ;;
    lift (new_SensorMeasurement {|
      m_tick := st_tick state + 1;
      m_utc_timestamp := now;
      m_sensor_id := "EOIR_1";
      m_sensor_type := EOIR;
      m_z := z_true;
      m_R := diag (vsquare std);
      m_quality := 0.0;
      m_latency_ms := clip (180 + l) 80 400;
      m_dropped := true;
      m_meta := [("dropped_reason", JString "synthetic_eoir_drop")] |})
  else
    noise <- normal3 std ;;
    let z := vadd z_true noise in
    h <- normal 0 0.03 ;;
    let hot_ratio := clip (tr_vision_hot_ratio truth + h) 0.0 1.0 in
    let quality :=
      clip (0.82 - env_eoir_degrade env * 0.55 - comms_loss * 0.2) 0.1 0.85 in
    now <- state_utc ;;
    l <- normal 0 45 ;;
    lift (new_SensorMeasurement {|
      m_tick := st_tick state + 1;
      m_utc_timestamp := now;
      m_sensor_id := "EOIR_1";
      m_sensor_type := EOIR;
      m_z := z;
      m_R := diag (vsquare std);
      m_quality := quality;
      m_latency_ms := clip (140 + l) 60 320;
      m_dropped := false;
      m_meta := [("hot_ratio", JFloat hot_ratio)] |}).

Definition simulate_radar (state : EngineState) (truth : Truth)
    : M SensorMeasurement :=
  let radar_std := [0.00045; 0.00045; 6.5] in
  noise <- normal3 radar_std ;;
  let z_true := [tr_lat truth; tr_lon truth; tr_altitude_m truth] in
  let z := vadd z_true noise in
  now <- state_utc ;;
  l <- normal 0 35 ;;
  lift (new_SensorMeasurement {|
    m_tick := st_tick state + 1;
    m_utc_timestamp := now;
    m_sensor_id := "RADAR_1";
    m_sensor_type := RADAR;
    m_z := z;
    m_R := diag (vsquare radar_std);
    m_quality := 0.75;
    m_latency_ms := clip (110 + l) 50 280;
    m_dropped := false;
    m_meta := [] |}).

(** [SensorSimulator.simulate_all] *)
Definition simulate_all (state : EngineState) (truth : Truth)
    (env : EnvProfile) : M (list SensorMeasurement) :=
  link <- simulate_link state env ;;
  let comms_loss := json_float (dict_get (m_meta link) "comms_loss" (JFloat 0.0)) in
  imu <- simulate_imu state env ;;
  baro <- simulate_baro state truth ;;
  gnss <- simulate_gnss state truth env ;;
  eoir <- simulate_eoir state truth env comms_loss ;;
  u <- random ;;
  if Rltb u 0.55 then
    radar <- simulate_radar state truth ;;
    ret [link; imu; baro; gnss; eoir; radar]
  else
    ret [link; imu; baro; gnss; eoir].

(* ------------------------------------------------------------------ *)
(** *** casper.step_engine *)
(* ------------------------------------------------------------------ *)

(** [(last.field if last else default)] *)
Definition last_or (last : option Telemetry) (f : Telemetry -> R)
    (default : R) : R :=
  match last with
  | Some t => f t
  | None => default
  end.

(** [StepEngine._generate_truth] *)
Definition _generate_truth (state : EngineState) (env : EnvProfile)
    : M Truth :=
  let last := last_telemetry state in
  envelope <- lift (dict_index ENVELOPES (st_envelope_name state)) ;;
  u <- uniform 0.01 0.05 ;;
  let mach := clip (last_or last tel_mach 0.0 + u) 0.0 (envp_max_mach envelope) in
  u <- uniform 50.0 150.0 ;;
  let alt := clip (last_or last tel_altitude_m 0.0 + u) 0.0 18000.0 in
  let vel := mach * 295.0 in
  let rho := 1.225 * exp (- alt / 8000.0) in
  let q := clip (0.5 * rho * vel ^ 2 / 1000.0) 0.0 900.0 in
  n <- normal 0 0.02 ;;
  let thermal :=
    clip (0.2 + 0.5 * (mach / envp_max_mach envelope)
          + env_thermal_bias env + n) 0.0 1.0 in
  ao <- lift (match st_ao state with
              | Some ao => Ok ao
              | None => Raise AttributeError
              end) ;;
  u <- uniform (- ao_lat_delta ao) (ao_lat_delta ao) ;;
  let lat := ao_base_lat ao + u in
  u <- uniform (- ao_lon_delta ao) (ao_lon_delta ao) ;;
  let lon := ao_base_lon ao + u in
  u <- uniform (-5.0) 5.0 ;;
  let threat := clip (last_or last tel_threat_index 40.0 + u) 0.0 100.0 in
  u <- uniform (-0.05) 0.05 ;;
  let civ := clip (last_or last tel_civ_density 0.3 + u) 0.0 1.0 in
  n <- normal 0 0.03 ;;
  ret {| tr_mach := mach;
         tr_velocity_mps := vel;
         tr_altitude_m := alt;
         tr_q_kpa := q;
         tr_thermal_index := thermal;
         tr_g_load := 1.0;
         tr_lat := lat;
         tr_lon := lon;
         tr_threat_index := threat;
         tr_civ_density := civ;
         tr_nav_drift := 5.0;
         tr_vision_hot_ratio := clip (0.10 + n) 0.0 1.0 |}.

(** The body of [for m in measurements:]. *)
Definition record_measurement (m : SensorMeasurement) : M unit :=
  state <- get_state ;;
  let state :=
    set_meas_history state
      (deque_append (cfg_max_measurement_history (st_config state))
         (st_meas_history state) m) in
  put_state
    (set_last_seen_tick state
       (dict_set (st_last_seen_tick state) (m_sensor_id m) (m_tick m))).

Fixpoint for_each {A} (l : list A) (body : A -> M unit) : M unit :=
  match l with
  | [] => ret tt
  | x :: l' => body x ;;; for_each l' body
  end.

(** [self.clarity_calc.compute(state, physical_state, fused)]: the
    calculator object inside the engine is updated in place. *)
Definition governance (physical_state : PhysicalState)
    (fused : FusedEstimate) : M Governance :=
  fun s =>
    let '(r, calc) :=
      compute (se_clarity_calc (s_engine s)) (s_state s)
        physical_state fused in
    (r, {| s_engine := {| se_config := se_config (s_engine s);
                          se_clarity_calc := calc |};
           s_state := s_state s;
           s_clock := s_clock s;
           s_rng := s_rng s |}).

(** [StepEngine.step], from the truth generation on. *)
Definition step_body (env : EnvProfile) : M unit :=
  engine <- get_engine ;;
  state <- get_state ;;
  (* Truth *)
  truth <- _generate_truth state env ;;
  (* Sensors *)
  measurements <- simulate_all state truth env ;;
  for_each measurements record_measurement ;;;
  (* Fusion *)
  state <- get_state ;;
  let fusion_engine :=
    FusionEngine_init (se_config engine) (st_fusion_strategy_name state) in
  fused <- lift (FusionEngine_fuse fusion_engine (st_meas_history state)
                   (st_tick state + 1)) ;;
  put_state (set_fused state (Some fused)) ;;;
  state <- get_state ;;
  let used_meas :=
    select_measurements (eng_config fusion_engine) (st_meas_history state)
      (st_tick state + 1) in
  (* Audit *)
  now <- state_utc ;;
  audit <- lift (build_audit_record float_repr json_escape sha256_hexdigest
                   (st_tick state + 1) now used_meas fused) ;;
  put_state
    (set_audit_chain state
       (deque_append (cfg_max_audit_history (st_config state))
          (st_audit_chain state) audit)) ;;;
  state <- get_state ;;
  (* Governance *)
  g <- governance {| ps_q_kpa := tr_q_kpa truth;
                     ps_thermal_index := tr_thermal_index truth;
                     ps_threat_index := tr_threat_index truth |} fused ;;
  (* Telemetry *)
  now <- state_utc ;;
  tel <- lift (new_Telemetry {|
    tel_tick := st_tick state + 1;
    tel_utc_timestamp := now;
    tel_mission_time_s := st_mission_time_s state + cfg_dt_seconds (se_config engine);
    tel_mission_stage_code := "STAGE";
    tel_mission_stage_label := "Recon";
    tel_mission_stage_tick := st_mission_stage_tick state;
    tel_flight_phase := "CRUISE";
    tel_mach := tr_mach truth;
    tel_velocity_mps := tr_velocity_mps truth;
    tel_altitude_m := fe_altitude_m fused;
    tel_q_kpa := tr_q_kpa truth;
    tel_thermal_index := tr_thermal_index truth;
    tel_g_load := tr_g_load truth;
    tel_link_latency_ms :=
      first_of measurements "LINK_1" (fun m => nth 0 (m_z m) 0) 0.0;
    tel_imu_drift_deg_s :=
      first_of measurements "IMU_1"
        (fun m => json_float (dict_get (m_meta m) "imu_drift_deg_s" (JFloat 0.0)))
        0.0;
    tel_lat := fe_lat fused;
    tel_lon := fe_lon fused;
    tel_threat_index := tr_threat_index truth;
    tel_civ_density := tr_civ_density truth;
    tel_nav_drift := tr_nav_drift truth;
    tel_comms_loss :=
      first_of measurements "LINK_1"
        (fun m => json_float (dict_get (m_meta m) "comms_loss" (JFloat 0.0)))
        0.0;
    tel_vision_hot_ratio := tr_vision_hot_ratio truth;
    tel_clarity := g_clarity g;
    tel_risk := g_risk g;
    tel_predicted_risk := g_pred g;
    tel_state := g_sys_state g;
    tel_envelope_pressure := g_pressure g;
    tel_cc_combined := g_clarity g / 100.0;
    tel_cc_nav_conf := fe_fusion_conf fused;
    tel_cc_comms_conf := first_of measurements "LINK_1" m_quality 1.0;
    tel_cc_vision_conf := first_of measurements "EOIR_1" m_quality 0.0;
    tel_cc_clarity_factor := g_clarity g / 100.0;
    tel_cc_threat_factor := Rmax 0.2 (1.0 - tr_threat_index truth / 150.0);
    tel_fusion_conf := fe_fusion_conf fused;
    tel_fusion_surprise := fe_surprise fused |}) ;;
  put_state
    (set_history
       (set_mission_time_s (set_tick state (tel_tick tel))
          (tel_mission_time_s tel))
       (deque_append (cfg_max_telemetry_history (st_config state))
          (st_history state) tel)).

(** What is left of the store when [step] returns or raises: the
    generator is local to the call. *)
Definition World : Type := (StepEngine * EngineState * Clock)%type.

(** [StepEngine.step].  [np.random.default_rng] refuses a negative
    seed. *)
Definition step (engine : StepEngine) (state : EngineState) (clk : Clock)
    : result unit * World :=
  match dict_index ENVIRONMENTS (st_env_name state) with
  | Raise e => (Raise e, (engine, state, clk))
  | Ok env =>
      let seed := (st_rng_seed state + st_tick state + 1)%Z in
      if (seed <? 0)%Z then (Raise ValueError, (engine, state, clk))
      else
        let '(r, s) :=
          step_body env {| s_engine := engine; s_state := state;
                           s_clock := clk; s_rng := default_rng seed |} in
        (r, (s_engine s, s_state s, s_clock s))
  end.

(** [n] calls of [step], stopping at the first that raises. *)
Fixpoint run (n : nat) (engine : StepEngine) (state : EngineState)
    (clk : Clock) : result unit * World :=
  match n with
  | O => (Ok tt, (engine, state, clk))
  | S n' =>
      match step engine state clk with
      | (Ok _, (engine', state', clk')) => run n' engine' state' clk'
      | (Raise e, w) => (Raise e, w)
      end
  end.

End Pipeline.

(* ================================================================== *)
(** ** The numeric kernels in binary64 *)
(* ================================================================== *)

(** Python's [float] is IEEE 754 binary64, and so are the kernel's
    primitive floats, with the same correctly rounded [+], [-], [*], [/]
    and square root.  The functions below repeat the arithmetic of
    [WeightedFusion._weight], [WeightedFusion.fuse],
    [WeightedFusion.calculate_confidence] and
    [ClarityRiskCalculator.compute] over them, operation by operation in
    the order of the source, so that what rounding does to a result can
    be computed.  A decimal literal denotes the binary64 value nearest to
    it, as in Python. *)

(** [np.clip(x, lo, hi)], that is [minimum(maximum(x, lo), hi)] *)
Definition clip_b64 (x lo hi : float) : float :=
  let y := if (x <? lo)%float then lo else x in
  if (hi <? y)%float then hi else y.

(** Python's [max(a, b)]: [b] when it is greater, else [a]. *)
Definition max_b64 (a b : float) : float :=
  if (a <? b)%float then b else a.

(** [a.sum()] and [np.trace]: numpy adds fewer than eight entries in
    order, starting from the first. *)
Definition sum_b64 (l : list float) : float :=
  match l with
  | [] => 0%float
  | x :: l' => fold_left PrimFloat.add l' x
  end.

(** [float(n)] for a length [n] *)
Fixpoint float_of_nat (n : nat) : float :=
  match n with
  | O => 0%float
  | S k => (float_of_nat k + 1)%float
  end.

(** What [fuse] reads of a usable measurement: [z[:3]], the diagonal of
    [R], [quality], [latency_ms], and the entry of
    [position_fusion_weight] for its sensor type. *)
Record Reading64 : Type := mkReading64 {
  r64_z : list float;
  r64_R_diag : list float;
  r64_quality : float;
  r64_latency_ms : float;
  r64_type_weight : float
}.

(** [WeightedFusion._weight] *)
Definition _weight_b64 (m : Reading64) : float :=
  let cov_trace := sum_b64 (r64_R_diag m) in
  let cov_term := (1.0 / max_b64 cov_trace 1e-9)%float in
  let latency_term := (1.0 / (1.0 + r64_latency_ms m / 200.0))%float in
  let quality_term := clip_b64 (r64_quality m) 0.0 1.0 in
  max_b64 0.0
    (cov_term * latency_term * quality_term * r64_type_weight m)%float.

(** The two branches of the weight normalisation in [fuse]. *)
Definition normalize_b64 (weights : list float) : list float :=
  let s := sum_b64 weights in
  if (s <=? 1e-12)%float then
    map (fun _ => (1.0 / float_of_nat (List.length weights))%float) weights
  else
    map (fun w => (w / s)%float) weights.

(** Column [j] of [(Z * weights[:, None]).sum(axis=0)]. *)
Definition weighted_column_b64 (j : nat) (ms : list Reading64)
    (weights : list float) : float :=
  sum_b64 (map (fun p => (nth j (r64_z (fst p)) 0 * snd p)%float)
             (combine ms weights)).

(** [WeightedFusion.calculate_confidence]: the weighted squares are
    summed row by row. *)
Definition calculate_confidence_b64 (ms : list Reading64)
    (weights fused : list float) : float * float :=
  if (List.length ms <? 2)%nat then (0.5%float, 0.5%float) else
  let scale := [1e-3; 1e-3; 10.0]%float in
  let term (p : Reading64 * float) (j : nat) : float :=
    let d := ((nth j (r64_z (fst p)) 0 - nth j fused 0)
              / nth j scale 0)%float in
    (snd p * (d * d))%float in
  let dispersion :=
    PrimFloat.sqrt
      (sum_b64 (flat_map (fun p => [term p 0%nat; term p 1%nat; term p 2%nat])
                  (combine ms weights))) in
  let surprise := clip_b64 (dispersion / 2.0)%float 0.0 1.0 in
  let fusion_conf := clip_b64 (1.0 - surprise)%float 0.0 1.0 in
  (fusion_conf, surprise).

(** What [fuse] computes from a non-empty list of usable measurements:
    the values of [sensor_contrib], the fused [lat], [lon] and
    [altitude_m], [fusion_conf] and [surprise]. *)
Record Fused64 : Type := mkFused64 {
  f64_contrib : list float;
  f64_lat : float;
  f64_lon : float;
  f64_altitude_m : float;
  f64_fusion_conf : float;
  f64_surprise : float
}.

Definition fuse_b64 (pos_meas : list Reading64) : Fused64 :=
  let weights := normalize_b64 (map _weight_b64 pos_meas) in
  let fused := [weighted_column_b64 0 pos_meas weights;
                weighted_column_b64 1 pos_meas weights;
                weighted_column_b64 2 pos_meas weights] in
  let '(fusion_conf, surprise) :=
    calculate_confidence_b64 pos_meas weights fused in
  {| f64_contrib := weights;
     f64_lat := nth 0 fused 0%float;
     f64_lon := nth 1 fused 0%float;
     f64_altitude_m := nth 2 fused 0%float;
     f64_fusion_conf := fusion_conf;
     f64_surprise := surprise |}.

(** The [Field(ge=..., le=...)] constraints of [FusedEstimate] on what
    [fuse] computes. *)
Definition FusedEstimate_ok_b64 (e : Fused64) : bool :=
  ((-90.0 <=? f64_lat e) && (f64_lat e <=? 90.0) &&
   (-180.0 <=? f64_lon e) && (f64_lon e <=? 180.0) &&
   (-1000.0 <=? f64_altitude_m e) && (f64_altitude_m e <=? 50000.0) &&
   (0.0 <=? f64_fusion_conf e) && (f64_fusion_conf e <=? 1.0) &&
   (0.0 <=? f64_surprise e) && (f64_surprise e <=? 1.0))%float.

(** What [compute] returns. *)
Record Governance64 : Type := mkGovernance64 {
  g64_clarity : float;
  g64_risk : float;
  g64_pred : float;
  g64_sys_state : SystemState;
  g64_pressure : float
}.

(** The raw clarity and the envelope pressure of [compute]. *)
Definition raw_clarity_b64 (max_q_kpa max_thermal_index : float)
    (q_kpa thermal_index threat_index fusion_conf surprise : float)
    : float * float :=
  let q_u := clip_b64 (q_kpa / max_q_kpa)%float 0 1.6 in
  let t_u := clip_b64 (thermal_index / max_thermal_index)%float 0 1.8 in
  let threat_u := clip_b64 (threat_index / 100.0)%float 0 1.0 in
  let pressure := (0.6 * q_u + 0.4 * t_u)%float in
  let raw := clip_b64 (1.0 - pressure - 0.3 * threat_u)%float 0.55 1.0 in
  let raw := (raw * clip_b64 (0.70 + 0.30 * fusion_conf) 0.0 1.0)%float in
  let raw := (raw * clip_b64 (1.0 - 0.30 * surprise) 0.0 1.0)%float in
  (raw, pressure).

(** [ClarityRiskCalculator.compute] for a known envelope: the outputs
    and the [clarity_ema] it leaves. *)
Definition compute_b64 (max_q_kpa max_thermal_index : float)
    (q_kpa thermal_index threat_index fusion_conf surprise : float)
    (clarity_ema : float) : Governance64 * float :=
  let '(raw, pressure) :=
    raw_clarity_b64 max_q_kpa max_thermal_index
      q_kpa thermal_index threat_index fusion_conf surprise in
  let clarity_ema := (0.15 * raw + 0.85 * clarity_ema)%float in
  let clarity := (clarity_ema * 100.0)%float in
  let risk :=
    clip_b64 (pressure * 60.0 + (100.0 - clarity) * 0.45
              + (1.0 - fusion_conf) * 18.0 + surprise * 14.0)%float
      0.0 100.0 in
  let pred := clip_b64 (risk + 8.0 * (pressure - 0.8))%float 0.0 100.0 in
  let sys_state :=
    if (90 <=? clarity)%float && (risk <? 30)%float then STABLE
    else if (80 <=? clarity)%float then TENSE
    else if (65 <=? clarity)%float then HIGH_RISK
    else CRITICAL in
  ({| g64_clarity := clarity; g64_risk := risk; g64_pred := pred;
      g64_sys_state := sys_state; g64_pressure := pressure |},
   clarity_ema).

(** The [clarity_ema] after [n] calls of [compute] on the same inputs,
    and the clarity the [n+1]-th call reports. *)
Definition clarity_ema_b64 (max_q_kpa max_thermal_index : float)
    (q_kpa thermal_index threat_index fusion_conf surprise : float)
    (clarity_ema : float) (n : nat) : float :=
  Nat.iter n
    (fun ema =>
       snd (compute_b64 max_q_kpa max_thermal_index
              q_kpa thermal_index threat_index fusion_conf surprise ema))
    clarity_ema.

(** [state.mission_time_s] after [n] steps: [tel.mission_time_s] is
    [state.mission_time_s + dt_seconds] at each. *)
Definition mission_time_b64 (dt_seconds : float) (n : nat)
    (mission_time_s : float) : float :=
  Nat.iter n (fun t => (t + dt_seconds)%float) mission_time_s.

(* ================================================================== *)
(** ** app: the initial state *)
(* ================================================================== *)

(** [EngineState(config=config)]: the dataclass defaults, the three
    buffers bounded by [__post_init__]. *)
Definition EngineState_init (config : FusionConfig) : EngineState := {|
  st_config := config;
  st_tick := 0;
  st_mission_time_s := 0.0;
  st_mission_stage_index := 0;
  st_mission_stage_tick := 0;
  st_run_id := 0;
  st_rng_seed := 0;
  st_ao := None;
  st_env_name := "Clear Skies / Clean Link";
  st_envelope_name := "Nominal Demo Flight";
  st_threshold_name := "Balanced";
  st_clarity_ema := 0.9;
  st_history := [];
  st_meas_history := [];
  st_audit_chain := [];
  st_fused := None;
  st_last_seen_tick := [];
  st_terrain := None;
  st_fusion_strategy_name := "weighted" |}.

(** [init_state] of the application: the default configuration, the run
    id read off the clock, the seed [run_id % (2**32)], the first area of
    operation. *)
Definition init_state (clk : Clock) : result EngineState * Clock :=
  let config := default_FusionConfig in
  let state := EngineState_init config in
  let '(now_ms, clk') := time_ms clk in
  match dict_index AO_PRESETS "Kharkiv (synthetic)" with
  | Raise e => (Raise e, clk')
  | Ok ao =>
      (Ok {| st_config := st_config state;
             st_tick := st_tick state;
             st_mission_time_s := st_mission_time_s state;
             st_mission_stage_index := st_mission_stage_index state;
             st_mission_stage_tick := st_mission_stage_tick state;
             st_run_id := now_ms;
             st_rng_seed := (now_ms mod 2 ^ 32)%Z;
             st_ao := Some ao;
             st_env_name := st_env_name state;
             st_envelope_name := st_envelope_name state;
             st_threshold_name := st_threshold_name state;
             st_clarity_ema := st_clarity_ema state;
             st_history := st_history state;
             st_meas_history := st_meas_history state;
             st_audit_chain := st_audit_chain state;
             st_fused := st_fused state;
             st_last_seen_tick := st_last_seen_tick state;
             st_terrain := st_terrain state;
             st_fusion_strategy_name := st_fusion_strategy_name state |},
       clk')
  end.

(* ================================================================== *)
(** * Specification vocabulary and sample inputs *)
(* ================================================================== *)

(** A usable GNSS reading of tick 7 that arrived after [latency] ms. *)
Definition gate_demo (latency : R) : SensorMeasurement := {|
  m_tick := 7;
  m_utc_timestamp := "2026-01-01T00:00:07Z";
  m_sensor_id := "GNSS_A";
  m_sensor_type := GNSS;
  m_z := [50.0; 36.0; 1000.0];
  m_R := diag [1.0; 1.0; 1.0];
  m_quality := 0.9;
  m_latency_ms := latency;
  m_dropped := false;
  m_meta := [] |}.

(** A reading of the same sensor from the tick before. *)
Definition stale_demo : SensorMeasurement := {|
  m_tick := 6;
  m_utc_timestamp := "2026-01-01T00:00:06Z";
  m_sensor_id := "GNSS_A";
  m_sensor_type := GNSS;
  m_z := [50.0; 36.0; 1000.0];
  m_R := diag [1.0; 1.0; 1.0];
  m_quality := 0.9;
  m_latency_ms := 90;
  m_dropped := false;
  m_meta := [] |}.

(** A usable measurement whose position passes the range constraints of
    [FusedEstimate]. *)
Definition position_ok (m : SensorMeasurement) : Prop :=
  (3 <= List.length (m_z m))%nat /\
  -90 <= nth 0 (m_z m) 0 <= 90 /\
  -180 <= nth 1 (m_z m) 0 <= 180 /\
  -1000 <= nth 2 (m_z m) 0 <= 50000.


(** The estimate [fuse] builds from a non-empty list of usable
    measurements. *)
Definition fused_record (cfg : FusionConfig) (pos_meas : list SensorMeasurement)
    : FusedEstimate :=
  let weights := normalize (map (_weight cfg) pos_meas) in
  let fused := weighted_sum pos_meas weights in
  {| fe_lat := nth 0 fused 0;
     fe_lon := nth 1 fused 0;
     fe_altitude_m := nth 2 fused 0;
     fe_velocity_mps := 0.0; fe_heading_deg := 0.0;
     fe_threat_index := 0.0; fe_civ_density := 0.0;
     fe_fusion_conf :=
       fst (WeightedFusion_calculate_confidence pos_meas weights fused);
     fe_surprise :=
       snd (WeightedFusion_calculate_confidence pos_meas weights fused);
     fe_sensor_contrib := contrib_from [] pos_meas weights;
     fe_used_meas_count := Z.of_nat (List.length pos_meas) |}.

(** The record [_fallback] validates. *)
Definition fallback_record : FusedEstimate :=
  {| fe_lat := 0.0; fe_lon := 0.0; fe_altitude_m := 0.0;
     fe_velocity_mps := 0.0; fe_heading_deg := 0.0;
     fe_threat_index := 0.0; fe_civ_density := 0.0;
     fe_fusion_conf := 0.1; fe_surprise := 1.0;
     fe_sensor_contrib := []; fe_used_meas_count := 0 |}.


(** [m] with another metadata map. *)
Definition set_meta (m : SensorMeasurement) (meta : Dict JSON)
    : SensorMeasurement :=
  {| m_tick := m_tick m;
     m_utc_timestamp := m_utc_timestamp m;
     m_sensor_id := m_sensor_id m;
     m_sensor_type := m_sensor_type m;
     m_z := m_z m;
     m_R := m_R m;
     m_quality := m_quality m;
     m_latency_ms := m_latency_ms m;
     m_dropped := m_dropped m;
     m_meta := meta |}.

(** The same measurement, its metadata keys inserted in another order. *)
Inductive meta_reordered : SensorMeasurement -> SensorMeasurement -> Prop :=
| meta_reordered_intro (m : SensorMeasurement) (meta' : Dict JSON) :
    Permutation (m_meta m) meta' -> meta_reordered m (set_meta m meta').

(** A measurement with two metadata keys. *)
Definition meta_demo : SensorMeasurement :=
  set_meta (gate_demo 90)
    [("jam_factor", JFloat 0.05); ("dropped_reason", JString "none")].

(** What every simulated measurement satisfies. *)
Definition measured (state : EngineState) (id : string) (ty : SensorType)
    (m : SensorMeasurement) : Prop :=
  m_tick m = (st_tick state + 1)%Z /\
  m_sensor_id m = id /\
  m_sensor_type m = ty /\
  SensorMeasurement_ok m = true /\
  List.length (m_z m) = 3%nat.

(** [np.array([truth["lat"], truth["lon"], truth["altitude_m"]])] *)
Definition truth_position (truth : Truth) : list R :=
  [tr_lat truth; tr_lon truth; tr_altitude_m truth].

(** The clock after [k] readings. *)
Definition reads (k : nat) (clk : Clock) : Clock :=
  Nat.iter k (fun c => snd (utc c)) clk.

(** [float(link.meta.get("comms_loss", 0.0))] *)
Definition link_comms_loss (link : SensorMeasurement) : R :=
  json_float (dict_get (m_meta link) "comms_loss" (JFloat 0.0)).

(** What the loop over the measurements does to the state. *)
Definition record_pure (st : EngineState) (m : SensorMeasurement)
    : EngineState :=
  set_last_seen_tick
    (set_meas_history st
       (deque_append (cfg_max_measurement_history (st_config st))
          (st_meas_history st) m))
    (dict_set (st_last_seen_tick st) (m_sensor_id m) (m_tick m)).

(** The state [st'] differs from [st] at most in the measurement
    history and the last-seen map. *)
Definition same_but_measurements (st st' : EngineState) : Prop :=
  st_config st' = st_config st /\
  st_tick st' = st_tick st /\
  st_mission_time_s st' = st_mission_time_s st /\
  st_mission_stage_index st' = st_mission_stage_index st /\
  st_mission_stage_tick st' = st_mission_stage_tick st /\
  st_run_id st' = st_run_id st /\
  st_rng_seed st' = st_rng_seed st /\
  st_ao st' = st_ao st /\
  st_env_name st' = st_env_name st /\
  st_envelope_name st' = st_envelope_name st /\
  st_threshold_name st' = st_threshold_name st /\
  st_clarity_ema st' = st_clarity_ema st /\
  st_history st' = st_history st /\
  st_audit_chain st' = st_audit_chain st /\
  st_fused st' = st_fused st /\
  st_terrain st' = st_terrain st /\
  st_fusion_strategy_name st' = st_fusion_strategy_name st.

(** The standing conditions of a step: a started clock, a seed numpy
    accepts, and a smoothing memory in [0, 1]. *)
Definition step_ready (engine : StepEngine) (state : EngineState) : Prop :=
  (0 <= st_tick state)%Z /\
  (0 <= st_rng_seed state)%Z /\
  (0 <= st_mission_stage_tick state)%Z /\
  0 <= st_mission_time_s state /\
  0 <= cfg_dt_seconds (se_config engine) /\
  0 <= crc_clarity_ema (se_clarity_calc engine) <= 1.

(** The [PhysicalState] [step] builds from the truth. *)
Definition physical_state_of (truth : Truth) : PhysicalState :=
  {| ps_q_kpa := tr_q_kpa truth;
     ps_thermal_index := tr_thermal_index truth;
     ps_threat_index := tr_threat_index truth |}.

(** The engine after a governance update with raw clarity [raw]. *)
Definition engine_after (engine : StepEngine) (raw : R) : StepEngine :=
  {| se_config := se_config engine;
     se_clarity_calc :=
       {| crc_config := crc_config (se_clarity_calc engine);
          crc_clarity_ema :=
            0.15 * raw + 0.85 * crc_clarity_ema (se_clarity_calc engine) |} |}.

(** The record [step] passes to [Telemetry(...)]. *)
Definition telemetry_record (engine : StepEngine) (state : EngineState)
    (truth : Truth) (measurements : list SensorMeasurement)
    (fused : FusedEstimate) (g : Governance) (now : string) : Telemetry :=
  {|
    tel_tick := st_tick state + 1;
    tel_utc_timestamp := now;
    tel_mission_time_s := st_mission_time_s state + cfg_dt_seconds (se_config engine);
    tel_mission_stage_code := "STAGE";
    tel_mission_stage_label := "Recon";
    tel_mission_stage_tick := st_mission_stage_tick state;
    tel_flight_phase := "CRUISE";
    tel_mach := tr_mach truth;
    tel_velocity_mps := tr_velocity_mps truth;
    tel_altitude_m := fe_altitude_m fused;
    tel_q_kpa := tr_q_kpa truth;
    tel_thermal_index := tr_thermal_index truth;
    tel_g_load := tr_g_load truth;
    tel_link_latency_ms :=
      first_of measurements "LINK_1" (fun m => nth 0 (m_z m) 0) 0.0;
    tel_imu_drift_deg_s :=
      first_of measurements "IMU_1"
        (fun m => json_float (dict_get (m_meta m) "imu_drift_deg_s" (JFloat 0.0)))
        0.0;
    tel_lat := fe_lat fused;
    tel_lon := fe_lon fused;
    tel_threat_index := tr_threat_index truth;
    tel_civ_density := tr_civ_density truth;
    tel_nav_drift := tr_nav_drift truth;
    tel_comms_loss :=
      first_of measurements "LINK_1"
        (fun m => json_float (dict_get (m_meta m) "comms_loss" (JFloat 0.0)))
        0.0;
    tel_vision_hot_ratio := tr_vision_hot_ratio truth;
    tel_clarity := g_clarity g;
    tel_risk := g_risk g;
    tel_predicted_risk := g_pred g;
    tel_state := g_sys_state g;
    tel_envelope_pressure := g_pressure g;
    tel_cc_combined := g_clarity g / 100.0;
    tel_cc_nav_conf := fe_fusion_conf fused;
    tel_cc_comms_conf := first_of measurements "LINK_1" m_quality 1.0;
    tel_cc_vision_conf := first_of measurements "EOIR_1" m_quality 0.0;
    tel_cc_clarity_factor := g_clarity g / 100.0;
    tel_cc_threat_factor := Rmax 0.2 (1.0 - tr_threat_index truth / 150.0);
    tel_fusion_conf := fe_fusion_conf fused;
    tel_fusion_surprise := fe_surprise fused |}.

(** The state after a tick that went through, given what the tick
    produced. *)
Definition state_after (state1 : EngineState) (fused : FusedEstimate)
    (audit : AuditRecord) (tel : Telemetry) : EngineState :=
  let state2 := set_fused state1 (Some fused) in
  let state3 :=
    set_audit_chain state2
      (deque_append (cfg_max_audit_history (st_config state2))
         (st_audit_chain state2) audit) in
  set_history
    (set_mission_time_s (set_tick state3 (tel_tick tel))
       (tel_mission_time_s tel))
    (deque_append (cfg_max_telemetry_history (st_config state3))
       (st_history state3) tel).

(** A stand-in for numpy's generator that always returns the same
    draws: the lower bound of a uniform draw, the mean of a normal draw,
    0.99 for [random()]. *)
Definition FixedRng : Type := unit.
Definition fixed_default_rng (seed : Z) : FixedRng := tt.
Definition fixed_uniform (lo hi : R) (g : FixedRng) : R * FixedRng := (lo, g).
Definition fixed_normal (mu sigma : R) (g : FixedRng) : R * FixedRng := (mu, g).
Definition fixed_random (g : FixedRng) : R * FixedRng := (0.99, g).

(** [step] and [run] with the fixed generator; floats are rendered as
    "f", string escaping and the digest are the identity. *)
Abbreviation fixed_step :=
  (step FixedRng fixed_default_rng fixed_uniform fixed_normal fixed_random
     (fun _ => "f") (fun s => s) (fun s => s)).

Abbreviation fixed_run :=
  (run FixedRng fixed_default_rng fixed_uniform fixed_normal fixed_random
     (fun _ => "f") (fun s => s) (fun s => s)).

(** The state of a fresh run with seed 42 over the first area of
    operation, as [init_state()] followed by [reset()] leaves it. *)
Definition fresh_state (strategy : string) : EngineState := {|
  st_config := default_FusionConfig;
  st_tick := 0;
  st_mission_time_s := 0.0;
  st_mission_stage_index := 0;
  st_mission_stage_tick := 0;
  st_run_id := 0;
  st_rng_seed := 42;
  st_ao := Some (mkAOConfig "Kharkiv Region" 49.9935 36.2304 0.08 0.12);
  st_env_name := "Clear Skies / Clean Link";
  st_envelope_name := "Nominal Demo Flight";
  st_threshold_name := "Balanced";
  st_clarity_ema := 0.9;
  st_history := [];
  st_meas_history := [];
  st_audit_chain := [];
  st_fused := None;
  st_last_seen_tick := [];
  st_terrain := None;
  st_fusion_strategy_name := strategy |}.

(** An engine whose calculator remembers [ema]. *)
Definition engine_with_ema (ema : R) : StepEngine :=
  {| se_config := default_FusionConfig;
     se_clarity_calc :=
       {| crc_config := default_FusionConfig; crc_clarity_ema := ema |} |}.

(** A clock that reads [now] at every call. *)
Definition stopped_clock (now : string) : Clock :=
  {| utc_readings := fun _ => now; time_readings := fun _ => 0%Z |}.

(** [state.clarity_ema = v] *)
Definition set_clarity_ema (s : EngineState) (v : R) : EngineState :=
  {| st_config := st_config s;
     st_tick := st_tick s;
     st_mission_time_s := st_mission_time_s s;
     st_mission_stage_index := st_mission_stage_index s;
     st_mission_stage_tick := st_mission_stage_tick s;
     st_run_id := st_run_id s;
     st_rng_seed := st_rng_seed s;
     st_ao := st_ao s;
     st_env_name := st_env_name s;
     st_envelope_name := st_envelope_name s;
     st_threshold_name := st_threshold_name s;
     st_clarity_ema := v;
     st_history := st_history s;
     st_meas_history := st_meas_history s;
     st_audit_chain := st_audit_chain s;
     st_fused := st_fused s;
     st_last_seen_tick := st_last_seen_tick s;
     st_terrain := st_terrain s;
     st_fusion_strategy_name := st_fusion_strategy_name s |}.

(** What the state of a tick that raised differs in from the state the
    tick started from: [ms], the measurements of the tick, are in the
    buffer and in the last-seen map. *)
Definition recorded_only (state state' : EngineState)
    (ms : list SensorMeasurement) : Prop :=
  same_but_measurements state state' /\
  (5 <= List.length ms <= 6)%nat /\
  st_meas_history state' =
    fold_left (deque_append (cfg_max_measurement_history (st_config state)))
      ms (st_meas_history state) /\
  Forall (fun m =>
            m_tick m = (st_tick state + 1)%Z /\
            dict_find (st_last_seen_tick state') (m_sensor_id m) =
              Some (st_tick state + 1)%Z) ms /\
  dict_find (st_last_seen_tick state') "LINK_1" = Some (st_tick state + 1)%Z.

(** ** Inputs of the binary64 kernels *)

(** The float counterpart of [gate_demo]. *)
Definition gate_demo_b64 (latency : float) : Reading64 :=
  {| r64_z := [50.0; 36.0; 1000.0]%float;
     r64_R_diag := [1.0; 1.0; 1.0]%float;
     r64_quality := 0.9;
     r64_latency_ms := latency;
     r64_type_weight := 1.0 |}.

(** A reading with unit covariance at the north pole. *)
Definition pole_b64 (quality latency type_weight : float) : Reading64 :=
  {| r64_z := [90.0; 36.0; 1000.0]%float;
     r64_R_diag := [1.0; 1.0; 1.0]%float;
     r64_quality := quality;
     r64_latency_ms := latency;
     r64_type_weight := type_weight |}.

(** Readings as the simulator builds them in the clear environment:
    [R = np.diag(std**2)]. *)
Definition eoir_b64 (z : list float) (latency : float) : Reading64 :=
  {| r64_z := z;
     r64_R_diag := [0.0006 * 0.0006; 0.0006 * 0.0006; 8.0 * 8.0]%float;
     r64_quality := 0.82;
     r64_latency_ms := latency;
     r64_type_weight := 0.8 |}.

Definition gnss_b64 (z : list float) (latency : float) : Reading64 :=
  {| r64_z := z;
     r64_R_diag := [0.00025 * 0.00025; 0.00025 * 0.00025; 3.5 * 3.5]%float;
     r64_quality := 0.95;
     r64_latency_ms := latency;
     r64_type_weight := 1.0 |}.

(** ** Vocabulary of the further properties *)

(** The default configuration with the time gate at 500 ms. *)
Definition wide_gate_config : FusionConfig := {|
  cfg_dt_seconds := 1.0;
  cfg_fusion_time_gate_ms := 500.0;
  cfg_stale_ticks := 6;
  cfg_max_telemetry_history := 600;
  cfg_max_measurement_history := 3000;
  cfg_max_audit_history := 1000;
  cfg_position_fusion_weight :=
    [("GNSS", 1.0); ("EOIR", 0.8); ("RADAR", 0.9); ("BARO", 0.3)];
  cfg_clarity_warning_threshold := 75.0;
  cfg_clarity_critical_threshold := 65.0;
  cfg_fusion_conf_warning := 0.6;
  cfg_fusion_conf_critical := 0.4
|}.

(** [cfg] with another table of sensor-type weights. *)
Definition set_position_fusion_weight (cfg : FusionConfig) (w : Dict R)
    : FusionConfig := {|
  cfg_dt_seconds := cfg_dt_seconds cfg;
  cfg_fusion_time_gate_ms := cfg_fusion_time_gate_ms cfg;
  cfg_stale_ticks := cfg_stale_ticks cfg;
  cfg_max_telemetry_history := cfg_max_telemetry_history cfg;
  cfg_max_measurement_history := cfg_max_measurement_history cfg;
  cfg_max_audit_history := cfg_max_audit_history cfg;
  cfg_position_fusion_weight := w;
  cfg_clarity_warning_threshold := cfg_clarity_warning_threshold cfg;
  cfg_clarity_critical_threshold := cfg_clarity_critical_threshold cfg;
  cfg_fusion_conf_warning := cfg_fusion_conf_warning cfg;
  cfg_fusion_conf_critical := cfg_fusion_conf_critical cfg
|}.

(** A reading of [sensor_type] from [sensor_id] at tick 7, at the
    position ([lat], 36, 1000), with the given quality. *)
Definition reading (sensor_id : string) (sensor_type : SensorType)
    (lat quality : R) : SensorMeasurement := {|
  m_tick := 7;
  m_utc_timestamp := "2026-01-01T00:00:07Z";
  m_sensor_id := sensor_id;
  m_sensor_type := sensor_type;
  m_z := [lat; 36.0; 1000.0];
  m_R := diag [1.0; 1.0; 1.0];
  m_quality := quality;
  m_latency_ms := 90;
  m_dropped := false;
  m_meta := [] |}.


(** A ground truth over the first area of operation. *)
Definition sample_truth : Truth := {|
  tr_mach := 0.5;
  tr_velocity_mps := 147.5;
  tr_altitude_m := 1000;
  tr_q_kpa := 12;
  tr_thermal_index := 0.3;
  tr_g_load := 1.0;
  tr_lat := 50;
  tr_lon := 36;
  tr_threat_index := 40;
  tr_civ_density := 0.3;
  tr_nav_drift := 5.0;
  tr_vision_hot_ratio := 0.1 |}.

(** The store [step] starts from on a fresh run, under the fixed
    generator. *)
Definition fresh_store (strategy : string) : Store FixedRng := {|
  s_engine := engine_with_ema 0.9;
  s_state := fresh_state strategy;
  s_clock := stopped_clock "2026-01-01T00:00:00Z";
  s_rng := tt |}.

(** [state.envelope_name = name], [state.ao = ao] *)
Definition set_envelope_name (s : EngineState) (name : string)
    : EngineState :=
  {| st_config := st_config s;
     st_tick := st_tick s;
     st_mission_time_s := st_mission_time_s s;
     st_mission_stage_index := st_mission_stage_index s;
     st_mission_stage_tick := st_mission_stage_tick s;
     st_run_id := st_run_id s;
     st_rng_seed := st_rng_seed s;
     st_ao := st_ao s;
     st_env_name := st_env_name s;
     st_envelope_name := name;
     st_threshold_name := st_threshold_name s;
     st_clarity_ema := st_clarity_ema s;
     st_history := st_history s;
     st_meas_history := st_meas_history s;
     st_audit_chain := st_audit_chain s;
     st_fused := st_fused s;
     st_last_seen_tick := st_last_seen_tick s;
     st_terrain := st_terrain s;
     st_fusion_strategy_name := st_fusion_strategy_name s |}.

(** [m.utc_timestamp = ts], [m.R = cov] *)
Definition set_stamp_and_covariance (m : SensorMeasurement) (ts : string)
    (cov : list (list R)) : SensorMeasurement :=
  {| m_tick := m_tick m;
     m_utc_timestamp := ts;
     m_sensor_id := m_sensor_id m;
     m_sensor_type := m_sensor_type m;
     m_z := m_z m;
     m_R := cov;
     m_quality := m_quality m;
     m_latency_ms := m_latency_ms m;
     m_dropped := m_dropped m;
     m_meta := m_meta m |}.

(** [fused.threat_index = threat], [fused.civ_density = civ] *)
Definition set_threat_and_density (e : FusedEstimate) (threat civ : R)
    : FusedEstimate :=
  {| fe_lat := fe_lat e;
     fe_lon := fe_lon e;
     fe_altitude_m := fe_altitude_m e;
     fe_velocity_mps := fe_velocity_mps e;
     fe_heading_deg := fe_heading_deg e;
     fe_threat_index := threat;
     fe_civ_density := civ;
     fe_fusion_conf := fe_fusion_conf e;
     fe_surprise := fe_surprise e;
     fe_sensor_contrib := fe_sensor_contrib e;
     fe_used_meas_count := fe_used_meas_count e |}.

(** The fields of a measurement an audit record keeps: all but the
    timestamp, the components of [z] past the third and the covariance
    beyond its trace. *)
Definition same_audited_fields (m m' : SensorMeasurement) : Prop :=
  m_sensor_id m' = m_sensor_id m /\
  m_sensor_type m' = m_sensor_type m /\
  m_quality m' = m_quality m /\
  m_latency_ms m' = m_latency_ms m /\
  m_tick m' = m_tick m /\
  firstn 3 (m_z m') = firstn 3 (m_z m) /\
  trace (m_R m') = trace (m_R m) /\
  m_dropped m' = m_dropped m /\
  m_meta m' = m_meta m.

(** The fields of an estimate an audit record keeps: all but
    [threat_index] and [civ_density]. *)
Definition same_audited_estimate (e e' : FusedEstimate) : Prop :=
  fe_lat e' = fe_lat e /\
  fe_lon e' = fe_lon e /\
  fe_altitude_m e' = fe_altitude_m e /\
  fe_velocity_mps e' = fe_velocity_mps e /\
  fe_heading_deg e' = fe_heading_deg e /\
  fe_fusion_conf e' = fe_fusion_conf e /\
  fe_surprise e' = fe_surprise e /\
  fe_sensor_contrib e' = fe_sensor_contrib e /\
  fe_used_meas_count e' = fe_used_meas_count e.

(** The sensors [simulate_all] can report. *)
Definition tick_sensor_ids : list string :=
  ["LINK_1"; "IMU_1"; "BARO_1"; "GNSS_A"; "EOIR_1"; "RADAR_1"].

(** What the readings of a tick are, whatever was drawn. *)
Definition tick_inventory (T : Z) (ms : list SensorMeasurement) : Prop :=
  (map (fun m => (m_sensor_id m, m_sensor_type m)) ms =
     [("LINK_1", LINK); ("IMU_1", IMU); ("BARO_1", BARO);
      ("GNSS_A", GNSS); ("EOIR_1", EOIR)] \/
   map (fun m => (m_sensor_id m, m_sensor_type m)) ms =
     [("LINK_1", LINK); ("IMU_1", IMU); ("BARO_1", BARO);
      ("GNSS_A", GNSS); ("EOIR_1", EOIR); ("RADAR_1", RADAR)]) /\
  NoDup (map m_sensor_id ms) /\
  Forall (fun m =>
            m_tick m = T /\
            SensorMeasurement_ok m = true /\
            List.length (m_z m) = 3%nat /\
            (m_dropped m = true ->
             m_sensor_type m = GNSS \/ m_sensor_type m = EOIR) /\
            (m_dropped m = false -> m_sensor_type m <> LINK ->
             m_latency_ms m <= 320)) ms.

(** What the measurement buffer holds once the readings [ms] of a tick
    are recorded. *)
Definition recorded_history (state : EngineState)
    (ms : list SensorMeasurement) : list SensorMeasurement :=
  fold_left (deque_append (cfg_max_measurement_history (st_config state)))
    ms (st_meas_history state).

(** The fusion [step] runs over that buffer. *)
Definition tick_fusion (engine : StepEngine) (state : EngineState)
    (ms : list SensorMeasurement) : result FusedEstimate :=
  FusionEngine_fuse
    (FusionEngine_init (se_config engine) (st_fusion_strategy_name state))
    (recorded_history state ms) (st_tick state + 1).

(** The conditions under which a run goes on: the lookups of the
    scenario succeed, the state is ready, and no buffer is over-full. *)
Definition run_ready (engine : StepEngine) (state : EngineState) : Prop :=
  (exists env, dict_index ENVIRONMENTS (st_env_name state) = Ok env) /\
  (exists envp, dict_index ENVELOPES (st_envelope_name state) = Ok envp) /\
  (exists ao, st_ao state = Some ao) /\
  step_ready engine state /\
  (List.length (st_history state)
     <= cfg_max_telemetry_history (st_config state))%nat /\
  (List.length (st_audit_chain state)
     <= cfg_max_audit_history (st_config state))%nat /\
  (List.length (st_meas_history state)
     <= cfg_max_measurement_history (st_config state))%nat /\
  Forall (fun m => (m_tick m <= st_tick state)%Z /\ 0 <= m_latency_ms m)
    (st_meas_history state).

(** What a run leaves of the scenario: everything. *)
Definition same_scenario (state state' : EngineState) : Prop :=
  st_config state' = st_config state /\
  st_rng_seed state' = st_rng_seed state /\
  st_run_id state' = st_run_id state /\
  st_ao state' = st_ao state /\
  st_env_name state' = st_env_name state /\
  st_envelope_name state' = st_envelope_name state /\
  st_threshold_name state' = st_threshold_name state /\
  st_fusion_strategy_name state' = st_fusion_strategy_name state /\
  st_clarity_ema state' = st_clarity_ema state.

(** A gate that lets every reading of the tick's position sensors
    through and stops every reading of an earlier tick, a strategy that
    is not the stub, and room in the buffer for one tick. *)
Definition tick_local (engine : StepEngine) (state : EngineState) : Prop :=
  320 <= cfg_fusion_time_gate_ms (se_config engine) /\
  cfg_fusion_time_gate_ms (se_config engine)
    < cfg_dt_seconds (se_config engine) * 1000 /\
  st_fusion_strategy_name state <> "kalman" /\
  (6 <= cfg_max_measurement_history (st_config state))%nat.

(** A generator that replays a script: [random()] returns the next
    entry of the script, and 0.99 once it is exhausted; a uniform draw
    returns its lower bound and a normal draw its mean, and neither
    moves the script. *)
Definition ScriptRng : Type := list R.
Definition script_uniform (lo hi : R) (g : ScriptRng) : R * ScriptRng :=
  (lo, g).
Definition script_normal (mu sigma : R) (g : ScriptRng) : R * ScriptRng :=
  (mu, g).
Definition script_random (g : ScriptRng) : R * ScriptRng :=
  match g with
  | [] => (0.99, [])
  | u :: g' => (u, g')
  end.

(** The script of a tick without a position fix: no loss of comms, the
    GNSS reading dropped, the EO/IR reading dropped, no radar reading. *)
Definition blind_script : ScriptRng := [0.99; 0; 0; 0.99].
Definition blind_default_rng (seed : Z) : ScriptRng := blind_script.

Abbreviation blind_step :=
  (step ScriptRng blind_default_rng script_uniform script_normal
     script_random (fun _ => "f") (fun s => s) (fun s => s)).

(** The clear environment. *)
Definition clear_env : EnvProfile :=
  mkEnvProfile "Clear" 120 40 0.0 0.0 0.0 0.0.

(* ================================================================== *)
(** * Properties *)
(* ================================================================== *)

(** ** Comparisons and clipping *)

Lemma Rleb_true_iff (x y : R) : Rleb x y = true <-> x <= y.
Proof.
  unfold Rleb. destruct (Rle_dec x y); split; intro H;
    (reflexivity || assumption || discriminate || contradiction).
Qed.

Lemma Rleb_false_iff (x y : R) : Rleb x y = false <-> y < x.
Proof.
  unfold Rleb. destruct (Rle_dec x y) as [Hle | Hnle]; split; intro H;
    try reflexivity; try discriminate; lra.
Qed.

Lemma Rltb_true_iff (x y : R) : Rltb x y = true <-> x < y.
Proof.
  unfold Rltb. destruct (Rlt_dec x y); split; intro H;
    (reflexivity || assumption || discriminate || contradiction).
Qed.

Lemma Rltb_false_iff (x y : R) : Rltb x y = false <-> y <= x.
Proof.
  unfold Rltb. destruct (Rlt_dec x y) as [Hlt | Hnlt]; split; intro H;
    try reflexivity; try discriminate; lra.
Qed.

Lemma in_range_true_iff (lo x hi : R) :
  in_range lo x hi = true <-> lo <= x <= hi.
Proof.
  unfold in_range. rewrite andb_true_iff, !Rleb_true_iff. tauto.
Qed.

Lemma clip_bounds (x lo hi : R) : lo <= hi -> lo <= clip x lo hi <= hi.
Proof.
  intro H. unfold clip, Rmin, Rmax.
  destruct (Rle_dec x lo); destruct (Rle_dec _ hi); lra.
Qed.

Lemma clip_id (x lo hi : R) : lo <= x <= hi -> clip x lo hi = x.
Proof.
  intro H. unfold clip, Rmin, Rmax.
  destruct (Rle_dec x lo); destruct (Rle_dec _ hi); lra.
Qed.

(** Resolves a comparison between closed real numbers. *)
Ltac Rdecide :=
  repeat match goal with
  | |- context [Rleb ?a ?b] =>
      first [ rewrite (proj2 (Rleb_true_iff a b)) by lra
            | rewrite (proj2 (Rleb_false_iff a b)) by lra ]
  | |- context [Rltb ?a ?b] =>
      first [ rewrite (proj2 (Rltb_true_iff a b)) by lra
            | rewrite (proj2 (Rltb_false_iff a b)) by lra ]
  end.

(** Records the bounds of every clipped value of the goal. *)
Ltac clip_facts :=
  repeat match goal with
  | |- context [clip ?x ?lo ?hi] =>
      lazymatch goal with
      | _ : lo <= clip x lo hi <= hi |- _ => fail
      | _ => pose proof (clip_bounds x lo hi ltac:(lra))
      end
  end.

(** ** The time gate *)

Lemma select_scan_spec (cfg : FusionConfig) (T : Z)
    (l : list SensorMeasurement) :
  select_scan cfg T (cfg_fusion_time_gate_ms cfg) l =
  take_while (within_gate cfg T) (filter (fun m => negb (m_dropped m)) l).
Proof.
  induction l as [| m l IH]; simpl.
  - reflexivity.
  - destruct (m_dropped m); simpl.
    + exact IH.
    + unfold within_gate at 1.
      destruct (Rleb (age_ms cfg T m) (cfg_fusion_time_gate_ms cfg)).
      * now rewrite IH.
      * reflexivity.
Qed.

Lemma select_scan_app_stop (cfg : FusionConfig) (T : Z) (gate : R)
    (newer older : list SensorMeasurement) (m : SensorMeasurement) :
  m_dropped m = false ->
  Rleb (age_ms cfg T m) gate = false ->
  select_scan cfg T gate (newer ++ m :: older) = select_scan cfg T gate newer.
Proof.
  intros Hd Hout. induction newer as [| x newer IH]; simpl.
  - now rewrite Hd, Hout.
  - destruct (m_dropped x); [exact IH |].
    destruct (Rleb (age_ms cfg T x) gate); [now rewrite IH | reflexivity].
Qed.

Lemma select_scan_app_dropped (cfg : FusionConfig) (T : Z) (gate : R)
    (newer older : list SensorMeasurement) (m : SensorMeasurement) :
  m_dropped m = true ->
  select_scan cfg T gate (newer ++ m :: older) =
  select_scan cfg T gate (newer ++ older).
Proof.
  intros Hd. induction newer as [| x newer IH]; simpl.
  - now rewrite Hd.
  - destruct (m_dropped x); [exact IH |].
    destruct (Rleb (age_ms cfg T x) gate); [now rewrite IH | reflexivity].
Qed.

(** C3.  [select_measurements] scans the history most recent first and
    returns, among the non-dropped measurements, the leading run whose
    age is at most the gate: (1) it equals the selection worded by the
    specification; (2) a most recent non-dropped measurement whose age
    equals the gate is selected (the gate is inclusive); (3) the first
    non-dropped measurement outside the gate ends the scan, so nothing
    older is selected whatever its age; (4) a dropped measurement is
    skipped and the scan goes on past it; (5) with the gate at 350 ms and
    a chronological history of three non-dropped measurements whose ages
    are 400, 100 and 0 ms, exactly the two of ages 0 and 100 are selected,
    most recent first. *)
Theorem select_measurements_time_gate (cfg : FusionConfig) (T : Z) :
  (forall history,
      select_measurements cfg history T =
      select_measurements_spec cfg history T) /\
  (forall history m,
      m_dropped m = false ->
      age_ms cfg T m = cfg_fusion_time_gate_ms cfg ->
      select_measurements cfg (history ++ [m]) T =
      m :: select_measurements cfg history T) /\
  (forall older m newer,
      m_dropped m = false ->
      cfg_fusion_time_gate_ms cfg < age_ms cfg T m ->
      select_measurements cfg (older ++ m :: newer) T =
      select_measurements cfg newer T) /\
  (forall older m newer,
      m_dropped m = true ->
      select_measurements cfg (older ++ m :: newer) T =
      select_measurements cfg (older ++ newer) T) /\
  (forall m400 m100 m0,
      cfg_fusion_time_gate_ms cfg = 350 ->
      m_dropped m400 = false -> m_dropped m100 = false ->
      m_dropped m0 = false ->
      age_ms cfg T m400 = 400 -> age_ms cfg T m100 = 100 ->
      age_ms cfg T m0 = 0 ->
      select_measurements cfg [m400; m100; m0] T = [m0; m100]).
Proof.
  unfold select_measurements, select_measurements_spec.
  repeat split.
  - intro history. apply select_scan_spec.
  - intros history m Hd Hage. rewrite rev_app_distr. simpl.
    rewrite Hd, Hage.
    now rewrite (proj2 (Rleb_true_iff _ _) (Rle_refl _)).
  - intros older m newer Hd Hage.
    rewrite rev_app_distr. simpl. rewrite <- app_assoc. simpl.
    apply select_scan_app_stop; [exact Hd |].
    now apply Rleb_false_iff.
  - intros older m newer Hd.
    rewrite !rev_app_distr. simpl. rewrite <- app_assoc. simpl.
    now apply select_scan_app_dropped.
  - intros m400 m100 m0 Hgate Hd400 Hd100 Hd0 H400 H100 H0.
    simpl. rewrite Hd0, Hd100, Hd400, H0, H100, H400, Hgate.
    now Rdecide.
Qed.

Lemma age_ms_gate_demo (latency : R) :
  0 <= latency -> age_ms default_FusionConfig 7 (gate_demo latency) = latency.
Proof.
  intro H. unfold age_ms. simpl.
  rewrite Rabs_right; lra.
Qed.

Lemma select_measurements_time_gate_witness :
  select_measurements default_FusionConfig
    [gate_demo 400; gate_demo 100; gate_demo 0] 7
  = [gate_demo 0; gate_demo 100].
Proof.
  apply (proj2 (proj2 (proj2 (proj2
           (select_measurements_time_gate default_FusionConfig 7)))));
    try reflexivity.
  - simpl. lra.
  - apply age_ms_gate_demo. lra.
  - apply age_ms_gate_demo. lra.
  - apply age_ms_gate_demo. lra.
Defined.

Lemma take_while_In {A} (p : A -> bool) (l : list A) (x : A) :
  In x (take_while p l) -> p x = true.
Proof.
  induction l as [| y l IH]; simpl; [tauto |].
  destruct (p y) eqn:Hy; simpl; [| tauto].
  intros [-> | H]; [exact Hy | now apply IH].
Qed.

Lemma select_measurements_within_gate (cfg : FusionConfig)
    (history : list SensorMeasurement) (T : Z) (m : SensorMeasurement) :
  In m (select_measurements cfg history T) ->
  within_gate cfg T m = true /\ m_dropped m = false /\ In m history.
Proof.
  unfold select_measurements. rewrite select_scan_spec. intro H.
  split; [now apply take_while_In in H |].
  assert (Hin : In m (filter (fun m => negb (m_dropped m)) (rev history))).
  { clear -H. induction (filter _ _) as [| y l IH]; simpl in *; [tauto |].
    destruct (within_gate cfg T y); simpl in H; [| tauto].
    destruct H as [-> | H]; [now left | right; now apply IH]. }
  apply filter_In in Hin. destruct Hin as [Hin Hd].
  split; [now destruct (m_dropped m) | now apply in_rev].
Qed.

(** C9.  With [dt_seconds = 1.0] and [fusion_time_gate_ms = 350.0] (the
    defaults), a measurement of an earlier tick with a non-negative
    latency has age [1000 * (current_tick - m.tick) + latency_ms], which
    is at least 1000 ms and so outside the gate; it is never among the
    selected measurements, whatever the history. *)
Theorem default_gate_excludes_earlier_ticks (cfg : FusionConfig)
    (history : list SensorMeasurement) (T : Z) (m : SensorMeasurement) :
  cfg_dt_seconds cfg = 1.0 ->
  cfg_fusion_time_gate_ms cfg = 350.0 ->
  0 <= m_latency_ms m ->
  (m_tick m < T)%Z ->
  age_ms cfg T m = 1000 * IZR (T - m_tick m) + m_latency_ms m /\
  1000 <= age_ms cfg T m /\
  350 < age_ms cfg T m /\
  ~ In m (select_measurements cfg history T).
Proof.
  intros Hdt Hgate Hlat Htick.
  assert (Hd : 1 <= IZR (T - m_tick m)) by (apply IZR_le; lia).
  assert (Hage : age_ms cfg T m = 1000 * IZR (T - m_tick m) + m_latency_ms m).
  { unfold age_ms. rewrite Hdt. rewrite Rabs_right; lra. }
  repeat split; try lra.
  intro Hin. apply select_measurements_within_gate in Hin.
  destruct Hin as [Hin _]. unfold within_gate in Hin.
  apply Rleb_true_iff in Hin. lra.
Qed.

Lemma default_gate_excludes_earlier_ticks_witness :
  age_ms default_FusionConfig 7 stale_demo
    = 1000 * IZR (7 - m_tick stale_demo) + m_latency_ms stale_demo /\
  1000 <= age_ms default_FusionConfig 7 stale_demo /\
  350 < age_ms default_FusionConfig 7 stale_demo /\
  ~ In stale_demo (select_measurements default_FusionConfig [stale_demo] 7).
Proof.
  apply (default_gate_excludes_earlier_ticks default_FusionConfig
           [stale_demo] 7 stale_demo).
  - reflexivity.
  - reflexivity.
  - simpl. lra.
  - reflexivity.
Defined.

(** ** Strategy selection *)

Lemma unknown_strategy_not_member (cfg : FusionConfig) (name : string) :
  name <> "weighted" -> name <> "kalman" ->
  dict_mem [("weighted", WeightedFusion cfg); ("kalman", KalmanFusion cfg)]
    name = false.
Proof.
  intros Hw Hk. unfold dict_mem, dict_find.
  destruct (String.eqb_spec "weighted" name) as [E | _]; [congruence |].
  destruct (String.eqb_spec "kalman" name) as [E | _]; [congruence |].
  reflexivity.
Qed.

(** C7.  [KalmanFusion.fuse] raises [NotImplementedError] on every
    input, and an engine built with the name "kalman" raises it on every
    history: no estimate is returned and no other strategy is used in its
    place.  An engine built with a name that is neither "weighted" nor
    "kalman" is built without an exception, is named "weighted", holds the
    weighted strategy, and fuses with [WeightedFusion.fuse]; the same holds
    for [set_strategy]. *)
Theorem kalman_raises_unknown_falls_back (cfg : FusionConfig) :
  (forall ms,
      fuse (KalmanFusion cfg) ms =
      Raise (NotImplementedError
               "KalmanFusion is a stub and must be explicitly implemented.")) /\
  (forall history T,
      eng_strategy_name (FusionEngine_init cfg "kalman") = "kalman" /\
      FusionEngine_fuse (FusionEngine_init cfg "kalman") history T =
      Raise (NotImplementedError
               "KalmanFusion is a stub and must be explicitly implemented.")) /\
  (forall name,
      name <> "weighted" -> name <> "kalman" ->
      eng_strategy_name (FusionEngine_init cfg name) = "weighted" /\
      eng_strategy (FusionEngine_init cfg name) = WeightedFusion cfg /\
      (forall history T,
          FusionEngine_fuse (FusionEngine_init cfg name) history T =
          WeightedFusion_fuse cfg (select_measurements cfg history T)) /\
      (forall name0,
          eng_strategy_name
            (set_strategy (FusionEngine_init cfg name0) name) = "weighted" /\
          eng_strategy (set_strategy (FusionEngine_init cfg name0) name) =
          WeightedFusion cfg)).
Proof.
  split; [reflexivity |].
  split; [intros; split; reflexivity |].
  intros name Hw Hk.
  pose proof (unknown_strategy_not_member cfg name Hw Hk) as Hmem.
  unfold FusionEngine_init, FusionEngine_fuse, set_strategy.
  cbn [eng_strategy_name eng_strategy eng_config eng_strategies].
  rewrite Hmem. repeat split.
Qed.

Lemma kalman_raises_unknown_falls_back_witness :
  eng_strategy_name (FusionEngine_init default_FusionConfig "ekf") = "weighted"
  /\ eng_strategy (FusionEngine_init default_FusionConfig "ekf") =
     WeightedFusion default_FusionConfig.
Proof.
  destruct (proj2 (proj2
              (kalman_raises_unknown_falls_back default_FusionConfig))
              "ekf") as (Hname & Hstrategy & _).
  - discriminate.
  - discriminate.
  - split; [exact Hname | exact Hstrategy].
Defined.

(** ** The clarity EMA *)

Lemma compute_ok (c : ClarityRiskCalculator) (state : EngineState)
    (ps : PhysicalState) (fused : FusedEstimate) (envp : EnvelopePreset) :
  dict_index ENVELOPES (st_envelope_name state) = Ok envp ->
  exists g,
    compute c state ps fused =
      (Ok g,
       {| crc_config := crc_config c;
          crc_clarity_ema :=
            0.15 * raw_clarity envp ps fused + 0.85 * crc_clarity_ema c |}) /\
    g_clarity g =
      (0.15 * raw_clarity envp ps fused + 0.85 * crc_clarity_ema c) * 100 /\
    g_pressure g = envelope_pressure envp ps.
Proof.
  intro Henv. unfold compute. rewrite Henv.
  eexists. split; [reflexivity |]. simpl. split; [lra | reflexivity].
Qed.

Lemma compute_n_ok (n : nat) (c : ClarityRiskCalculator)
    (state : EngineState) (ps : PhysicalState) (fused : FusedEstimate)
    (envp : EnvelopePreset) :
  dict_index ENVELOPES (st_envelope_name state) = Ok envp ->
  exists og c',
    compute_n n c state ps fused = (Ok og, c') /\
    crc_config c' = crc_config c /\
    crc_clarity_ema c' - raw_clarity envp ps fused =
      0.85 ^ n * (crc_clarity_ema c - raw_clarity envp ps fused) /\
    (n <> 0%nat -> exists g,
        og = Some g /\ g_clarity g = crc_clarity_ema c' * 100).
Proof.
  intro Henv. induction n as [| n IH].
  - exists None, c. simpl. repeat split; try lra. congruence.
  - destruct IH as (og & c' & Hrun & Hcfg & Hema & _).
    destruct (compute_ok c' state ps fused envp Henv) as (g & Hg & Hcl & _).
    exists (Some g), {| crc_config := crc_config c';
                        crc_clarity_ema :=
                          0.15 * raw_clarity envp ps fused
                          + 0.85 * crc_clarity_ema c' |}.
    simpl compute_n. rewrite Hrun, Hg. cbn [crc_config crc_clarity_ema].
    repeat split.
    + exact Hcfg.
    + simpl pow. nra.
    + intros _. exists g. split; [reflexivity | exact Hcl].
Qed.

(** C8 (amended).  One call of [compute] replaces the calculator's
    [clarity_ema] by [0.15 * raw + 0.85 * clarity_ema] and reports
    [clarity = clarity_ema * 100].  When the inputs, hence the raw clarity
    [r], stay the same and the memory starts in [0, 1], after [n >= 1]
    calls the reported clarity is within
    [0.85 ^ n * |100 * ema0 - 100 * r| + 1e-9] of [100 * r], where [ema0]
    is the value before the first call; so for every [eps > 1e-9] there
    is a number of calls from which on the reported clarity stays within
    [eps] of [100 * r].  The slack of [1e-9] is what rounding needs: the
    exact factor and an arbitrarily small [eps] hold of the real numbers
    only. *)
Theorem clarity_ema_converges (c : ClarityRiskCalculator)
    (state : EngineState) (ps : PhysicalState) (fused : FusedEstimate)
    (envp : EnvelopePreset) :
  dict_index ENVELOPES (st_envelope_name state) = Ok envp ->
  0 <= crc_clarity_ema c <= 1 ->
  let r := raw_clarity envp ps fused in
  (exists g,
      compute c state ps fused =
        (Ok g, {| crc_config := crc_config c;
                  crc_clarity_ema := 0.15 * r + 0.85 * crc_clarity_ema c |}) /\
      g_clarity g = (0.15 * r + 0.85 * crc_clarity_ema c) * 100) /\
  (forall n, exists g c',
      compute_n (S n) c state ps fused = (Ok (Some g), c') /\
      g_clarity g = crc_clarity_ema c' * 100 /\
      Rabs (g_clarity g - 100 * r) <=
        0.85 ^ (S n) * Rabs (100 * crc_clarity_ema c - 100 * r) + 1e-9) /\
  (forall eps, 1e-9 < eps ->
      exists N, forall n, (N <= n)%nat ->
        exists g c',
          compute_n (S n) c state ps fused = (Ok (Some g), c') /\
          Rabs (g_clarity g - 100 * r) < eps).
Proof.
  intros Henv _ r.
  assert (Hsteps : forall n, exists g c',
             compute_n (S n) c state ps fused = (Ok (Some g), c') /\
             g_clarity g = crc_clarity_ema c' * 100 /\
             Rabs (g_clarity g - 100 * r) =
               0.85 ^ (S n) * Rabs (100 * crc_clarity_ema c - 100 * r)).
  { intro n.
    destruct (compute_n_ok (S n) c state ps fused envp Henv)
      as (og & c' & Hrun & _ & Hema & Hg).
    destruct (Hg (Nat.neq_succ_0 n)) as (g & -> & Hcl).
    exists g, c'. split; [exact Hrun |]. split; [exact Hcl |].
    fold r in Hema.
    replace (g_clarity g - 100 * r)
      with (0.85 ^ S n * (100 * crc_clarity_ema c - 100 * r)) by (rewrite Hcl; lra).
    rewrite Rabs_mult. f_equal.
    apply Rabs_right. apply Rle_ge. apply pow_le. lra. }
  split; [| split].
  - destruct (compute_ok c state ps fused envp Henv) as (g & Hg & Hcl & _).
    exists g. split; assumption.
  - intro n. destruct (Hsteps n) as (g & c' & Hrun & Hcl & Hdist).
    exists g, c'. split; [exact Hrun |]. split; [exact Hcl |].
    rewrite Hdist. lra.
  - intros eps Heps.
    set (D := Rabs (100 * crc_clarity_ema c - 100 * r)).
    assert (HD : 0 <= D) by apply Rabs_pos.
    destruct (pow_lt_1_zero 0.85) with (y := eps / (D + 1)) as [N HN].
    { rewrite Rabs_right; lra. }
    { apply Rdiv_lt_0_compat; lra. }
    exists N. intros n Hn.
    destruct (Hsteps n) as (g & c' & Hrun & _ & Hdist).
    exists g, c'. split; [exact Hrun |].
    rewrite Hdist. fold D.
    specialize (HN (S n) ltac:(lia)).
    rewrite Rabs_right in HN by (apply Rle_ge, pow_le; lra).
    assert (Hp : 0 <= 0.85 ^ S n) by (apply pow_le; lra).
    assert (Hlt : 0.85 ^ S n * (D + 1) < eps).
    { apply (Rmult_lt_compat_r (D + 1)) in HN; [| lra].
      unfold Rdiv in HN. rewrite Rmult_assoc, Rinv_l in HN by lra. lra. }
    nra.
Qed.

(** ** Rounding: the kernels evaluated in binary64 *)

(** Two readings with the same position do not fuse to that position:
    the altitude comes out one unit in the last place above 1000, so
    the dispersion, and with it the surprise, is not zero. *)
Lemma binary64_identical_readings :
  fuse_b64 [gate_demo_b64 90; gate_demo_b64 120] =
  {| f64_contrib := [0.5245901639344263; 0.4754098360655738]%float;
     f64_lat := 50;
     f64_lon := 36;
     f64_altitude_m := 1000.0000000000001;
     f64_fusion_conf := 0.9999999999999943;
     f64_surprise := 5.684341886080802e-15 |}.
Proof. vm_compute. reflexivity. Qed.

(** Two readings at latitude 90 fuse to a latitude above 90, which
    [FusedEstimate] refuses. *)
Lemma binary64_pole_raises :
  let e := fuse_b64 [pole_b64 0.9 40 1.0; pole_b64 0.75 98 0.9] in
  f64_lat e = 90.00000000000001%float /\
  (90.0 <? f64_lat e)%float = true /\
  FusedEstimate_ok_b64 e = false.
Proof. vm_compute. repeat split. Qed.

(** The contributions of an EO/IR and a GNSS reading of one tick do not
    add up to 1. *)
Lemma binary64_contributions_sum :
  let z := [49.9135; 36.2; 1200.0]%float in
  let e := fuse_b64 [eoir_b64 z 100; gnss_b64 z 40] in
  f64_contrib e = [0.09562568414011534; 0.9043743158598846]%float /\
  sum_b64 (f64_contrib e) = 0.9999999999999999%float /\
  (sum_b64 (f64_contrib e) <? 1.0)%float = true /\
  FusedEstimate_ok_b64 e = true.
Proof. vm_compute. repeat split. Qed.

(** The saturated envelope pressure [0.6 * 1.6 + 0.4 * 1.8] is above
    1.68. *)
Lemma binary64_pressure_saturates :
  snd (raw_clarity_b64 650 0.78 1e6 5.0 0 1 0) = 1.6800000000000002%float /\
  (1.68 <? 1.6800000000000002)%float = true.
Proof. vm_compute. split; reflexivity. Qed.

(** Six additions of 0.1 are not [6 * 0.1]. *)
Lemma binary64_mission_time :
  mission_time_b64 0.1 6 0 = 0.6%float /\
  (6 * 0.1 = 0.6000000000000001)%float /\
  (0.6 <? 0.6000000000000001)%float = true.
Proof. vm_compute. repeat split. Qed.

Lemma iter_fixed {A} (f : A -> A) (x : A) (k : nat) :
  f x = x -> Nat.iter k f x = x.
Proof.
  intro H. induction k as [| k IH]; [reflexivity |].
  rewrite Nat.iter_succ, IH. exact H.
Qed.

(** C8, as stated, fails in the arithmetic the code runs in.  With the
    nominal envelope, [q_kpa = 200], [thermal_index = 0.2], no threat,
    confidence 1 and surprise 0, the raw clarity is 0.7128205128205127.
    Starting from the initial memory 0.9, the memory reaches
    0.7128205128205128 and stays there, since the update maps this value
    to itself: from then on every call reports the clarity
    71.28205128205128, one unit in the last place above
    [100 * raw = 71.28205128205127].  The distance to [100 * raw] does
    not shrink by 0.85 per call and never falls below that gap. *)
Lemma clarity_ema_converges_counterexample :
  let ema := clarity_ema_b64 650 0.78 200 0.2 0 1 0 0.9 in
  let clarity n :=
    g64_clarity (fst (compute_b64 650 0.78 200 0.2 0 1 0 (ema n))) in
  fst (raw_clarity_b64 650 0.78 200 0.2 0 1 0) = 0.7128205128205127%float /\
  (100 * 0.7128205128205127 = 71.28205128205127)%float /\
  (forall n, (210 <= n)%nat ->
     ema n = 0.7128205128205128%float /\
     clarity n = 71.28205128205128%float) /\
  (71.28205128205127 <? 71.28205128205128)%float = true.
Proof.
  cbv zeta.
  split; [vm_compute; reflexivity |].
  split; [vm_compute; reflexivity |].
  split; [| vm_compute; reflexivity].
  assert (H210 : clarity_ema_b64 650 0.78 200 0.2 0 1 0 0.9 210
                 = 0.7128205128205128%float)
    by (vm_compute; reflexivity).
  assert (Hfix : snd (compute_b64 650 0.78 200 0.2 0 1 0 0.7128205128205128)
                 = 0.7128205128205128%float)
    by (vm_compute; reflexivity).
  assert (Hema : forall n, (210 <= n)%nat ->
            clarity_ema_b64 650 0.78 200 0.2 0 1 0 0.9 n
            = 0.7128205128205128%float).
  { intros n Hn.
    replace n with ((n - 210) + 210)%nat by lia.
    unfold clarity_ema_b64 in *.
    rewrite Nat.iter_add, H210.
    apply iter_fixed. exact Hfix. }
  intros n Hn. rewrite (Hema n Hn).
  split; [reflexivity | vm_compute; reflexivity].
Qed.

(** ** Weighted fusion: weights *)

Lemma Rsum_map_const {A} (c : R) (l : list A) :
  Rsum (map (fun _ => c) l) = INR (List.length l) * c.
Proof.
  induction l as [| x l IH].
  - simpl. lra.
  - change (List.length (x :: l)) with (S (List.length l)).
    rewrite S_INR. simpl. rewrite IH. lra.
Qed.

Lemma Rsum_map_div (s : R) (l : list R) :
  Rsum (map (fun w => w / s) l) = Rsum l / s.
Proof.
  induction l as [| x l IH]; simpl.
  - lra.
  - rewrite IH. lra.
Qed.

Lemma Rsum_nonneg (l : list R) : Forall (fun w => 0 <= w) l -> 0 <= Rsum l.
Proof.
  induction 1 as [| x l Hx _ IH]; simpl; lra.
Qed.

Lemma normalize_length (ws : list R) :
  List.length (normalize ws) = List.length ws.
Proof.
  unfold normalize. destruct (Rleb _ _); apply length_map.
Qed.

Lemma normalize_sum (ws : list R) : ws <> [] -> Rsum (normalize ws) = 1.
Proof.
  intro Hne. unfold normalize.
  destruct (Rleb (Rsum ws) 1e-12) eqn:Hs.
  - rewrite Rsum_map_const.
    assert (0 < INR (List.length ws)).
    { apply lt_0_INR. destruct ws; [congruence | simpl; lia]. }
    field. lra.
  - apply Rleb_false_iff in Hs. rewrite Rsum_map_div. field. lra.
Qed.

Lemma normalize_nonneg (ws : list R) :
  Forall (fun w => 0 <= w) ws -> Forall (fun w => 0 <= w) (normalize ws).
Proof.
  intro Hws. unfold normalize.
  destruct (Rleb (Rsum ws) 1e-12) eqn:Hs; apply Forall_forall;
    intros x Hx; apply in_map_iff in Hx; destruct Hx as (w & <- & Hw).
  - assert (0 < INR (List.length ws)).
    { apply lt_0_INR. destruct ws; [contradiction | simpl; lia]. }
    apply Rlt_le. apply Rdiv_lt_0_compat; lra.
  - apply Rleb_false_iff in Hs.
    rewrite Forall_forall in Hws. specialize (Hws w Hw).
    unfold Rdiv. apply Rmult_le_pos; [exact Hws |].
    apply Rlt_le, Rinv_0_lt_compat. lra.
Qed.

Lemma weight_nonneg (cfg : FusionConfig) (m : SensorMeasurement) :
  0 <= _weight cfg m.
Proof.
  unfold _weight.
  match goal with |- 0 <= Rmax ?a ?b => pose proof (Rmax_l a b) end. lra.
Qed.

Lemma weights_nonneg (cfg : FusionConfig) (ms : list SensorMeasurement) :
  Forall (fun w => 0 <= w) (normalize (map (_weight cfg) ms)).
Proof.
  apply normalize_nonneg. apply Forall_forall. intros w Hw.
  apply in_map_iff in Hw. destruct Hw as (m & <- & _). apply weight_nonneg.
Qed.

(** A weighted sum with non-negative weights stays between the bounds
    of its terms, scaled by the total weight. *)
Lemma weighted_column_bounds (j : nat) (lo hi : R)
    (ms : list SensorMeasurement) :
  Forall (fun m => lo <= nth j (z3 m) 0 <= hi) ms ->
  forall ws,
    List.length ws = List.length ms ->
    Forall (fun w => 0 <= w) ws ->
    lo * Rsum ws <= weighted_column j ms ws <= hi * Rsum ws.
Proof.
  induction 1 as [| m ms Hm _ IH]; intros ws Hlen Hws.
  - destruct ws; [simpl; lra | discriminate].
  - destruct ws as [| w ws]; [discriminate |].
    inversion Hws as [| ? ? Hw Hws']; subst.
    injection Hlen as Hlen. specialize (IH ws Hlen Hws').
    simpl. nra.
Qed.


(** ** Weighted fusion: contributions *)

Lemma dict_set_fresh {V} (d : Dict V) (k : string) (v : V) :
  ~ In k (dict_keys d) -> dict_set d k v = d ++ [(k, v)].
Proof.
  induction d as [| [k' v'] d IH]; simpl; intro Hk.
  - reflexivity.
  - destruct (String.eqb_spec k' k) as [-> | _]; [tauto |].
    rewrite IH by tauto. reflexivity.
Qed.

Lemma contrib_from_distinct (ms : list SensorMeasurement) :
  forall (ws : list R) (acc : Dict R),
    NoDup (dict_keys acc ++ map m_sensor_id ms) ->
    contrib_from acc ms ws = acc ++ combine (map m_sensor_id ms) ws.
Proof.
  induction ms as [| m ms IH]; intros ws acc Hnd; simpl.
  - now rewrite app_nil_r.
  - destruct ws as [| w ws]; [now rewrite app_nil_r |].
    simpl in Hnd.
    rewrite dict_set_fresh.
    + rewrite IH.
      * now rewrite <- app_assoc.
      * unfold dict_keys in *. rewrite map_app, <- app_assoc. exact Hnd.
    + apply NoDup_remove_2 in Hnd. intro Hin. apply Hnd.
      apply in_or_app. now left.
Qed.

Lemma dict_values_combine (ks : list string) (vs : list R) :
  List.length ks = List.length vs -> dict_values (combine ks vs) = vs.
Proof.
  revert vs. induction ks as [| k ks IH]; intros [| v vs] Hlen;
    try discriminate; [reflexivity |].
  simpl. f_equal. apply IH. now injection Hlen.
Qed.

Lemma dict_keys_combine (ks : list string) (vs : list R) :
  List.length ks = List.length vs -> dict_keys (combine ks vs) = ks.
Proof.
  revert vs. induction ks as [| k ks IH]; intros [| v vs] Hlen;
    try discriminate; [reflexivity |].
  simpl. f_equal. apply IH. now injection Hlen.
Qed.

(** ** Weighted fusion: confidence *)

Lemma calculate_confidence_bounds (ms : list SensorMeasurement)
    (ws fused : list R) :
  0 <= fst (WeightedFusion_calculate_confidence ms ws fused) <= 1 /\
  0 <= snd (WeightedFusion_calculate_confidence ms ws fused) <= 1.
Proof.
  unfold WeightedFusion_calculate_confidence.
  destruct (List.length ms <? 2)%nat; simpl.
  - lra.
  - clip_facts. lra.
Qed.



(** ** Weighted fusion: the estimate *)

Lemma z3_nth (m : SensorMeasurement) (j : nat) :
  (j < 3)%nat -> nth j (z3 m) 0 = nth j (m_z m) 0.
Proof.
  intro Hj. unfold z3. rewrite nth_firstn.
  destruct (Nat.ltb_spec j 3); [reflexivity | lia].
Qed.

Lemma fallback_ok : _fallback = Ok fallback_record.
Proof.
  unfold _fallback, new_FusedEstimate, FusedEstimate_ok, in_range. simpl.
  Rdecide. reflexivity.
Qed.

Lemma fuse_no_usable (cfg : FusionConfig) (ms : list SensorMeasurement) :
  filter usable ms = [] -> WeightedFusion_fuse cfg ms = Ok fallback_record.
Proof.
  intro H. unfold WeightedFusion_fuse. rewrite H. apply fallback_ok.
Qed.

Lemma fuse_unfold (cfg : FusionConfig) (ms : list SensorMeasurement) :
  filter usable ms <> [] ->
  WeightedFusion_fuse cfg ms =
  if forallb (fun m => (3 <=? List.length (m_z m))%nat) (filter usable ms)
  then new_FusedEstimate (fused_record cfg (filter usable ms))
  else Raise ShapeError.
Proof.
  intro Hne. unfold WeightedFusion_fuse, fused_record.
  destruct (filter usable ms) as [| m pos] eqn:Hpos; [congruence |].
  destruct (forallb _ _); [| reflexivity].
  destruct (WeightedFusion_calculate_confidence _ _ _); reflexivity.
Qed.

Lemma new_FusedEstimate_inv (e e' : FusedEstimate) :
  new_FusedEstimate e = Ok e' -> e' = e /\ FusedEstimate_ok e = true.
Proof.
  unfold new_FusedEstimate. destruct (FusedEstimate_ok e); [| discriminate].
  intro H. injection H as <-. now split.
Qed.

Lemma fuse_returns_fused_record (cfg : FusionConfig)
    (ms : list SensorMeasurement) (est : FusedEstimate) :
  WeightedFusion_fuse cfg ms = Ok est ->
  filter usable ms <> [] ->
  est = fused_record cfg (filter usable ms).
Proof.
  intros Hest Hne. rewrite fuse_unfold in Hest by exact Hne.
  destruct (forallb _ _); [| discriminate].
  apply new_FusedEstimate_inv in Hest. tauto.
Qed.

Lemma fused_record_ok (cfg : FusionConfig) (pos : list SensorMeasurement) :
  pos <> [] -> Forall position_ok pos ->
  FusedEstimate_ok (fused_record cfg pos) = true.
Proof.
  intros Hne Hpos.
  set (ws := normalize (map (_weight cfg) pos)).
  assert (Hsum : Rsum ws = 1).
  { apply normalize_sum. destruct pos; [congruence | discriminate]. }
  assert (Hlen : List.length ws = List.length pos).
  { unfold ws. now rewrite normalize_length, length_map. }
  assert (Hnn : Forall (fun w => 0 <= w) ws) by apply weights_nonneg.
  assert (Hcol : forall j lo hi,
             Forall (fun m => lo <= nth j (z3 m) 0 <= hi) pos ->
             lo <= weighted_column j pos ws <= hi).
  { intros j lo hi H.
    pose proof (weighted_column_bounds j lo hi pos H ws Hlen Hnn). nra. }
  pose proof (calculate_confidence_bounds pos ws (weighted_sum pos ws))
    as [Hconf Hsurp].
  assert (H0 : -90 <= weighted_column 0 pos ws <= 90).
  { apply Hcol. eapply Forall_impl; [| exact Hpos].
    intros m (Hl & H0 & _). rewrite z3_nth by lia. exact H0. }
  assert (H1 : -180 <= weighted_column 1 pos ws <= 180).
  { apply Hcol. eapply Forall_impl; [| exact Hpos].
    intros m (Hl & _ & H1 & _). rewrite z3_nth by lia. exact H1. }
  assert (H2 : -1000 <= weighted_column 2 pos ws <= 50000).
  { apply Hcol. eapply Forall_impl; [| exact Hpos].
    intros m (Hl & _ & _ & H2). rewrite z3_nth by lia. exact H2. }
  unfold FusedEstimate_ok, fused_record, in_range. fold ws.
  cbn [fe_lat fe_lon fe_altitude_m fe_velocity_mps fe_heading_deg
       fe_threat_index fe_civ_density fe_fusion_conf fe_surprise
       fe_used_meas_count weighted_sum nth].
  repeat (apply andb_true_intro; split);
    try (apply Rleb_true_iff; lra).
  apply Z.leb_le. lia.
Qed.

Lemma WeightedFusion_fuse_ok (cfg : FusionConfig)
    (ms : list SensorMeasurement) :
  filter usable ms <> [] ->
  Forall position_ok (filter usable ms) ->
  WeightedFusion_fuse cfg ms = Ok (fused_record cfg (filter usable ms)).
Proof.
  intros Hne Hpos. rewrite fuse_unfold by exact Hne.
  assert (Hshape : forallb (fun m => (3 <=? List.length (m_z m))%nat)
                     (filter usable ms) = true).
  { apply forallb_forall. intros m Hm.
    rewrite Forall_forall in Hpos. destruct (Hpos m Hm) as [Hl _].
    now apply Nat.leb_le. }
  rewrite Hshape. unfold new_FusedEstimate.
  now rewrite fused_record_ok.
Qed.












(** ** The order on keys and the sorted items *)

Lemma key_lt_irrefl (a : string) : ~ String_as_OT.lt a a.
Proof. apply (StrictOrder_Irreflexive (R := String_as_OT.lt)). Qed.

Lemma key_lt_trans (a b c : string) :
  String_as_OT.lt a b -> String_as_OT.lt b c -> String_as_OT.lt a c.
Proof. apply (StrictOrder_Transitive (R := String_as_OT.lt)). Qed.

Lemma key_leb_iff (a b : string) :
  key_leb a b = true <-> a = b \/ String_as_OT.lt a b.
Proof.
  unfold key_leb.
  destruct (String_as_OT.compare_spec a b) as [E | L | L]; split; intro H;
    auto; try discriminate.
  exfalso. destruct H as [-> | H].
  - exact (key_lt_irrefl b L).
  - exact (key_lt_irrefl a (key_lt_trans a b a H L)).
Qed.

Lemma key_leb_total (a b : string) :
  key_leb a b = true \/ key_leb b a = true.
Proof.
  rewrite !key_leb_iff.
  destruct (String_as_OT.compare_spec a b) as [E | L | L]; auto.
Qed.

Lemma key_leb_antisym (a b : string) :
  key_leb a b = true -> key_leb b a = true -> a = b.
Proof.
  rewrite !key_leb_iff. intros [E | L] [E' | L']; auto.
  exfalso. exact (key_lt_irrefl a (key_lt_trans a b a L L')).
Qed.

Lemma key_leb_trans (a b c : string) :
  key_leb a b = true -> key_leb b c = true -> key_leb a c = true.
Proof.
  rewrite !key_leb_iff. intros [-> | L] [-> | L']; auto.
  right. exact (key_lt_trans a b c L L').
Qed.

Section SortedItems.

Context {V : Type}.

Definition item_le (x y : string * V) : Prop :=
  key_leb (fst x) (fst y) = true.

Lemma insert_item_perm (x : string * V) (l : list (string * V)) :
  Permutation (insert_item x l) (x :: l).
Proof.
  induction l as [| y l IH]; simpl.
  - apply Permutation_refl.
  - destruct (key_leb (fst x) (fst y)).
    + apply Permutation_refl.
    + rewrite IH. apply perm_swap.
Qed.

Lemma sort_items_perm (l : list (string * V)) :
  Permutation (sort_items l) l.
Proof.
  induction l as [| x l IH]; simpl.
  - apply Permutation_refl.
  - rewrite insert_item_perm. now constructor.
Qed.

Lemma insert_item_sorted (x : string * V) (l : list (string * V)) :
  StronglySorted item_le l -> StronglySorted item_le (insert_item x l).
Proof.
  induction 1 as [| y l Hs IH Hall]; simpl.
  - repeat constructor.
  - destruct (key_leb (fst x) (fst y)) eqn:Hxy.
    + constructor; [now constructor |].
      constructor; [exact Hxy |].
      eapply Forall_impl; [| exact Hall].
      intros z Hyz. unfold item_le in *. eapply key_leb_trans; eassumption.
    + constructor; [exact IH |].
      assert (Hyx : item_le y x).
      { unfold item_le. destruct (key_leb_total (fst x) (fst y)); congruence. }
      eapply Permutation_Forall; [symmetry; apply insert_item_perm |].
      now constructor.
Qed.

Lemma sort_items_sorted (l : list (string * V)) :
  StronglySorted item_le (sort_items l).
Proof.
  induction l as [| x l IH]; simpl.
  - constructor.
  - now apply insert_item_sorted.
Qed.

(** Two sorted lists with the same items, no key twice, are equal. *)
Lemma sorted_items_unique (l1 : list (string * V)) :
  forall l2,
    StronglySorted item_le l1 -> StronglySorted item_le l2 ->
    Permutation l1 l2 -> NoDup (map fst l1) -> l1 = l2.
Proof.
  induction l1 as [| a l1 IH]; intros l2 Hs1 Hs2 Hp Hnd.
  - apply Permutation_nil in Hp. now subst.
  - destruct l2 as [| b l2].
    { apply Permutation_sym, Permutation_nil in Hp. discriminate. }
    inversion Hs1 as [| ? ? Hs1' Ha]; subst.
    inversion Hs2 as [| ? ? Hs2' Hb]; subst.
    assert (Hab : a = b).
    { assert (Hin_a : In a (b :: l2))
        by (eapply Permutation_in; [exact Hp | now left]).
      assert (Hin_b : In b (a :: l1))
        by (eapply Permutation_in;
            [apply Permutation_sym; exact Hp | now left]).
      destruct Hin_a as [-> | Hin_a]; [reflexivity |].
      destruct Hin_b as [-> | Hin_b]; [reflexivity |].
      rewrite Forall_forall in Ha, Hb.
      assert (Hk : fst a = fst b)
        by (apply key_leb_antisym; [apply Ha | apply Hb]; assumption).
      exfalso. inversion Hnd as [| ? ? Hnotin _]; subst.
      apply Hnotin. rewrite Hk. now apply in_map. }
    subst b. f_equal. apply IH; try assumption.
    + now apply Permutation_cons_inv in Hp.
    + now inversion Hnd.
Qed.

Lemma sort_items_permutation (l1 l2 : list (string * V)) :
  Permutation l1 l2 -> NoDup (map fst l1) -> sort_items l1 = sort_items l2.
Proof.
  intros Hp Hnd. apply sorted_items_unique.
  - apply sort_items_sorted.
  - apply sort_items_sorted.
  - rewrite !sort_items_perm. exact Hp.
  - eapply Permutation_NoDup; [| exact Hnd].
    apply Permutation_map, Permutation_sym, sort_items_perm.
Qed.

End SortedItems.

(** ** The audit digest *)

Section AuditProperties.

Variable float_repr : R -> string.
Variable json_escape : string -> string.
Variable sha256_hexdigest : string -> string.

Abbreviation dumps := (json_dumps float_repr json_escape).

Lemma json_dumps_array (l : list JSON) :
  dumps (JArray l) =
  String.append "[" (String.append (join "," (map dumps l)) "]").
Proof. reflexivity. Qed.

Lemma json_dumps_object (kv : Dict JSON) :
  dumps (JObject kv) =
  String.append "{"
    (String.append
       (join ","
          (map (fun '(k, text) =>
                  String.append (json_escape k) (String.append ":" text))
               (sort_items (map (fun '(k, v) => (k, dumps v)) kv))))
       "}").
Proof. reflexivity. Qed.

Lemma json_dumps_object_ext (kv kv' : Dict JSON) :
  map (fun '(k, v) => (k, dumps v)) kv =
  map (fun '(k, v) => (k, dumps v)) kv' ->
  dumps (JObject kv) = dumps (JObject kv').
Proof. intro H. rewrite !json_dumps_object. now rewrite H. Qed.

(** Sorting the keys makes the text of an object independent of the
    order its keys were inserted in. *)
Lemma json_dumps_object_perm (kv kv' : Dict JSON) :
  Permutation kv kv' -> NoDup (dict_keys kv) ->
  dumps (JObject kv) = dumps (JObject kv').
Proof.
  intros Hp Hnd. rewrite !json_dumps_object.
  rewrite (sort_items_permutation
             (map (fun '(k, v) => (k, dumps v)) kv)
             (map (fun '(k, v) => (k, dumps v)) kv')).
  - reflexivity.
  - now apply Permutation_map.
  - rewrite map_map.
    replace (map (fun x => fst (let '(k, v) := x in (k, dumps v))) kv)
      with (dict_keys kv); [exact Hnd |].
    unfold dict_keys. apply map_ext. now intros [k v].
Qed.

Lemma measurement_summary_dumps (m m' : SensorMeasurement) :
  meta_reordered m m' -> NoDup (dict_keys (m_meta m)) ->
  dumps (JObject (measurement_summary m)) =
  dumps (JObject (measurement_summary m')).
Proof.
  intros [m0 meta' Hp] Hnd. apply json_dumps_object_ext.
  unfold measurement_summary, z3.
  cbn [map set_meta m_tick m_utc_timestamp m_sensor_id m_sensor_type m_z
       m_R m_quality m_latency_ms m_dropped m_meta].
  now rewrite (json_dumps_object_perm _ _ Hp Hnd).
Qed.

Lemma used_payload_dumps (ms ms' : list SensorMeasurement) :
  Forall2 meta_reordered ms ms' ->
  Forall (fun m => NoDup (dict_keys (m_meta m))) ms ->
  dumps (JArray (map JObject (map measurement_summary ms))) =
  dumps (JArray (map JObject (map measurement_summary ms'))).
Proof.
  intros H2 Hnd. rewrite !json_dumps_array. do 3 f_equal.
  induction H2 as [| m m' ms ms' Hm _ IH].
  - reflexivity.
  - inversion Hnd as [| ? ? Hm_nd Hnd']; subst.
    cbn [map]. rewrite (measurement_summary_dumps m m' Hm Hm_nd).
    f_equal. now apply IH.
Qed.

(** The digest [build_audit_record] stores. *)
Definition audit_digest (tick : Z) (utc_now : string)
    (used_measurements : list SensorMeasurement) (fused : FusedEstimate)
    : string :=
  sha256_hexdigest
    (dumps (audit_payload tick utc_now
              (map measurement_summary used_measurements)
              (fused_summary fused))).

Lemma build_audit_record_ok (tick : Z) (utc_now : string)
    (ms : list SensorMeasurement) (fused : FusedEstimate) :
  (0 <= tick)%Z ->
  build_audit_record float_repr json_escape sha256_hexdigest
    tick utc_now ms fused =
  Ok {| ar_tick := tick;
        ar_utc := utc_now;
        ar_used_measurements := map measurement_summary ms;
        ar_fused_output := fused_summary fused;
        ar_sha256 := audit_digest tick utc_now ms fused |}.
Proof.
  intro Ht. unfold build_audit_record, new_AuditRecord.
  cbn [ar_tick]. now rewrite (proj2 (Z.leb_le 0 tick) Ht).
Qed.

(** C5.  [build_audit_record] reads nothing but its four arguments:
    equal ticks, timestamps, measurement lists and estimates give equal
    results, digest included.  For a tick that passes validation the
    record is built, its digest is the SHA-256 of the canonical JSON text
    of the payload, and that digest is the same when the metadata keys of
    the input measurements were inserted in another order (each
    measurement's metadata being a dictionary, no key twice). *)
Theorem audit_digest_stable (tick : Z) (utc_now : string)
    (fused : FusedEstimate) (ms ms' : list SensorMeasurement) :
  (0 <= tick)%Z ->
  Forall2 meta_reordered ms ms' ->
  Forall (fun m => NoDup (dict_keys (m_meta m))) ms ->
  (forall tick2 utc2 ms2 fused2,
      tick2 = tick -> utc2 = utc_now -> ms2 = ms -> fused2 = fused ->
      build_audit_record float_repr json_escape sha256_hexdigest
        tick2 utc2 ms2 fused2 =
      build_audit_record float_repr json_escape sha256_hexdigest
        tick utc_now ms fused) /\
  exists a a',
    build_audit_record float_repr json_escape sha256_hexdigest
      tick utc_now ms fused = Ok a /\
    build_audit_record float_repr json_escape sha256_hexdigest
      tick utc_now ms' fused = Ok a' /\
    ar_sha256 a = audit_digest tick utc_now ms fused /\
    ar_sha256 a' = ar_sha256 a.
Proof.
  intros Ht H2 Hnd. split.
  - intros tick2 utc2 ms2 fused2 -> -> -> ->. reflexivity.
  - do 2 eexists.
    rewrite !build_audit_record_ok by exact Ht.
    repeat split. cbn [ar_sha256]. unfold audit_digest. f_equal.
    apply json_dumps_object_ext. unfold audit_payload. cbn [map].
    now rewrite (used_payload_dumps ms ms' H2 Hnd).
Qed.

End AuditProperties.

Lemma audit_digest_stable_witness :
  exists a a',
    build_audit_record (fun _ => "f") (fun s => s) (fun s => s)
      7 "2026-01-01T00:00:07Z" [meta_demo] fallback_record = Ok a /\
    build_audit_record (fun _ => "f") (fun s => s) (fun s => s)
      7 "2026-01-01T00:00:07Z"
      [set_meta meta_demo
         [("dropped_reason", JString "none"); ("jam_factor", JFloat 0.05)]]
      fallback_record = Ok a' /\
    ar_sha256 a =
      audit_digest (fun _ => "f") (fun s => s) (fun s => s)
        7 "2026-01-01T00:00:07Z" [meta_demo] fallback_record /\
    ar_sha256 a' = ar_sha256 a.
Proof.
  apply (audit_digest_stable (fun _ => "f") (fun s => s) (fun s => s)
           7 "2026-01-01T00:00:07Z" fallback_record [meta_demo]).
  - lia.
  - constructor; [| constructor]. constructor. apply perm_swap.
  - constructor; [| constructor].
    simpl. repeat constructor; simpl; intuition discriminate.
Defined.

(** ** Outcomes of fusion and governance *)

Lemma WeightedFusion_fuse_valid (cfg : FusionConfig)
    (ms : list SensorMeasurement) (fused : FusedEstimate) :
  WeightedFusion_fuse cfg ms = Ok fused -> FusedEstimate_ok fused = true.
Proof.
  intro H. destruct (filter usable ms) as [| m0 pos] eqn:Hpos.
  - unfold WeightedFusion_fuse in H. rewrite Hpos in H.
    now apply new_FusedEstimate_inv in H as [-> Hok].
  - rewrite fuse_unfold in H by (rewrite Hpos; discriminate).
    destruct (forallb _ _); [| discriminate].
    now apply new_FusedEstimate_inv in H as [-> Hok].
Qed.

(** The strategy an engine holds: the stub for the name "kalman", the
    weighted strategy for every other name. *)
Lemma FusionEngine_init_strategy (cfg : FusionConfig) (name : string) :
  eng_config (FusionEngine_init cfg name) = cfg /\
  eng_strategy (FusionEngine_init cfg name) =
    if String.eqb "kalman" name then KalmanFusion cfg else WeightedFusion cfg.
Proof.
  split; [reflexivity |].
  unfold FusionEngine_init, dict_mem, dict_find. cbn [eng_strategy].
  destruct (String.eqb_spec "weighted" name) as [<- | Hw].
  - reflexivity.
  - destruct (String.eqb_spec "kalman" name) as [<- | Hk]; reflexivity.
Qed.

Lemma FusionEngine_fuse_valid (cfg : FusionConfig) (name : string)
    (history : list SensorMeasurement) (T : Z) (fused : FusedEstimate) :
  FusionEngine_fuse (FusionEngine_init cfg name) history T = Ok fused ->
  FusedEstimate_ok fused = true.
Proof.
  unfold FusionEngine_fuse.
  destruct (FusionEngine_init_strategy cfg name) as [-> ->].
  destruct (String.eqb "kalman" name); cbn [fuse KalmanFusion WeightedFusion].
  - discriminate.
  - apply WeightedFusion_fuse_valid.
Qed.

Lemma FusedEstimate_ok_bounds (e : FusedEstimate) :
  FusedEstimate_ok e = true ->
  -90 <= fe_lat e <= 90 /\ -180 <= fe_lon e <= 180 /\
  -1000 <= fe_altitude_m e <= 50000 /\
  0 <= fe_fusion_conf e <= 1 /\ 0 <= fe_surprise e <= 1.
Proof.
  unfold FusedEstimate_ok. rewrite !andb_true_iff, !in_range_true_iff.
  intros H. repeat split; lra.
Qed.

Lemma SensorMeasurement_ok_bounds (m : SensorMeasurement) :
  SensorMeasurement_ok m = true ->
  (0 <= m_tick m)%Z /\ 0 <= m_quality m <= 1 /\ 0 <= m_latency_ms m.
Proof.
  unfold SensorMeasurement_ok.
  rewrite !andb_true_iff, in_range_true_iff, Rleb_true_iff, Z.leb_le.
  intros H. repeat split; try lra; tauto.
Qed.

Lemma raw_clarity_bounds (envp : EnvelopePreset) (ps : PhysicalState)
    (fused : FusedEstimate) :
  0 <= raw_clarity envp ps fused <= 1.
Proof.
  unfold raw_clarity. cbv zeta. clip_facts.
  match goal with
  | |- 0 <= ?a * ?b * ?c <= 1 => assert (0 <= a * b <= 1) by nra; nra
  end.
Qed.

Lemma compute_spec (c : ClarityRiskCalculator) (state : EngineState)
    (ps : PhysicalState) (fused : FusedEstimate) (envp : EnvelopePreset) :
  dict_index ENVELOPES (st_envelope_name state) = Ok envp ->
  0 <= crc_clarity_ema c <= 1 ->
  exists g,
    compute c state ps fused =
      (Ok g,
       {| crc_config := crc_config c;
          crc_clarity_ema :=
            0.15 * raw_clarity envp ps fused + 0.85 * crc_clarity_ema c |}) /\
    g_clarity g =
      (0.15 * raw_clarity envp ps fused + 0.85 * crc_clarity_ema c) * 100 /\
    0 <= g_clarity g <= 100 /\
    0 <= g_risk g <= 100 /\
    0 <= g_pred g <= 100 /\
    0 <= g_pressure g <= 2.
Proof.
  intros Henv Hema. unfold compute. rewrite Henv.
  pose proof (raw_clarity_bounds envp ps fused) as Hraw.
  eexists. split; [reflexivity |].
  cbn [g_clarity g_risk g_pred g_pressure].
  split; [lra |]. split; [lra |].
  split; [clip_facts; lra |]. split; [clip_facts; lra |].
  unfold envelope_pressure. cbv zeta. clip_facts. lra.
Qed.

(** ** Running a step: what each stage reads and writes *)

Lemma SensorMeasurement_ok_intro (m : SensorMeasurement) :
  (0 <= m_tick m)%Z ->
  0 <= m_quality m <= 1 ->
  0 <= m_latency_ms m ->
  forallb (fun row => (List.length row =? List.length (m_R m))%nat) (m_R m)
    = true ->
  SensorMeasurement_ok m = true.
Proof.
  intros Ht Hq Hl Hr. unfold SensorMeasurement_ok.
  rewrite Hr, (proj2 (Z.leb_le _ _) Ht).
  rewrite (proj2 (in_range_true_iff 0.0 (m_quality m) 1.0)) by lra.
  rewrite (proj2 (Rleb_true_iff 0.0 (m_latency_ms m))) by lra.
  reflexivity.
Qed.

Section Stages.

Variable Rng : Type.
Variable default_rng : Z -> Rng.
Variable rng_uniform : R -> R -> Rng -> R * Rng.
Variable rng_normal : R -> R -> Rng -> R * Rng.
Variable rng_random : Rng -> R * Rng.

Variable float_repr : R -> string.
Variable json_escape : string -> string.
Variable sha256_hexdigest : string -> string.

(** What is known of the values the generator returns: [Pu lo hi x]
    of a uniform draw [x], [Pn mu sigma x] of a normal draw, [Pr x] of a
    [random()] draw.  Taking all three to be [True] covers every
    generator. *)
Variable Pu : R -> R -> R -> Prop.
Variable Pn : R -> R -> R -> Prop.
Variable Pr : R -> Prop.
Hypothesis uniform_spec : forall lo hi g, Pu lo hi (fst (rng_uniform lo hi g)).
Hypothesis normal_spec : forall mu sigma g, Pn mu sigma (fst (rng_normal mu sigma g)).
Hypothesis random_spec : forall g, Pr (fst (rng_random g)).

(** The store after one reading of the clock. *)
Definition after_utc (s s' : Store Rng) : Prop :=
  s_engine Rng s' = s_engine Rng s /\
  s_state Rng s' = s_state Rng s /\
  s_clock Rng s' = snd (utc (s_clock Rng s)).

Definition sensor_post (state : EngineState) (id : string) (ty : SensorType)
    (s : Store Rng) (m : SensorMeasurement) (s' : Store Rng) : Prop :=
  after_utc s s' /\
  m_utc_timestamp m = utc_readings (s_clock Rng s) 0 /\
  measured state id ty m.

(** A vector of three normal draws around zero. *)
Definition noise3 (v : list R) : Prop :=
  exists n0 n1 n2 s0 s1 s2,
    v = [n0; n1; n2] /\ Pn 0 s0 n0 /\ Pn 0 s1 n1 /\ Pn 0 s2 n2.

Lemma noise3_intro (n0 n1 n2 s0 s1 s2 : R) :
  Pn 0 s0 n0 -> Pn 0 s1 n1 -> Pn 0 s2 n2 -> noise3 [n0; n1; n2].
Proof. intros. exists n0, n1, n2, s0, s1, s2. auto. Qed.

Definition link_facts (m : SensorMeasurement) : Prop :=
  m_dropped m = false /\
  40 <= nth 0 (m_z m) 0 <= 800 /\
  m_latency_ms m = nth 0 (m_z m) 0 /\
  exists u,
    Pr u /\
    m_meta m =
      [("comms_loss",
        JFloat (if Rltb u (0.02 + 0.08 * (m_latency_ms m / 600.0))
                then 1.0 else 0.0))].

Definition imu_facts (m : SensorMeasurement) : Prop :=
  m_dropped m = false /\
  5 <= m_latency_ms m <= 60 /\
  exists d, 0.005 <= d <= 0.12 /\
            m_meta m = [("imu_drift_deg_s", JFloat d)].

Definition baro_facts (m : SensorMeasurement) : Prop :=
  m_dropped m = false /\ 5 <= m_latency_ms m <= 80.

Definition gnss_facts (truth : Truth) (env : EnvProfile)
    (m : SensorMeasurement) : Prop :=
  40 <= m_latency_ms m <= 300 /\
  exists u,
    Pr u /\
    m_dropped m = Rltb u (0.02 + env_gnss_jam_factor env * 0.25) /\
    (m_dropped m = false ->
     m_latency_ms m <= 220 /\
     exists noise u2 spoof,
       noise3 noise /\ Pr u2 /\
       (if Rltb u2 (env_gnss_jam_factor env * 0.15)
        then noise3 spoof else spoof = [0.0; 0.0; 0.0]) /\
       m_z m = vadd (vadd (truth_position truth) noise) spoof).

Definition eoir_facts (truth : Truth) (env : EnvProfile) (comms_loss : R)
    (m : SensorMeasurement) : Prop :=
  60 <= m_latency_ms m <= 400 /\
  exists u,
    Pr u /\
    m_dropped m =
      Rltb u (0.03 + env_eoir_degrade env * 0.22 + comms_loss * 0.15) /\
    (m_dropped m = false ->
     m_latency_ms m <= 320 /\
     exists noise,
       noise3 noise /\ m_z m = vadd (truth_position truth) noise).

Definition radar_facts (truth : Truth) (m : SensorMeasurement) : Prop :=
  m_dropped m = false /\
  50 <= m_latency_ms m <= 280 /\
  exists noise,
    noise3 noise /\ m_z m = vadd (truth_position truth) noise.

Ltac draw_normal x g H :=
  match goal with
  | |- context [rng_normal ?mu ?sigma ?g0] =>
      pose proof (normal_spec mu sigma g0) as H;
      destruct (rng_normal mu sigma g0) as [x g];
      cbn [fst snd s_rng s_engine s_state s_clock] in H |- *
  end.

Ltac draw_random x g H :=
  match goal with
  | |- context [rng_random ?g0] =>
      pose proof (random_spec g0) as H;
      destruct (rng_random g0) as [x g];
      cbn [fst snd s_rng s_engine s_state s_clock] in H |- *
  end.

Ltac draw_uniform x g H :=
  match goal with
  | |- context [rng_uniform ?lo ?hi ?g0] =>
      pose proof (uniform_spec lo hi g0) as H;
      destruct (rng_uniform lo hi g0) as [x g];
      cbn [fst snd s_rng s_engine s_state s_clock] in H |- *
  end.

Ltac run_sim :=
  cbv beta iota zeta
      delta [bind ret normal3 normal random uniform draw state_utc lift utc];
  cbn [fst snd s_rng s_engine s_state s_clock].

Ltac post_common :=
  unfold sensor_post, measured, after_utc;
  cbn [m_utc_timestamp m_tick m_sensor_id m_sensor_type m_z
       s_engine s_state s_clock List.length];
  repeat split; (reflexivity || assumption).

Ltac build_measurement :=
  match goal with
  | |- context [new_SensorMeasurement ?m] =>
      let Hok := fresh "Hok" in
      assert (Hok : SensorMeasurement_ok m = true);
      [ apply SensorMeasurement_ok_intro;
        cbn [m_tick m_quality m_latency_ms m_R];
        [ lia | clip_facts; lra | clip_facts; lra | reflexivity ]
      | unfold new_SensorMeasurement; rewrite Hok ]
  end.

Lemma simulate_link_spec (state : EngineState) (env : EnvProfile)
    (s : Store Rng) :
  (0 <= st_tick state + 1)%Z ->
  exists m s',
    simulate_link Rng rng_normal rng_random state env s = (Ok m, s') /\
    sensor_post state "LINK_1" LINK s m s' /\
    link_facts m.
Proof.
  intro Htick. unfold simulate_link. run_sim.
  draw_normal j g1 Hj. draw_random u g2 Hu.
  build_measurement.
  do 2 eexists. split; [reflexivity |].
  split; [post_common |].
  unfold link_facts, imu_facts, baro_facts, gnss_facts, eoir_facts, radar_facts.
  cbn [m_dropped m_z m_latency_ms m_meta nth].
  split; [reflexivity |]. split; [clip_facts; lra |].
  split; [reflexivity |].
  exists u. split; [exact Hu | reflexivity].
Qed.

Lemma simulate_imu_spec (state : EngineState) (env : EnvProfile)
    (s : Store Rng) :
  (0 <= st_tick state + 1)%Z ->
  exists m s',
    simulate_imu Rng rng_normal state env s = (Ok m, s') /\
    sensor_post state "IMU_1" IMU s m s' /\
    imu_facts m.
Proof.
  intro Htick. unfold simulate_imu. run_sim.
  draw_normal n g1 Hn. draw_normal l g2 Hl.
  build_measurement.
  do 2 eexists. split; [reflexivity |].
  split; [post_common |].
  unfold link_facts, imu_facts, baro_facts, gnss_facts, eoir_facts, radar_facts.
  cbn [m_dropped m_z m_latency_ms m_meta nth].
  split; [reflexivity |]. split; [clip_facts; lra |].
  eexists. split; [| reflexivity]. clip_facts. lra.
Qed.

Lemma simulate_baro_spec (state : EngineState) (truth : Truth)
    (s : Store Rng) :
  (0 <= st_tick state + 1)%Z ->
  exists m s',
    simulate_baro Rng rng_normal state truth s = (Ok m, s') /\
    sensor_post state "BARO_1" BARO s m s' /\
    baro_facts m.
Proof.
  intro Htick. unfold simulate_baro. run_sim.
  draw_normal n g1 Hn. draw_normal l g2 Hl.
  build_measurement.
  do 2 eexists. split; [reflexivity |].
  split; [post_common |].
  unfold link_facts, imu_facts, baro_facts, gnss_facts, eoir_facts, radar_facts.
  cbn [m_dropped m_z m_latency_ms m_meta nth].
  split; [reflexivity |]. clip_facts; lra.
Qed.

Lemma simulate_gnss_spec (state : EngineState) (truth : Truth)
    (env : EnvProfile) (s : Store Rng) :
  (0 <= st_tick state + 1)%Z ->
  exists m s',
    simulate_gnss Rng rng_normal rng_random state truth env s = (Ok m, s') /\
    sensor_post state "GNSS_A" GNSS s m s' /\
    gnss_facts truth env m.
Proof.
  intro Htick. unfold simulate_gnss. run_sim.
  draw_random u g1 Hu.
  destruct (Rltb u (0.02 + env_gnss_jam_factor env * 0.25)) eqn:Hdrop.
  - run_sim. draw_normal l g2 Hl. build_measurement.
    do 2 eexists. split; [reflexivity |].
    split; [post_common |].
    unfold gnss_facts, eoir_facts.
  unfold link_facts, imu_facts, baro_facts, gnss_facts, eoir_facts, radar_facts.
    cbn [m_dropped m_z m_latency_ms m_meta nth].
    split; [clip_facts; lra |].
    exists u. split; [exact Hu |]. split; [now rewrite Hdrop |].
    discriminate.
  - run_sim.
    draw_normal n0 g2 Hn0. draw_normal n1 g3 Hn1. draw_normal n2 g4 Hn2.
    draw_random u2 g5 Hu2.
    destruct (Rltb u2 (env_gnss_jam_factor env * 0.15)) eqn:Hspoof.
    + run_sim.
      draw_normal p0 g6 Hp0. draw_normal p1 g7 Hp1. draw_normal p2 g8 Hp2.
      draw_normal l g9 Hl. build_measurement.
      do 2 eexists. split; [reflexivity |].
      split; [post_common |].
      unfold gnss_facts, eoir_facts.
    unfold gnss_facts, eoir_facts.
  unfold link_facts, imu_facts, baro_facts, gnss_facts, eoir_facts, radar_facts.
      cbn [m_dropped m_z m_latency_ms m_meta nth].
      split; [clip_facts; lra |].
      exists u. split; [exact Hu |]. split; [now rewrite Hdrop |].
      intros _. split; [clip_facts; lra |].
      exists [n0; n1; n2], u2, [p0; p1; p2]. rewrite Hspoof.
      split; [eapply noise3_intro; eassumption |].
      split; [exact Hu2 |].
      split; [eapply noise3_intro; eassumption | reflexivity].
    + run_sim. draw_normal l g9 Hl. build_measurement.
      do 2 eexists. split; [reflexivity |].
      split; [post_common |].
      unfold gnss_facts, eoir_facts.
    unfold gnss_facts, eoir_facts.
  unfold link_facts, imu_facts, baro_facts, gnss_facts, eoir_facts, radar_facts.
      cbn [m_dropped m_z m_latency_ms m_meta nth].
      split; [clip_facts; lra |].
      exists u. split; [exact Hu |]. split; [now rewrite Hdrop |].
      intros _. split; [clip_facts; lra |].
      exists [n0; n1; n2], u2, [0.0; 0.0; 0.0]. rewrite Hspoof.
      split; [eapply noise3_intro; eassumption |].
      split; [exact Hu2 |]. split; reflexivity.
Qed.

Lemma simulate_eoir_spec (state : EngineState) (truth : Truth)
    (env : EnvProfile) (comms_loss : R) (s : Store Rng) :
  (0 <= st_tick state + 1)%Z ->
  exists m s',
    simulate_eoir Rng rng_normal rng_random state truth env comms_loss s
      = (Ok m, s') /\
    sensor_post state "EOIR_1" EOIR s m s' /\
    eoir_facts truth env comms_loss m.
Proof.
  intro Htick. unfold simulate_eoir. run_sim.
  draw_random u g1 Hu.
  destruct (Rltb u (0.03 + env_eoir_degrade env * 0.22 + comms_loss * 0.15))
    eqn:Hdrop.
  - run_sim. draw_normal l g2 Hl. build_measurement.
    do 2 eexists. split; [reflexivity |].
    split; [post_common |].
    unfold gnss_facts, eoir_facts.
  unfold link_facts, imu_facts, baro_facts, gnss_facts, eoir_facts, radar_facts.
    cbn [m_dropped m_z m_latency_ms m_meta nth].
    split; [clip_facts; lra |].
    exists u. split; [exact Hu |]. split; [now rewrite Hdrop |].
    discriminate.
  - run_sim.
    draw_normal n0 g2 Hn0. draw_normal n1 g3 Hn1. draw_normal n2 g4 Hn2.
    draw_normal h g5 Hh. draw_normal l g6 Hl. build_measurement.
    do 2 eexists. split; [reflexivity |].
    split; [post_common |].
    unfold gnss_facts, eoir_facts.
  unfold link_facts, imu_facts, baro_facts, gnss_facts, eoir_facts, radar_facts.
    cbn [m_dropped m_z m_latency_ms m_meta nth].
    split; [clip_facts; lra |].
    exists u. split; [exact Hu |]. split; [now rewrite Hdrop |].
    intros _. split; [clip_facts; lra |].
    exists [n0; n1; n2].
    split; [eapply noise3_intro; eassumption | reflexivity].
Qed.

Lemma simulate_radar_spec (state : EngineState) (truth : Truth)
    (s : Store Rng) :
  (0 <= st_tick state + 1)%Z ->
  exists m s',
    simulate_radar Rng rng_normal state truth s = (Ok m, s') /\
    sensor_post state "RADAR_1" RADAR s m s' /\
    radar_facts truth m.
Proof.
  intro Htick. unfold simulate_radar. run_sim.
  draw_normal n0 g2 Hn0. draw_normal n1 g3 Hn1. draw_normal n2 g4 Hn2.
  draw_normal l g6 Hl. build_measurement.
  do 2 eexists. split; [reflexivity |].
  split; [post_common |].
  unfold link_facts, imu_facts, baro_facts, gnss_facts, eoir_facts, radar_facts.
  cbn [m_dropped m_z m_latency_ms m_meta nth].
  split; [reflexivity |]. split; [clip_facts; lra |].
  exists [n0; n1; n2].
  split; [eapply noise3_intro; eassumption | reflexivity].
Qed.

Lemma bind_returns {A B} (c : M Rng A) (k : A -> M Rng B)
    (s s' : Store Rng) (a : A) :
  c s = (Ok a, s') -> bind Rng c k s = k a s'.
Proof. intro H. unfold bind. now rewrite H. Qed.

Lemma bind_raises {A B} (c : M Rng A) (k : A -> M Rng B)
    (s s' : Store Rng) (e : Error) :
  c s = (Raise e, s') -> bind Rng c k s = (Raise e, s').
Proof. intro H. unfold bind. now rewrite H. Qed.

(** The measurements of one tick: always the first five sensors, in
    this order, then the radar or nothing. *)
Definition tick_measurements (state : EngineState) (truth : Truth)
    (env : EnvProfile) (ms : list SensorMeasurement) : Prop :=
  exists link imu baro gnss eoir tail,
    ms = link :: imu :: baro :: gnss :: eoir :: tail /\
    (measured state "LINK_1" LINK link /\ link_facts link) /\
    (measured state "IMU_1" IMU imu /\ imu_facts imu) /\
    (measured state "BARO_1" BARO baro /\ baro_facts baro) /\
    (measured state "GNSS_A" GNSS gnss /\ gnss_facts truth env gnss) /\
    (measured state "EOIR_1" EOIR eoir /\
     eoir_facts truth env (link_comms_loss link) eoir) /\
    exists u,
      Pr u /\
      if Rltb u 0.55
      then exists radar,
             tail = [radar] /\ measured state "RADAR_1" RADAR radar /\
             radar_facts truth radar
      else tail = [].

Lemma simulate_all_spec (state : EngineState) (truth : Truth)
    (env : EnvProfile) (s : Store Rng) :
  (0 <= st_tick state + 1)%Z ->
  exists ms s',
    simulate_all Rng rng_normal rng_random state truth env s = (Ok ms, s') /\
    s_engine Rng s' = s_engine Rng s /\
    s_state Rng s' = s_state Rng s /\
    s_clock Rng s' = reads (List.length ms) (s_clock Rng s) /\
    tick_measurements state truth env ms.
Proof.
  intro Htick. unfold simulate_all.
  destruct (simulate_link_spec state env s Htick)
    as (link & s1 & E1 & ((Fe1 & Fs1 & Fc1) & _ & M1) & L1).
  rewrite (bind_returns _ _ _ _ _ E1).
  destruct (simulate_imu_spec state env s1 Htick)
    as (imu & s2 & E2 & ((Fe2 & Fs2 & Fc2) & _ & M2) & L2).
  rewrite (bind_returns _ _ _ _ _ E2).
  destruct (simulate_baro_spec state truth s2 Htick)
    as (baro & s3 & E3 & ((Fe3 & Fs3 & Fc3) & _ & M3) & L3).
  rewrite (bind_returns _ _ _ _ _ E3).
  destruct (simulate_gnss_spec state truth env s3 Htick)
    as (gnss & s4 & E4 & ((Fe4 & Fs4 & Fc4) & _ & M4) & L4).
  rewrite (bind_returns _ _ _ _ _ E4).
  fold (link_comms_loss link).
  destruct (simulate_eoir_spec state truth env (link_comms_loss link) s4 Htick)
    as (eoir & s5 & E5 & ((Fe5 & Fs5 & Fc5) & _ & M5) & L5).
  rewrite (bind_returns _ _ _ _ _ E5).
  assert (Hclk : s_clock Rng s5 = reads 5 (s_clock Rng s)).
  { unfold reads. simpl Nat.iter. now rewrite Fc5, Fc4, Fc3, Fc2, Fc1. }
  assert (He : s_engine Rng s5 = s_engine Rng s) by congruence.
  assert (Hs : s_state Rng s5 = s_state Rng s) by congruence.
  run_sim. draw_random u g Hu.
  destruct (Rltb u 0.55) eqn:Hradar.
  - match goal with
    | |- context [simulate_radar _ _ _ _ ?s0] =>
        destruct (simulate_radar_spec state truth s0 Htick)
          as (radar & s6 & E6 & ((Fe6 & Fs6 & Fc6) & _ & M6) & L6)
    end.
    cbn [s_engine s_state s_clock] in Fe6, Fs6, Fc6.
    rewrite E6.
    exists [link; imu; baro; gnss; eoir; radar], s6.
    split; [reflexivity |].
    split; [congruence |]. split; [congruence |].
    split. { rewrite Fc6, Hclk. reflexivity. }
    exists link, imu, baro, gnss, eoir, [radar].
    split; [reflexivity |].
    split; [exact (conj M1 L1) |]. split; [exact (conj M2 L2) |].
    split; [exact (conj M3 L3) |]. split; [exact (conj M4 L4) |].
    split; [exact (conj M5 L5) |].
    exists u. rewrite Hradar. split; [exact Hu |].
    exists radar. split; [reflexivity | split; assumption].
  - eexists [link; imu; baro; gnss; eoir], _.
    split; [reflexivity |]. cbn [s_engine s_state s_clock].
    split; [exact He |]. split; [exact Hs |]. split; [exact Hclk |].
    exists link, imu, baro, gnss, eoir, [].
    split; [reflexivity |].
    split; [exact (conj M1 L1) |]. split; [exact (conj M2 L2) |].
    split; [exact (conj M3 L3) |]. split; [exact (conj M4 L4) |].
    split; [exact (conj M5 L5) |].
    exists u. rewrite Hradar. split; [exact Hu | reflexivity].
Qed.

(** The envelopes of the preset table have positive maxima. *)
Lemma ENVELOPES_positive (name : string) (envp : EnvelopePreset) :
  dict_index ENVELOPES name = Ok envp ->
  0 < envp_max_mach envp <= 5 /\
  0 < envp_max_q_kpa envp /\
  0 < envp_max_thermal_index envp <= 1.
Proof.
  unfold dict_index, ENVELOPES, dict_find.
  repeat match goal with
  | |- context [String.eqb ?a name] => destruct (String.eqb a name)
  end; intro H; inversion H; subst; simpl; lra.
Qed.

(** The bounds of the generated ground truth. *)
Definition truth_facts (state : EngineState) (envelope : EnvelopePreset)
    (ao : AOConfig) (truth : Truth) : Prop :=
  0 <= tr_mach truth <= envp_max_mach envelope /\
  tr_velocity_mps truth = tr_mach truth * 295.0 /\
  0 <= tr_altitude_m truth <= 18000 /\
  0 <= tr_q_kpa truth <= 900 /\
  0 <= tr_thermal_index truth <= 1 /\
  tr_g_load truth = 1.0 /\
  0 <= tr_threat_index truth <= 100 /\
  0 <= tr_civ_density truth <= 1 /\
  tr_nav_drift truth = 5.0 /\
  0 <= tr_vision_hot_ratio truth <= 1 /\
  exists u_lat u_lon,
    Pu (- ao_lat_delta ao) (ao_lat_delta ao) u_lat /\
    Pu (- ao_lon_delta ao) (ao_lon_delta ao) u_lon /\
    tr_lat truth = ao_base_lat ao + u_lat /\
    tr_lon truth = ao_base_lon ao + u_lon.

Lemma generate_truth_spec (state : EngineState) (env : EnvProfile)
    (envelope : EnvelopePreset) (ao : AOConfig) (s : Store Rng) :
  dict_index ENVELOPES (st_envelope_name state) = Ok envelope ->
  st_ao state = Some ao ->
  exists truth s',
    _generate_truth Rng rng_uniform rng_normal state env s = (Ok truth, s') /\
    s_engine Rng s' = s_engine Rng s /\
    s_state Rng s' = s_state Rng s /\
    s_clock Rng s' = s_clock Rng s /\
    truth_facts state envelope ao truth.
Proof.
  intros Henv Hao.
  pose proof (ENVELOPES_positive _ _ Henv) as (Hmach & Hq & Hth).
  unfold _generate_truth. rewrite Henv, Hao. run_sim.
  draw_uniform u1 g1 H1. draw_uniform u2 g2 H2. draw_normal n1 g3 H3.
  draw_uniform u3 g4 H4. draw_uniform u4 g5 H5.
  draw_uniform u5 g6 H6. draw_uniform u6 g7 H7. draw_normal n2 g8 H8.
  do 2 eexists. split; [reflexivity |].
  cbn [s_engine s_state s_clock].
  do 3 (split; [reflexivity |]).
  unfold truth_facts.
  cbn [tr_mach tr_velocity_mps tr_altitude_m tr_q_kpa tr_thermal_index
       tr_g_load tr_lat tr_lon tr_threat_index tr_civ_density tr_nav_drift
       tr_vision_hot_ratio].
  split; [clip_facts; lra |]. split; [reflexivity |].
  split; [clip_facts; lra |]. split; [clip_facts; lra |].
  split; [clip_facts; lra |]. split; [reflexivity |].
  split; [clip_facts; lra |]. split; [clip_facts; lra |].
  split; [reflexivity |]. split; [clip_facts; lra |].
  exists u3, u4. repeat split; assumption.
Qed.

Definition with_state (s : Store Rng) (st : EngineState) : Store Rng :=
  {| s_engine := s_engine Rng s; s_state := st;
     s_clock := s_clock Rng s; s_rng := s_rng Rng s |}.

Lemma record_all_spec (ms : list SensorMeasurement) :
  forall s,
    for_each Rng ms (record_measurement Rng) s =
    (Ok tt, with_state s (fold_left record_pure ms (s_state Rng s))).
Proof.
  induction ms as [| m ms IH]; intro s.
  - unfold with_state. destruct s. reflexivity.
  - cbn [for_each fold_left].
    unfold bind at 1. unfold record_measurement at 1.
    unfold bind, get_state, put_state. cbn [s_engine s_state s_clock s_rng].
    rewrite IH. reflexivity.
Qed.

Lemma record_all_frame (ms : list SensorMeasurement) :
  forall st,
    same_but_measurements st (fold_left record_pure ms st) /\
    st_meas_history (fold_left record_pure ms st) =
      fold_left
        (deque_append (cfg_max_measurement_history (st_config st)))
        ms (st_meas_history st).
Proof.
  induction ms as [| m ms IH]; intro st; cbn [fold_left].
  - unfold same_but_measurements. repeat split.
  - destruct (IH (record_pure st m)) as [Hsame Hmeas].
    unfold same_but_measurements in *.
    destruct Hsame as (Hf_config & Hf_tick & Hf_mission_time_s & Hf_mission_stage_index & Hf_mission_stage_tick & Hf_run_id & Hf_rng_seed & Hf_ao & Hf_env_name & Hf_envelope_name & Hf_threshold_name & Hf_clarity_ema & Hf_history & Hf_audit_chain & Hf_fused & Hf_terrain & Hf_fusion_strategy_name).
    rewrite Hmeas, Hf_config, Hf_tick, Hf_mission_time_s, Hf_mission_stage_index, Hf_mission_stage_tick, Hf_run_id, Hf_rng_seed, Hf_ao, Hf_env_name, Hf_envelope_name, Hf_threshold_name, Hf_clarity_ema, Hf_history, Hf_audit_chain, Hf_fused, Hf_terrain, Hf_fusion_strategy_name.
    repeat split.
Qed.

Definition with_clock (s : Store Rng) (clk : Clock) : Store Rng :=
  {| s_engine := s_engine Rng s; s_state := s_state Rng s;
     s_clock := clk; s_rng := s_rng Rng s |}.

Lemma bind_get_engine {B} (k : StepEngine -> M Rng B) (s : Store Rng) :
  bind Rng (get_engine Rng) k s = k (s_engine Rng s) s.
Proof. reflexivity. Qed.

Lemma bind_get_state {B} (k : EngineState -> M Rng B) (s : Store Rng) :
  bind Rng (get_state Rng) k s = k (s_state Rng s) s.
Proof. reflexivity. Qed.

Lemma bind_put_state {B} (k : unit -> M Rng B) (st : EngineState)
    (s : Store Rng) :
  bind Rng (put_state Rng st) k s = k tt (with_state s st).
Proof. reflexivity. Qed.

Lemma bind_state_utc {B} (k : string -> M Rng B) (s : Store Rng) :
  bind Rng (state_utc Rng) k s =
  k (utc_readings (s_clock Rng s) 0) (with_clock s (snd (utc (s_clock Rng s)))).
Proof. reflexivity. Qed.

Lemma bind_lift {A B} (r : result A) (k : A -> M Rng B) (s : Store Rng) :
  bind Rng (lift Rng r) k s =
  match r with Ok a => k a s | Raise e => (Raise e, s) end.
Proof. unfold bind, lift. now destruct r. Qed.

Lemma first_of_tick {A} (link imu baro gnss eoir : SensorMeasurement)
    (tail : list SensorMeasurement) (f : SensorMeasurement -> A) (d : A) :
  m_sensor_id link = "LINK_1" -> m_sensor_id imu = "IMU_1" ->
  m_sensor_id baro = "BARO_1" -> m_sensor_id gnss = "GNSS_A" ->
  m_sensor_id eoir = "EOIR_1" ->
  first_of (link :: imu :: baro :: gnss :: eoir :: tail) "LINK_1" f d = f link /\
  first_of (link :: imu :: baro :: gnss :: eoir :: tail) "IMU_1" f d = f imu /\
  first_of (link :: imu :: baro :: gnss :: eoir :: tail) "EOIR_1" f d = f eoir.
Proof.
  intros H1 H2 H3 H4 H5. unfold first_of. cbn [find].
  rewrite H1, H2, H3, H4, H5. repeat split.
Qed.

(** The same trace with the two computations it starts with: the truth
    and the readings are what [_generate_truth] and [simulate_all]
    return under the generator of the tick. *)
Lemma step_trace_tied (engine : StepEngine) (state : EngineState)
    (clk : Clock) (env : EnvProfile) (envelope : EnvelopePreset)
    (ao : AOConfig) :
  dict_index ENVIRONMENTS (st_env_name state) = Ok env ->
  dict_index ENVELOPES (st_envelope_name state) = Ok envelope ->
  st_ao state = Some ao ->
  step_ready engine state ->
  exists truth s1 ms s2,
    _generate_truth Rng rng_uniform rng_normal state env
      {| s_engine := engine; s_state := state; s_clock := clk;
         s_rng := default_rng (st_rng_seed state + st_tick state + 1) |}
      = (Ok truth, s1) /\
    simulate_all Rng rng_normal rng_random state truth env s1
      = (Ok ms, s2) /\
    truth_facts state envelope ao truth /\
    tick_measurements state truth env ms /\
    let state1 := fold_left record_pure ms state in
    let T := (st_tick state + 1)%Z in
    match FusionEngine_fuse
            (FusionEngine_init (se_config engine)
               (st_fusion_strategy_name state))
            (st_meas_history state1) T with
    | Raise e =>
        step Rng default_rng rng_uniform rng_normal rng_random
          float_repr json_escape sha256_hexdigest engine state clk =
        (Raise e, (engine, state1, reads (List.length ms) clk))
    | Ok fused =>
        exists audit g,
          FusedEstimate_ok fused = true /\
          build_audit_record float_repr json_escape sha256_hexdigest T
            (utc_readings (reads (List.length ms) clk) 0)
            (select_measurements (se_config engine)
               (st_meas_history state1) T)
            fused = Ok audit /\
          compute (se_clarity_calc engine) state (physical_state_of truth)
            fused =
            (Ok g,
             se_clarity_calc
               (engine_after engine
                  (raw_clarity envelope (physical_state_of truth) fused))) /\
          step Rng default_rng rng_uniform rng_normal rng_random
            float_repr json_escape sha256_hexdigest engine state clk =
          (Ok tt,
           (engine_after engine
              (raw_clarity envelope (physical_state_of truth) fused),
            state_after state1 fused audit
              (telemetry_record engine state truth ms fused g
                 (utc_readings (reads (S (List.length ms)) clk) 0)),
            reads (S (S (List.length ms))) clk))
    end.
Proof.
  intros Henv Henvp Hao (Htick & Hseed & Hstage & Hmission & Hdt & Hema).
  assert (Htick1 : (0 <= st_tick state + 1)%Z) by lia.
  remember (step Rng default_rng rng_uniform rng_normal rng_random
              float_repr json_escape sha256_hexdigest engine state clk)
    as result eqn:Hres.
  unfold step in Hres. rewrite Henv in Hres.
  rewrite (proj2 (Z.ltb_ge _ 0)) in Hres by lia.
  set (s0 := {| s_engine := engine; s_state := state; s_clock := clk;
                s_rng := default_rng (st_rng_seed state + st_tick state + 1) |})
    in Hres.
  unfold step_body in Hres.
  rewrite bind_get_engine, bind_get_state in Hres.
  change (s_engine Rng s0) with engine in Hres.
  change (s_state Rng s0) with state in Hres.
  destruct (generate_truth_spec state env envelope ao s0 Henvp Hao)
    as (truth & s1 & E1 & Fe1 & Fs1 & Fc1 & Htruth).
  rewrite (bind_returns _ _ _ _ _ E1) in Hres.
  destruct (simulate_all_spec state truth env s1 Htick1)
    as (ms & s2 & E2 & Fe2 & Fs2 & Fc2 & Hms).
  rewrite (bind_returns _ _ _ _ _ E2) in Hres.
  rewrite (bind_returns _ _ _ _ _ (record_all_spec ms s2)) in Hres.
  rewrite bind_get_state in Hres.
  change (s_state Rng (with_state s2 (fold_left record_pure ms (s_state Rng s2))))
    with (fold_left record_pure ms (s_state Rng s2)) in Hres.
  rewrite Fs2, Fs1 in Hres. change (s_state Rng s0) with state in Hres.
  assert (Hengine : s_engine Rng s2 = engine) by (now rewrite Fe2, Fe1).
  assert (Hclock : s_clock Rng s2 = reads (List.length ms) clk)
    by (now rewrite Fc2, Fc1).
  exists truth, s1, ms, s2.
  split; [exact E1 |]. split; [exact E2 |].
  split; [exact Htruth |]. split; [exact Hms |].
  cbv zeta.
  set (state1 := fold_left record_pure ms state) in *.
  destruct (record_all_frame ms state) as [Hframe Hf_meas].
  fold state1 in Hframe, Hf_meas. unfold same_but_measurements in Hframe.
  destruct Hframe as (Hf_cfg & Hf_tick & Hf_mt & _ & Hf_stage & _ & _ & _ & _
                      & Hf_env & _ & Hf_ema & Hf_hist & Hf_audit & Hf_fused
                      & _ & Hf_strat).
  cbv zeta in Hres. rewrite Hf_strat, Hf_tick in Hres.
  rewrite bind_lift in Hres.
  destruct (FusionEngine_fuse _ _ _) as [fused | e] eqn:Hfuse.
  - (* fusion returned *)
    pose proof (FusionEngine_fuse_valid _ _ _ _ _ Hfuse) as Hvalid.
    pose proof Hvalid as Hfused_ok.
    apply FusedEstimate_ok_bounds in Hvalid.
    destruct Hvalid as (Hlat & Hlon & Halt & Hconf & Hsurp).
    rewrite bind_put_state, bind_get_state, bind_state_utc in Hres.
    cbn [s_state with_state with_clock s_clock s_engine s_rng] in Hres.
    destruct (FusionEngine_init_strategy (se_config engine)
                (st_fusion_strategy_name state)) as [Hecfg _].
    rewrite Hecfg in Hres.
    change (st_tick (set_fused state1 (Some fused))) with (st_tick state1)
      in Hres.
    change (st_meas_history (set_fused state1 (Some fused)))
      with (st_meas_history state1) in Hres.
    rewrite Hf_tick, Hclock in Hres.
    rewrite build_audit_record_ok in Hres by lia.
    match type of Hres with
    | context [Ok ?a] =>
        match a with
        | {| ar_tick := _ |} => set (audit := a) in Hres
        end
    end.
    rewrite bind_lift, bind_put_state, bind_get_state in Hres.
    cbn [s_state with_state with_clock s_clock s_engine s_rng] in Hres.
    change (st_config (set_fused state1 (Some fused))) with (st_config state1)
      in Hres.
    change (st_audit_chain (set_fused state1 (Some fused)))
      with (st_audit_chain state1) in Hres.
    set (state3 := set_audit_chain (set_fused state1 (Some fused))
                     (deque_append (cfg_max_audit_history (st_config state1))
                        (st_audit_chain state1) audit)) in Hres.
    change (st_tick state3) with (st_tick state1) in Hres.
    change (st_mission_time_s state3) with (st_mission_time_s state1) in Hres.
    change (st_mission_stage_tick state3) with (st_mission_stage_tick state1)
      in Hres.
    rewrite Hf_tick, Hf_mt, Hf_stage in Hres.
    (* governance *)
    unfold bind at 1 in Hres. unfold governance at 1 in Hres.
    cbn [s_state with_state with_clock s_clock s_engine s_rng] in Hres.
    rewrite Hengine in Hres.
    fold (physical_state_of truth) in Hres.
    destruct (compute_spec (se_clarity_calc engine) state3
                (physical_state_of truth) fused envelope)
      as (g & Eg & Hcl & Hclb & Hrisk & Hpred & Hpress).
    { change (st_envelope_name state3) with (st_envelope_name state1).
      rewrite Hf_env. exact Henvp. }
    { exact Hema. }
    rewrite Eg in Hres.
    rewrite bind_state_utc in Hres.
    cbn [s_state with_state with_clock s_clock s_engine s_rng] in Hres.
    match type of Hres with
    | context [new_Telemetry ?t] => set (tel := t) in Hres
    end.
    assert (Hok : Telemetry_ok tel = true).
    { destruct Hms as (link & imu & baro & gnss & eoir & tail & -> &
                       (M1 & L1) & (M2 & L2) & (M3 & _) & (M4 & _) &
                       (M5 & _) & _).
      destruct M1 as (_ & I1 & _ & V1 & _). destruct M2 as (_ & I2 & _).
      destruct M3 as (_ & I3 & _). destruct M4 as (_ & I4 & _).
      destruct M5 as (_ & I5 & _ & V5 & _).
      apply SensorMeasurement_ok_bounds in V1 as (_ & Q1 & _).
      apply SensorMeasurement_ok_bounds in V5 as (_ & Q5 & _).
      destruct L1 as (_ & Z1 & _ & u & _ & Meta1).
      destruct L2 as (_ & _ & d & Hd & Meta2).
      destruct Htruth as (Tm & Tv & Ta & Tq & Tt & Tg & Tth & Tc & Tn & Th & _).
      pose proof (ENVELOPES_positive _ _ Henvp) as (Hmach & _ & _).
      unfold Telemetry_ok, tel.
      cbn [tel_tick tel_mission_time_s tel_mission_stage_tick tel_mach
           tel_velocity_mps tel_altitude_m tel_q_kpa tel_thermal_index
           tel_g_load tel_link_latency_ms tel_imu_drift_deg_s tel_lat tel_lon
           tel_threat_index tel_civ_density tel_nav_drift tel_comms_loss
           tel_vision_hot_ratio tel_clarity tel_risk tel_predicted_risk
           tel_envelope_pressure tel_cc_combined tel_cc_nav_conf
           tel_cc_comms_conf tel_cc_vision_conf tel_cc_clarity_factor
           tel_cc_threat_factor tel_fusion_conf tel_fusion_surprise].
      destruct (first_of_tick link imu baro gnss eoir tail
                  (fun m => nth 0 (m_z m) 0) 0.0 I1 I2 I3 I4 I5)
        as (-> & _ & _).
      destruct (first_of_tick link imu baro gnss eoir tail
                  (fun m => json_float
                              (dict_get (m_meta m) "imu_drift_deg_s"
                                 (JFloat 0.0))) 0.0 I1 I2 I3 I4 I5)
        as (_ & -> & _).
      destruct (first_of_tick link imu baro gnss eoir tail
                  (fun m => json_float
                              (dict_get (m_meta m) "comms_loss"
                                 (JFloat 0.0))) 0.0 I1 I2 I3 I4 I5)
        as (-> & _ & _).
      destruct (first_of_tick link imu baro gnss eoir tail
                  m_quality 1.0 I1 I2 I3 I4 I5) as (-> & _ & _).
      destruct (first_of_tick link imu baro gnss eoir tail
                  m_quality 0.0 I1 I2 I3 I4 I5) as (_ & _ & ->).
      rewrite Meta1, Meta2. cbn [dict_get String.eqb Ascii.eqb Bool.eqb json_float].
      assert (Hcl01 : 0 <= (if Rltb u (0.02 + 0.08 * (m_latency_ms link / 600.0))
                            then 1.0 else 0.0) <= 1)
        by (destruct (Rltb _ _); lra).
      assert (Hthreat : 0.2 <= Rmax 0.2 (1.0 - tr_threat_index truth / 150.0) <= 1).
      { unfold Rmax. destruct (Rle_dec _ _); lra. }
      rewrite Tv, Tg, Tn.
      repeat (apply andb_true_intro; split);
        try (apply Z.leb_le; lia);
        try (apply Rleb_true_iff; lra);
        try (apply in_range_true_iff; lra). }
    rewrite bind_lift in Hres. unfold new_Telemetry in Hres at 1.
    rewrite Hok in Hres.
    unfold put_state in Hres.
    cbn [s_state with_state with_clock s_clock s_engine s_rng] in Hres.
    exists audit, g.
    split; [exact Hfused_ok |].
    split; [apply build_audit_record_ok; lia |].
    split; [| exact Hres].
    etransitivity; [| exact Eg]. unfold compute.
    change (st_envelope_name state3) with (st_envelope_name state1).
    rewrite Hf_env. reflexivity.
  - (* fusion raised *)
    cbn [s_state with_state with_clock s_clock s_engine s_rng] in Hres.
    rewrite Hengine, Hclock in Hres. exact Hres.
Qed.

(** The trace of a step past its lookups: the truth, the
    measurements and what is recorded of them, then either the error of
    the fusion or the audit record, the governance outputs and the
    telemetry record the call leaves. *)
Lemma step_trace_full (engine : StepEngine) (state : EngineState)
    (clk : Clock) (env : EnvProfile) (envelope : EnvelopePreset)
    (ao : AOConfig) :
  dict_index ENVIRONMENTS (st_env_name state) = Ok env ->
  dict_index ENVELOPES (st_envelope_name state) = Ok envelope ->
  st_ao state = Some ao ->
  step_ready engine state ->
  exists truth ms,
    truth_facts state envelope ao truth /\
    tick_measurements state truth env ms /\
    let state1 := fold_left record_pure ms state in
    let T := (st_tick state + 1)%Z in
    match FusionEngine_fuse
            (FusionEngine_init (se_config engine)
               (st_fusion_strategy_name state))
            (st_meas_history state1) T with
    | Raise e =>
        step Rng default_rng rng_uniform rng_normal rng_random
          float_repr json_escape sha256_hexdigest engine state clk =
        (Raise e, (engine, state1, reads (List.length ms) clk))
    | Ok fused =>
        exists audit g,
          FusedEstimate_ok fused = true /\
          build_audit_record float_repr json_escape sha256_hexdigest T
            (utc_readings (reads (List.length ms) clk) 0)
            (select_measurements (se_config engine)
               (st_meas_history state1) T)
            fused = Ok audit /\
          compute (se_clarity_calc engine) state (physical_state_of truth)
            fused =
            (Ok g,
             se_clarity_calc
               (engine_after engine
                  (raw_clarity envelope (physical_state_of truth) fused))) /\
          step Rng default_rng rng_uniform rng_normal rng_random
            float_repr json_escape sha256_hexdigest engine state clk =
          (Ok tt,
           (engine_after engine
              (raw_clarity envelope (physical_state_of truth) fused),
            state_after state1 fused audit
              (telemetry_record engine state truth ms fused g
                 (utc_readings (reads (S (List.length ms)) clk) 0)),
            reads (S (S (List.length ms))) clk))
    end.
Proof.
  intros Henv Henvp Hao Hready.
  destruct (step_trace_tied engine state clk env envelope ao
              Henv Henvp Hao Hready)
    as (truth & s1 & ms & s2 & _ & _ & Htruth & Hms & Hrun).
  exists truth, ms. split; [exact Htruth |]. split; [exact Hms |].
  exact Hrun.
Qed.

Lemma step_trace (engine : StepEngine) (state : EngineState) (clk : Clock)
    (env : EnvProfile) (envelope : EnvelopePreset) (ao : AOConfig) :
  dict_index ENVIRONMENTS (st_env_name state) = Ok env ->
  dict_index ENVELOPES (st_envelope_name state) = Ok envelope ->
  st_ao state = Some ao ->
  step_ready engine state ->
  exists truth ms,
    truth_facts state envelope ao truth /\
    tick_measurements state truth env ms /\
    let state1 := fold_left record_pure ms state in
    let T := (st_tick state + 1)%Z in
    match FusionEngine_fuse
            (FusionEngine_init (se_config engine)
               (st_fusion_strategy_name state))
            (st_meas_history state1) T with
    | Raise e =>
        step Rng default_rng rng_uniform rng_normal rng_random
          float_repr json_escape sha256_hexdigest engine state clk =
        (Raise e, (engine, state1, reads (List.length ms) clk))
    | Ok fused =>
        exists audit tel,
          build_audit_record float_repr json_escape sha256_hexdigest T
            (utc_readings (reads (List.length ms) clk) 0)
            (select_measurements (se_config engine)
               (st_meas_history state1) T)
            fused = Ok audit /\
          tel_tick tel = T /\
          tel_utc_timestamp tel =
            utc_readings (reads (S (List.length ms)) clk) 0 /\
          tel_mission_time_s tel =
            st_mission_time_s state + cfg_dt_seconds (se_config engine) /\
          tel_clarity tel =
            (0.15 * raw_clarity envelope (physical_state_of truth) fused
             + 0.85 * crc_clarity_ema (se_clarity_calc engine)) * 100 /\
          step Rng default_rng rng_uniform rng_normal rng_random
            float_repr json_escape sha256_hexdigest engine state clk =
          (Ok tt,
           (engine_after engine
              (raw_clarity envelope (physical_state_of truth) fused),
            state_after state1 fused audit tel,
            reads (S (S (List.length ms))) clk))
    end.
Proof.
  intros Henv Henvp Hao Hready.
  destruct (step_trace_full engine state clk env envelope ao
              Henv Henvp Hao Hready) as (truth & ms & Htruth & Hms & Hrun).
  exists truth, ms. split; [exact Htruth |]. split; [exact Hms |].
  cbv zeta in *.
  destruct (FusionEngine_fuse _ _ _) as [fused | e]; [| exact Hrun].
  destruct Hrun as (audit & g & _ & Haudit & Hg & Hstep).
  exists audit,
    (telemetry_record engine state truth ms fused g
       (utc_readings (reads (S (List.length ms)) clk) 0)).
  split; [exact Haudit |].
  split; [reflexivity |]. split; [reflexivity |]. split; [reflexivity |].
  split; [| exact Hstep].
  destruct (compute_ok (se_clarity_calc engine) state
              (physical_state_of truth) fused envelope Henvp)
    as (g' & Hg' & Hcl & _).
  rewrite Hg in Hg'. injection Hg' as <-. exact Hcl.
Qed.

End Stages.

(** ** A fixed generator and a freshly reset run *)

Lemma reads_stopped_clock (k : nat) (now : string) :
  reads k (stopped_clock now) = stopped_clock now.
Proof.
  induction k as [| k IH]; [reflexivity |].
  change (reads (S k) (stopped_clock now))
    with (snd (utc (reads k (stopped_clock now)))).
  rewrite IH. reflexivity.
Qed.

Lemma fresh_state_ready (strategy : string) (ema : R) :
  0 <= ema <= 1 -> step_ready (engine_with_ema ema) (fresh_state strategy).
Proof.
  intro H. unfold step_ready. simpl. repeat split; try lia; lra.
Qed.

Lemma age_ms_current (cfg : FusionConfig) (T : Z) (m : SensorMeasurement) :
  m_tick m = T -> 0 <= m_latency_ms m -> age_ms cfg T m = m_latency_ms m.
Proof.
  intros HT Hl. unfold age_ms. rewrite HT, Z.sub_diag.
  rewrite Rabs_right; lra.
Qed.

(** Under the fixed generator the first tick of the fresh run fuses the
    EO/IR and the GNSS measurement. *)
Lemma fresh_fusion_returns (truth : Truth) (ms : list SensorMeasurement) :
  truth_facts (fun lo _ x => x = lo)
    (fresh_state "weighted")
    (mkEnvelopePreset "Nominal Demo Flight" 1.8 650 4.5 0.78 300
       "Balanced flight envelope")
    (mkAOConfig "Kharkiv Region" 49.9935 36.2304 0.08 0.12) truth ->
  tick_measurements (fun mu _ x => x = mu) (fun x => x = 0.99)
    (fresh_state "weighted") truth
    (mkEnvProfile "Clear" 120 40 0.0 0.0 0.0 0.0) ms ->
  List.length ms = 5%nat /\
  exists fused,
    FusionEngine_fuse
      (FusionEngine_init default_FusionConfig "weighted")
      (fold_left (deque_append 3000) ms []) 1 = Ok fused.
Proof.
  intros Htruth Hms.
  destruct Htruth as (_ & _ & Halt & _ & _ & _ & _ & _ & _ & _ &
                      u_lat & u_lon & Hulat & Hulon & Hlat & Hlon).
  cbn [ao_lat_delta ao_lon_delta ao_base_lat ao_base_lon] in *.
  destruct Hms as (link & imu & baro & gnss & eoir & tail & -> &
                   (M1 & L1) & (M2 & L2) & (M3 & L3) & (M4 & L4) &
                   (M5 & L5) & u & Hu & Htail).
  subst u. rewrite (proj2 (Rltb_false_iff 0.99 0.55)) in Htail by lra.
  subst tail. split; [reflexivity |].
  destruct M1 as (T1 & _ & Ty1 & V1 & _). destruct M2 as (T2 & _ & Ty2 & V2 & _).
  destruct M3 as (T3 & _ & Ty3 & V3 & _). destruct M4 as (T4 & _ & Ty4 & V4 & Z4).
  destruct M5 as (T5 & _ & Ty5 & V5 & Z5).
  cbn [st_tick fresh_state Z.add] in T1, T2, T3, T4, T5.
  apply SensorMeasurement_ok_bounds in V1 as (_ & _ & Lat1).
  destruct L1 as (D1 & Zl & _ & u1 & _ & Meta1).
  destruct L2 as (D2 & Lat2 & _). destruct L3 as (D3 & Lat3).
  destruct L4 as (Lat4 & u4 & -> & D4 & Pos4).
  cbn [env_gnss_jam_factor] in D4, Pos4.
  rewrite (proj2 (Rltb_false_iff 0.99 _)) in D4 by lra.
  destruct (Pos4 D4) as (Lat4' & noise4 & u4' & spoof4 & N4 & -> & S4 & Zg).
  rewrite (proj2 (Rltb_false_iff 0.99 _)) in S4 by lra. subst spoof4.
  destruct N4 as (a0 & a1 & a2 & ? & ? & ? & -> & -> & -> & ->).
  destruct L5 as (Lat5 & u5 & -> & D5 & Pos5).
  assert (Hcl : 0 <= link_comms_loss link <= 1).
  { unfold link_comms_loss. rewrite Meta1. simpl.
    destruct (Rltb _ _); simpl; lra. }
  cbn [env_eoir_degrade] in D5.
  rewrite (proj2 (Rltb_false_iff 0.99 _)) in D5 by lra.
  destruct (Pos5 D5) as (Lat5' & noise5 & N5 & Ze).
  destruct N5 as (b0 & b1 & b2 & ? & ? & ? & -> & -> & -> & ->).
  (* the history and the selection *)
  change (fold_left (deque_append 3000) [link; imu; baro; gnss; eoir] [])
    with [link; imu; baro; gnss; eoir].
  unfold FusionEngine_fuse.
  change (eng_config (FusionEngine_init default_FusionConfig "weighted"))
    with default_FusionConfig.
  change (eng_strategy (FusionEngine_init default_FusionConfig "weighted"))
    with (WeightedFusion default_FusionConfig).
  cbn [fuse WeightedFusion].
  assert (Hsel : filter usable
                   (select_measurements default_FusionConfig
                      [link; imu; baro; gnss; eoir] 1) = [eoir; gnss]).
  { unfold select_measurements. cbn [rev app select_scan].
    rewrite D5, D4, D3, D2, D1.
    rewrite !age_ms_current by (assumption || lra).
    cbn [cfg_fusion_time_gate_ms default_FusionConfig].
    rewrite (proj2 (Rleb_true_iff (m_latency_ms eoir) 350.0)) by lra.
    rewrite (proj2 (Rleb_true_iff (m_latency_ms gnss) 350.0)) by lra.
    rewrite (proj2 (Rleb_true_iff (m_latency_ms baro) 350.0)) by lra.
    rewrite (proj2 (Rleb_true_iff (m_latency_ms imu) 350.0)) by lra.
    unfold usable.
    destruct (Rleb (m_latency_ms link) 350.0);
      cbn [filter]; rewrite Ty5, Ty4, Ty3, Ty2, ?Ty1, D5, D4; reflexivity. }
  eexists. apply WeightedFusion_fuse_ok; rewrite Hsel; [discriminate |].
  assert (Hvadd : forall x y z, vadd [x; y; z] [0; 0; 0] = [x + 0; y + 0; z + 0])
    by reflexivity.
  constructor; [| constructor; [| constructor]].
  - unfold position_ok. rewrite Ze. unfold truth_position, vadd.
    cbn [map seq nth List.length]. rewrite Hlat, Hlon, Hulat, Hulon.
    repeat split; try lia; lra.
  - unfold position_ok. rewrite Zg. unfold truth_position, vadd.
    cbn [map seq nth List.length]. rewrite Hlat, Hlon, Hulat, Hulon.
    repeat split; try lia; lra.
Qed.

Lemma build_audit_record_inv (float_repr : R -> string)
    (json_escape sha256_hexdigest : string -> string) (tick : Z)
    (now : string) (ms : list SensorMeasurement) (fused : FusedEstimate)
    (a : AuditRecord) :
  build_audit_record float_repr json_escape sha256_hexdigest tick now ms fused
    = Ok a ->
  ar_tick a = tick /\ ar_utc a = now /\
  ar_sha256 a =
    audit_digest float_repr json_escape sha256_hexdigest tick now ms fused.
Proof.
  unfold build_audit_record, new_AuditRecord. cbn [ar_tick].
  destruct (0 <=? tick)%Z; [| discriminate].
  intro H. injection H as <-. repeat split.
Qed.

(** The first tick of the fresh run under the fixed generator goes
    through, whatever the clock reads and whatever the calculator
    remembers. *)
Lemma fresh_step_returns (ema : R) (clk : Clock) :
  0 <= ema <= 1 ->
  exists raw audit tel state',
    0 <= raw <= 1 /\
    fixed_step (engine_with_ema ema) (fresh_state "weighted") clk =
      (Ok tt, (engine_after (engine_with_ema ema) raw, state', reads 7 clk)) /\
    st_tick state' = 1%Z /\
    st_clarity_ema state' = 0.9 /\
    st_audit_chain state' = [audit] /\
    st_history state' = [tel] /\
    ar_utc audit = utc_readings (reads 5 clk) 0 /\
    tel_utc_timestamp tel = utc_readings (reads 6 clk) 0 /\
    tel_clarity tel = (0.15 * raw + 0.85 * ema) * 100 /\
    forall now,
      fst (reset state' None (stopped_clock now)) = fresh_state "weighted".
Proof.
  intro Hema.
  destruct (step_trace FixedRng fixed_default_rng fixed_uniform fixed_normal
              fixed_random (fun _ => "f") (fun s => s) (fun s => s)
              (fun lo _ x => x = lo) (fun mu _ x => x = mu)
              (fun x => x = 0.99)
              (fun _ _ _ => eq_refl) (fun _ _ _ => eq_refl) (fun _ => eq_refl)
              (engine_with_ema ema) (fresh_state "weighted") clk
              (mkEnvProfile "Clear" 120 40 0.0 0.0 0.0 0.0)
              (mkEnvelopePreset "Nominal Demo Flight" 1.8 650 4.5 0.78 300
                 "Balanced flight envelope")
              (mkAOConfig "Kharkiv Region" 49.9935 36.2304 0.08 0.12)
              eq_refl eq_refl eq_refl (fresh_state_ready "weighted" ema Hema))
    as (truth & ms & Htruth & Hms & Hrun).
  cbv zeta in Hrun.
  destruct (fresh_fusion_returns truth ms Htruth Hms) as (Hlen & fused & Hfuse).
  destruct (record_all_frame ms (fresh_state "weighted")) as [Hframe Hf_meas].
  unfold same_but_measurements in Hframe.
  destruct Hframe as (Hf_cfg & Hf_tick & _ & _ & _ & _ & Hf_seed & Hf_ao
                      & Hf_env & Hf_envp & Hf_thr & Hf_ema & Hf_hist
                      & Hf_audit & _ & _ & Hf_strat).
  rewrite Hf_meas in Hrun.
  change (FusionEngine_fuse _ _ _) with
    (FusionEngine_fuse (FusionEngine_init default_FusionConfig "weighted")
       (fold_left (deque_append 3000) ms []) 1) in Hrun.
  rewrite Hfuse in Hrun.
  destruct Hrun as (audit & tel & Haudit & Htick & Hutc & _ & Hcl & Hstep).
  rewrite Hlen in *.
  apply build_audit_record_inv in Haudit as (_ & Hautc & _).
  exists (raw_clarity
            (mkEnvelopePreset "Nominal Demo Flight" 1.8 650 4.5 0.78 300
               "Balanced flight envelope")
            (physical_state_of truth) fused), audit, tel.
  eexists. split; [apply raw_clarity_bounds |].
  split; [exact Hstep |].
  unfold state_after.
  cbn [st_tick st_clarity_ema st_audit_chain st_history st_config
       set_history set_mission_time_s set_tick set_audit_chain set_fused].
  rewrite Hf_cfg, Hf_ema, Hf_hist, Hf_audit.
  repeat split; try assumption.
  intro now. unfold reset.
  cbn [time_ms stopped_clock time_readings utc_readings fst
       st_config st_rng_seed st_ao st_env_name st_envelope_name
       st_threshold_name st_fusion_strategy_name
       set_history set_mission_time_s set_tick set_audit_chain set_fused].
  rewrite Hf_cfg, Hf_seed, Hf_ao, Hf_env, Hf_envp, Hf_thr, Hf_strat.
  reflexivity.
Qed.

Lemma reset_fresh_state (strategy now : string) :
  fst (reset (fresh_state strategy) None (stopped_clock now)) =
  fresh_state strategy.
Proof. reflexivity. Qed.

(** ** The state's own [clarity_ema] field *)

Lemma set_clarity_ema_same (s : EngineState) :
  set_clarity_ema s (st_clarity_ema s) = s.
Proof. now destruct s. Qed.

Section ClarityField.

Variable Rng : Type.
Variable default_rng : Z -> Rng.
Variable rng_uniform : R -> R -> Rng -> R * Rng.
Variable rng_normal : R -> R -> Rng -> R * Rng.
Variable rng_random : Rng -> R * Rng.
Variable float_repr : R -> string.
Variable json_escape : string -> string.
Variable sha256_hexdigest : string -> string.

(** The value written into the field of the state of a store. *)
Variable v : R.

Definition with_ema (s : Store Rng) : Store Rng :=
  {| s_engine := s_engine Rng s;
     s_state := set_clarity_ema (s_state Rng s) v;
     s_clock := s_clock Rng s;
     s_rng := s_rng Rng s |}.

(** [c1], run with the field set to [v], does what [c2] does and leaves
    the field set to [v]. *)
Definition blind {A} (c1 c2 : M Rng A) : Prop :=
  forall s, c1 (with_ema s) = (fst (c2 s), with_ema (snd (c2 s))).

Lemma blind_bind {A B} (c1 c2 : M Rng A) (k1 k2 : A -> M Rng B) :
  blind c1 c2 -> (forall a, blind (k1 a) (k2 a)) ->
  blind (bind Rng c1 k1) (bind Rng c2 k2).
Proof.
  intros Hc Hk s. unfold bind. rewrite Hc.
  destruct (c2 s) as [[a | e] s']; cbn [fst snd].
  - apply Hk.
  - reflexivity.
Qed.

Lemma blind_get_state {B} (k1 k2 : EngineState -> M Rng B) :
  (forall st, blind (k1 (set_clarity_ema st v)) (k2 st)) ->
  blind (bind Rng (get_state Rng) k1) (bind Rng (get_state Rng) k2).
Proof. intros Hk s. apply (Hk (s_state Rng s)). Qed.

Lemma blind_put_state (st1 st2 : EngineState) :
  st1 = set_clarity_ema st2 v ->
  blind (put_state Rng st1) (put_state Rng st2).
Proof. intros -> s. reflexivity. Qed.

Lemma blind_lift2 {A} (r1 r2 : result A) :
  r1 = r2 -> blind (lift Rng r1) (lift Rng r2).
Proof. intros -> s. reflexivity. Qed.

Lemma blind_get_engine : blind (get_engine Rng) (get_engine Rng).
Proof. intro s. reflexivity. Qed.

Lemma blind_ret {A} (a : A) : blind (ret Rng a) (ret Rng a).
Proof. intro s. reflexivity. Qed.

Lemma blind_lift {A} (r : result A) : blind (lift Rng r) (lift Rng r).
Proof. intro s. reflexivity. Qed.

Lemma blind_state_utc : blind (state_utc Rng) (state_utc Rng).
Proof. intro s. reflexivity. Qed.

Lemma blind_draw (f : Rng -> R * Rng) : blind (draw Rng f) (draw Rng f).
Proof.
  intro s. unfold draw. cbn [with_ema s_rng].
  destruct (f (s_rng Rng s)). reflexivity.
Qed.

Lemma blind_governance (ps : PhysicalState) (fused : FusedEstimate) :
  blind (governance Rng ps fused) (governance Rng ps fused).
Proof.
  intro s. unfold governance. cbn [with_ema s_engine s_state].
  change (compute (se_clarity_calc (s_engine Rng s))
            (set_clarity_ema (s_state Rng s) v) ps fused)
    with (compute (se_clarity_calc (s_engine Rng s)) (s_state Rng s) ps fused).
  destruct (compute _ _ _ _). reflexivity.
Qed.

(** Proves [blind c c] for a computation built from draws, clock
    readings and constructors. *)
Ltac blind_auto :=
  repeat first
    [ apply blind_ret | apply blind_lift | apply blind_state_utc
    | apply blind_draw | apply blind_get_engine
    | (apply blind_bind; [| intro])
    | match goal with
      | |- blind (if ?b then _ else _) (if ?b then _ else _) => destruct b
      end ].

Lemma blind_normal3 (std : list R) :
  blind (normal3 Rng rng_normal std) (normal3 Rng rng_normal std).
Proof. unfold normal3, normal. blind_auto. Qed.

Lemma blind_generate_truth (state : EngineState) (env : EnvProfile) :
  blind (_generate_truth Rng rng_uniform rng_normal state env)
        (_generate_truth Rng rng_uniform rng_normal state env).
Proof. unfold _generate_truth, uniform, normal. cbv zeta. blind_auto. Qed.

Lemma blind_simulate_all (state : EngineState) (truth : Truth)
    (env : EnvProfile) :
  blind (simulate_all Rng rng_normal rng_random state truth env)
        (simulate_all Rng rng_normal rng_random state truth env).
Proof.
  unfold simulate_all, simulate_link, simulate_imu, simulate_baro,
    simulate_gnss, simulate_eoir, simulate_radar, normal3, normal, random.
  cbv zeta. blind_auto.
Qed.

Lemma blind_record_measurement (m : SensorMeasurement) :
  blind (record_measurement Rng m) (record_measurement Rng m).
Proof.
  unfold record_measurement. apply blind_get_state. intro st. cbv zeta.
  apply blind_put_state; reflexivity.
Qed.

Lemma blind_for_each (ms : list SensorMeasurement) :
  blind (for_each Rng ms (record_measurement Rng))
        (for_each Rng ms (record_measurement Rng)).
Proof.
  induction ms as [| m ms IH]; cbn [for_each].
  - apply blind_ret.
  - apply blind_bind; [apply blind_record_measurement | intro; exact IH].
Qed.

Lemma blind_step_body (env : EnvProfile) :
  blind (step_body Rng rng_uniform rng_normal rng_random
           float_repr json_escape sha256_hexdigest env)
        (step_body Rng rng_uniform rng_normal rng_random
           float_repr json_escape sha256_hexdigest env).
Proof.
  unfold step_body.
  apply blind_bind; [apply blind_get_engine | intro engine].
  apply blind_get_state; intro state.
  apply blind_bind; [exact (blind_generate_truth state env) | intro truth].
  apply blind_bind; [exact (blind_simulate_all state truth env) | intro ms].
  apply blind_bind; [apply blind_for_each | intros _].
  apply blind_get_state; intro state1. cbv zeta.
  apply blind_bind; [apply blind_lift2; reflexivity | intro fused].
  apply blind_bind; [apply blind_put_state; reflexivity | intros _].
  apply blind_get_state; intro state2.
  apply blind_bind; [apply blind_state_utc | intro now].
  apply blind_bind; [apply blind_lift2; reflexivity | intro audit].
  apply blind_bind; [apply blind_put_state; reflexivity | intros _].
  apply blind_get_state; intro state3.
  apply blind_bind; [apply blind_governance | intro g].
  apply blind_bind; [apply blind_state_utc | intro now2].
  apply blind_bind; [apply blind_lift2; reflexivity | intro tel].
  apply blind_put_state; reflexivity.
Qed.

End ClarityField.

(** ** What a tick leaves in the state *)

Lemma dict_find_set_same {V} (d : Dict V) (k : string) (v : V) :
  dict_find (dict_set d k v) k = Some v.
Proof.
  induction d as [| [k' v'] d IH]; cbn [dict_set dict_find].
  - rewrite String.eqb_refl. reflexivity.
  - destruct (String.eqb k' k) eqn:E; cbn [dict_find]; rewrite E;
      [reflexivity | exact IH].
Qed.

Lemma dict_find_set_other {V} (d : Dict V) (k k' : string) (v : V) :
  k <> k' -> dict_find (dict_set d k v) k' = dict_find d k'.
Proof.
  intro Hne. induction d as [| [k0 v0] d IH]; cbn [dict_set dict_find].
  - destruct (String.eqb_spec k k'); [contradiction | reflexivity].
  - destruct (String.eqb_spec k0 k) as [-> | Hk]; cbn [dict_find].
    + destruct (String.eqb_spec k k'); [contradiction | reflexivity].
    + rewrite IH. reflexivity.
Qed.

Lemma last_seen_kept (T : Z) (ms : list SensorMeasurement) :
  Forall (fun m => m_tick m = T) ms ->
  forall st k,
    dict_find (st_last_seen_tick st) k = Some T ->
    dict_find (st_last_seen_tick (fold_left record_pure ms st)) k = Some T.
Proof.
  induction 1 as [| m ms Hm _ IH]; intros st k Hk; cbn [fold_left];
    [exact Hk |].
  apply IH.
  change (st_last_seen_tick (record_pure st m))
    with (dict_set (st_last_seen_tick st) (m_sensor_id m) (m_tick m)).
  destruct (String.eqb_spec (m_sensor_id m) k) as [<- | Hne].
  - rewrite dict_find_set_same, Hm. reflexivity.
  - rewrite dict_find_set_other by exact Hne. exact Hk.
Qed.

Lemma record_all_last_seen (T : Z) (ms : list SensorMeasurement) :
  Forall (fun m => m_tick m = T) ms ->
  forall st,
    Forall (fun m =>
              dict_find (st_last_seen_tick (fold_left record_pure ms st))
                (m_sensor_id m) = Some T) ms.
Proof.
  induction 1 as [| m ms Hm Hms IH]; intro st; cbn [fold_left]; constructor.
  - apply last_seen_kept; [exact Hms |].
    change (st_last_seen_tick (record_pure st m))
      with (dict_set (st_last_seen_tick st) (m_sensor_id m) (m_tick m)).
    rewrite dict_find_set_same, Hm. reflexivity.
  - apply IH.
Qed.

(** The measurements of a tick: five or six, all stamped with the tick
    being computed, the first from "LINK_1". *)
Lemma tick_measurements_shape (Pn : R -> R -> R -> Prop) (Pr : R -> Prop)
    (state : EngineState) (truth : Truth) (env : EnvProfile)
    (ms : list SensorMeasurement) :
  tick_measurements Pn Pr state truth env ms ->
  (5 <= List.length ms <= 6)%nat /\
  Forall (fun m => m_tick m = (st_tick state + 1)%Z) ms /\
  exists link rest, ms = link :: rest /\ m_sensor_id link = "LINK_1".
Proof.
  intros (link & imu & baro & gnss & eoir & tail & -> &
          ((T1 & I1 & _) & _) & ((T2 & _) & _) & ((T3 & _) & _) &
          ((T4 & _) & _) & ((T5 & _) & _) & u & _ & Htail).
  destruct (Rltb u 0.55).
  - destruct Htail as (radar & -> & (T6 & _) & _).
    split; [cbn [List.length]; lia |].
    split; [repeat constructor; assumption |].
    exists link. eexists. split; [reflexivity | exact I1].
  - subst tail.
    split; [cbn [List.length]; lia |].
    split; [repeat constructor; assumption |].
    exists link. eexists. split; [reflexivity | exact I1].
Qed.

Lemma kalman_engine_raises (cfg : FusionConfig)
    (history : list SensorMeasurement) (T : Z) :
  FusionEngine_fuse (FusionEngine_init cfg "kalman") history T =
  Raise (NotImplementedError
           "KalmanFusion is a stub and must be explicitly implemented.").
Proof. reflexivity. Qed.

Section StepProperties.

Variable Rng : Type.
Variable default_rng : Z -> Rng.
Variable rng_uniform : R -> R -> Rng -> R * Rng.
Variable rng_normal : R -> R -> Rng -> R * Rng.
Variable rng_random : Rng -> R * Rng.
Variable float_repr : R -> string.
Variable json_escape : string -> string.
Variable sha256_hexdigest : string -> string.

Local Abbreviation step_ :=
  (step Rng default_rng rng_uniform rng_normal rng_random
     float_repr json_escape sha256_hexdigest).

Lemma step_unknown_environment (engine : StepEngine) (state : EngineState)
    (clk : Clock) (e : Error) :
  dict_index ENVIRONMENTS (st_env_name state) = Raise e ->
  step_ engine state clk = (Raise e, (engine, state, clk)).
Proof. intro H. unfold step. rewrite H. reflexivity. Qed.

(** The other failures that come before any measurement: the seed the
    generator refuses, the unknown envelope, the missing area. *)
Lemma step_fails_early (engine : StepEngine) (state : EngineState)
    (clk : Clock) (env : EnvProfile) :
  dict_index ENVIRONMENTS (st_env_name state) = Ok env ->
  ((st_rng_seed state + st_tick state + 1 < 0)%Z ->
   step_ engine state clk = (Raise ValueError, (engine, state, clk))) /\
  ((0 <= st_rng_seed state + st_tick state + 1)%Z ->
   dict_find ENVELOPES (st_envelope_name state) = None ->
   step_ engine state clk =
   (Raise (KeyError (st_envelope_name state)), (engine, state, clk))) /\
  ((0 <= st_rng_seed state + st_tick state + 1)%Z ->
   dict_find ENVELOPES (st_envelope_name state) <> None ->
   st_ao state = None ->
   step_ engine state clk = (Raise AttributeError, (engine, state, clk))).
Proof.
  intro Henv. unfold step. rewrite Henv. repeat split.
  - intro Hneg. rewrite (proj2 (Z.ltb_lt _ 0) Hneg). reflexivity.
  - intros Hseed Hnone. rewrite (proj2 (Z.ltb_ge _ 0) Hseed).
    unfold step_body.
    cbv beta iota zeta
        delta [bind lift get_engine get_state _generate_truth dict_index].
    cbn [fst snd s_rng s_engine s_state s_clock].
    rewrite Hnone. reflexivity.
  - intros Hseed Hsome Hao. rewrite (proj2 (Z.ltb_ge _ 0) Hseed).
    unfold step_body.
    cbv beta iota zeta
        delta [bind ret lift get_engine get_state uniform normal draw
               _generate_truth dict_index].
    cbn [fst snd s_rng s_engine s_state s_clock].
    rewrite Hao.
    destruct (dict_find ENVELOPES (st_envelope_name state)) as [envp |];
      [| congruence].
    repeat match goal with
           | |- context [rng_uniform ?lo ?hi ?g] =>
               destruct (rng_uniform lo hi g)
           | |- context [rng_normal ?mu ?sigma ?g] =>
               destruct (rng_normal mu sigma g)
           end;
      cbn [fst snd s_rng s_engine s_state s_clock].
    reflexivity.
Qed.

(** The trace of a tick, for any generator. *)
Lemma step_trace_any (engine : StepEngine) (state : EngineState)
    (clk : Clock) (env : EnvProfile) (envelope : EnvelopePreset)
    (ao : AOConfig) :
  dict_index ENVIRONMENTS (st_env_name state) = Ok env ->
  dict_index ENVELOPES (st_envelope_name state) = Ok envelope ->
  st_ao state = Some ao ->
  step_ready engine state ->
  exists ms state1,
    recorded_only state state1 ms /\
    match FusionEngine_fuse
            (FusionEngine_init (se_config engine)
               (st_fusion_strategy_name state))
            (st_meas_history state1) (st_tick state + 1) with
    | Raise e =>
        step_ engine state clk =
        (Raise e, (engine, state1, reads (List.length ms) clk))
    | Ok fused =>
        exists raw audit tel,
          0 <= raw <= 1 /\
          tel_clarity tel =
            (0.15 * raw + 0.85 * crc_clarity_ema (se_clarity_calc engine))
            * 100 /\
          step_ engine state clk =
          (Ok tt,
           (engine_after engine raw, state_after state1 fused audit tel,
            reads (S (S (List.length ms))) clk))
    end.
Proof.
  intros Henv Henvp Hao Hready.
  destruct (step_trace Rng default_rng rng_uniform rng_normal rng_random
              float_repr json_escape sha256_hexdigest
              (fun _ _ _ => True) (fun _ _ _ => True) (fun _ => True)
              (fun _ _ _ => I) (fun _ _ _ => I) (fun _ => I)
              engine state clk env envelope ao Henv Henvp Hao Hready)
    as (truth & ms & _ & Hms & Hrun).
  cbv zeta in Hrun.
  exists ms, (fold_left record_pure ms state).
  destruct (tick_measurements_shape _ _ _ _ _ _ Hms)
    as (Hlen & Hticks & link & rest & Hlink & Hid).
  destruct (record_all_frame ms state) as [Hframe Hmeas].
  pose proof (record_all_last_seen _ ms Hticks state) as Hseen.
  split.
  - split; [exact Hframe |]. split; [exact Hlen |]. split; [exact Hmeas |].
    split.
    + rewrite Forall_forall in *. intros m Hm. split; auto.
    + rewrite Forall_forall in Hseen. rewrite <- Hid. apply Hseen.
      rewrite Hlink. left. reflexivity.
  - destruct (FusionEngine_fuse _ _ _) as [fused | e]; [| exact Hrun].
    destruct Hrun as (audit & tel & _ & _ & _ & _ & Hcl & Hstep).
    exists (raw_clarity envelope (physical_state_of truth) fused), audit, tel.
    split; [apply raw_clarity_bounds |]. split; assumption.
Qed.

(** A tick that raises after the sensors were simulated has already
    recorded their measurements. *)
Lemma step_raises_after_recording (engine : StepEngine)
    (state : EngineState) (clk : Clock) (env : EnvProfile)
    (envelope : EnvelopePreset) (ao : AOConfig) :
  dict_index ENVIRONMENTS (st_env_name state) = Ok env ->
  dict_index ENVELOPES (st_envelope_name state) = Ok envelope ->
  st_ao state = Some ao ->
  step_ready engine state ->
  forall e engine' state' clk',
    step_ engine state clk = (Raise e, (engine', state', clk')) ->
    engine' = engine /\ exists ms, recorded_only state state' ms.
Proof.
  intros Henv Henvp Hao Hready e engine' state' clk' Hstep.
  destruct (step_trace_any engine state clk env envelope ao
              Henv Henvp Hao Hready) as (ms & state1 & Hrec & Hrun).
  destruct (FusionEngine_fuse _ _ _) as [fused | e0].
  - destruct Hrun as (raw & audit & tel & _ & _ & Hok).
    rewrite Hok in Hstep. discriminate.
  - rewrite Hrun in Hstep. injection Hstep as _ <- <- _.
    split; [reflexivity |]. exists ms. exact Hrec.
Qed.

Lemma kalman_step_raises (engine : StepEngine) (state : EngineState)
    (clk : Clock) (env : EnvProfile) (envelope : EnvelopePreset)
    (ao : AOConfig) :
  dict_index ENVIRONMENTS (st_env_name state) = Ok env ->
  dict_index ENVELOPES (st_envelope_name state) = Ok envelope ->
  st_ao state = Some ao ->
  step_ready engine state ->
  st_fusion_strategy_name state = "kalman" ->
  exists state' clk',
    step_ engine state clk =
    (Raise (NotImplementedError
              "KalmanFusion is a stub and must be explicitly implemented."),
     (engine, state', clk')).
Proof.
  intros Henv Henvp Hao Hready Hk.
  destruct (step_trace_any engine state clk env envelope ao
              Henv Henvp Hao Hready) as (ms & state1 & _ & Hrun).
  rewrite Hk, kalman_engine_raises in Hrun.
  exists state1, (reads (List.length ms) clk). exact Hrun.
Qed.

(** A tick that goes through reports the calculator's memory. *)
Lemma step_reports_calculator_memory (engine : StepEngine)
    (state : EngineState) (clk : Clock) (env : EnvProfile)
    (envelope : EnvelopePreset) (ao : AOConfig) :
  dict_index ENVIRONMENTS (st_env_name state) = Ok env ->
  dict_index ENVELOPES (st_envelope_name state) = Ok envelope ->
  st_ao state = Some ao ->
  step_ready engine state ->
  forall engine' state' clk',
    step_ engine state clk = (Ok tt, (engine', state', clk')) ->
    exists raw tel,
      0 <= raw <= 1 /\
      crc_clarity_ema (se_clarity_calc engine') =
        0.15 * raw + 0.85 * crc_clarity_ema (se_clarity_calc engine) /\
      st_history state' =
        deque_append (cfg_max_telemetry_history (st_config state))
          (st_history state) tel /\
      tel_clarity tel = crc_clarity_ema (se_clarity_calc engine') * 100.
Proof.
  intros Henv Henvp Hao Hready engine' state' clk' Hstep.
  destruct (step_trace_any engine state clk env envelope ao
              Henv Henvp Hao Hready) as (ms & state1 & Hrec & Hrun).
  destruct (FusionEngine_fuse _ _ _) as [fused | e0].
  - destruct Hrun as (raw & audit & tel & Hraw & Hcl & Hok).
    rewrite Hok in Hstep. injection Hstep as <- <- _.
    exists raw, tel. split; [exact Hraw |]. split; [reflexivity |].
    destruct Hrec as (Hsame & _). unfold same_but_measurements in Hsame.
    destruct Hsame as (Hcfg & _ & _ & _ & _ & _ & _ & _ & _ & _ & _ & _
                       & Hhist & _).
    split; [| exact Hcl].
    unfold state_after.
    cbn [st_history st_config set_history set_mission_time_s set_tick
         set_audit_chain set_fused].
    rewrite Hcfg, Hhist. reflexivity.
  - rewrite Hrun in Hstep. discriminate.
Qed.

(** [step] run on a state whose [clarity_ema] field holds [v] does what
    it does on the state itself, and leaves [v] in the field. *)
Lemma step_blind (v : R) (engine : StepEngine) (state : EngineState)
    (clk : Clock) :
  step_ engine (set_clarity_ema state v) clk =
  let '(r, (engine', state', clk')) := step_ engine state clk in
  (r, (engine', set_clarity_ema state' v, clk')).
Proof.
  unfold step.
  change (st_env_name (set_clarity_ema state v)) with (st_env_name state).
  change (st_rng_seed (set_clarity_ema state v)) with (st_rng_seed state).
  change (st_tick (set_clarity_ema state v)) with (st_tick state).
  destruct (dict_index ENVIRONMENTS (st_env_name state)) as [env | e];
    [| reflexivity].
  destruct (_ <? 0)%Z; [reflexivity |].
  set (s0 := {| s_engine := engine; s_state := state; s_clock := clk;
                s_rng := default_rng
                           (st_rng_seed state + st_tick state + 1) |}).
  pose proof (blind_step_body Rng rng_uniform rng_normal rng_random
                float_repr json_escape sha256_hexdigest v env s0) as Hb.
  change (with_ema Rng v s0)
    with {| s_engine := engine; s_state := set_clarity_ema state v;
            s_clock := clk;
            s_rng := default_rng
                       (st_rng_seed state + st_tick state + 1) |} in Hb.
  rewrite Hb. clear Hb.
  destruct (step_body Rng rng_uniform rng_normal rng_random float_repr
              json_escape sha256_hexdigest env s0) as [r s'].
  reflexivity.
Qed.

Lemma step_keeps_clarity_field (engine : StepEngine) (state : EngineState)
    (clk : Clock) (r : result unit) (engine' : StepEngine)
    (state' : EngineState) (clk' : Clock) :
  step_ engine state clk = (r, (engine', state', clk')) ->
  st_clarity_ema state' = st_clarity_ema state.
Proof.
  intro H.
  pose proof (step_blind (st_clarity_ema state) engine state clk) as Hb.
  rewrite set_clarity_ema_same, H in Hb.
  injection Hb as Hst. rewrite Hst. reflexivity.
Qed.

Lemma run_one (engine : StepEngine) (state : EngineState) (clk : Clock)
    (w : World) :
  step_ engine state clk = (Ok tt, w) ->
  run Rng default_rng rng_uniform rng_normal rng_random
    float_repr json_escape sha256_hexdigest 1 engine state clk = (Ok tt, w).
Proof.
  intro H. cbn [run]. rewrite H. destruct w as [[engine' state'] clk'].
  reflexivity.
Qed.

End StepProperties.

(** ** Buffers *)

Lemma deque_append_length {A} (maxlen : nat) (d : list A) (x : A) :
  List.length (deque_append maxlen d x) = Nat.min (S (List.length d)) maxlen.
Proof.
  unfold deque_append. rewrite length_skipn, length_app. cbn [List.length].
  lia.
Qed.

Lemma deque_extend_length {A} (maxlen : nat) (xs : list A) :
  forall d,
    (List.length d <= maxlen)%nat ->
    List.length (fold_left (deque_append maxlen) xs d) =
    Nat.min (List.length d + List.length xs) maxlen.
Proof.
  induction xs as [| x xs IH]; intros d Hd; cbn [fold_left List.length].
  - lia.
  - rewrite IH; rewrite deque_append_length; lia.
Qed.

Section Ticks.

Variable Rng : Type.
Variable default_rng : Z -> Rng.
Variable rng_uniform : R -> R -> Rng -> R * Rng.
Variable rng_normal : R -> R -> Rng -> R * Rng.
Variable rng_random : Rng -> R * Rng.
Variable float_repr : R -> string.
Variable json_escape : string -> string.
Variable sha256_hexdigest : string -> string.

Local Abbreviation step_ :=
  (step Rng default_rng rng_uniform rng_normal rng_random
     float_repr json_escape sha256_hexdigest).

(** C2 (amended).  A step that raises before any measurement is
    simulated leaves engine, state and clock as they were: at the
    environment lookup, at the seed the generator refuses
    ([rng_seed + tick + 1 < 0]), at the envelope lookup, and at the
    access to an area of operation that is not set.  On a state that gets
    past these and meets the standing conditions of a step ([tick],
    [rng_seed], [mission_stage_tick] and [mission_time_s] not negative,
    [dt_seconds >= 0], the calculator's memory in [0, 1]), a step that
    raises has already recorded the five or six measurements it simulated
    for the tick: they are appended to [meas_history] and
    [last_seen_tick] maps each of their sensors to the tick being
    computed, while [tick], [mission_time_s], [history], [audit_chain],
    [fused] and every other field, and the engine, are as before the
    step.  With the strategy name "kalman" the step does raise, with
    [NotImplementedError]. *)
Theorem failed_step_keeps_recorded_measurements (engine : StepEngine)
    (state : EngineState) (clk : Clock) :
  (forall e,
      dict_index ENVIRONMENTS (st_env_name state) = Raise e ->
      step_ engine state clk = (Raise e, (engine, state, clk))) /\
  (forall env,
      dict_index ENVIRONMENTS (st_env_name state) = Ok env ->
      ((st_rng_seed state + st_tick state + 1 < 0)%Z ->
       step_ engine state clk = (Raise ValueError, (engine, state, clk))) /\
      ((0 <= st_rng_seed state + st_tick state + 1)%Z ->
       dict_find ENVELOPES (st_envelope_name state) = None ->
       step_ engine state clk =
       (Raise (KeyError (st_envelope_name state)), (engine, state, clk))) /\
      ((0 <= st_rng_seed state + st_tick state + 1)%Z ->
       dict_find ENVELOPES (st_envelope_name state) <> None ->
       st_ao state = None ->
       step_ engine state clk =
       (Raise AttributeError, (engine, state, clk)))) /\
  (forall env envelope ao,
      dict_index ENVIRONMENTS (st_env_name state) = Ok env ->
      dict_index ENVELOPES (st_envelope_name state) = Ok envelope ->
      st_ao state = Some ao ->
      step_ready engine state ->
      (forall e engine' state' clk',
          step_ engine state clk = (Raise e, (engine', state', clk')) ->
          engine' = engine /\ exists ms, recorded_only state state' ms) /\
      (st_fusion_strategy_name state = "kalman" ->
       exists state' clk',
         step_ engine state clk =
         (Raise (NotImplementedError
                   "KalmanFusion is a stub and must be explicitly implemented."),
          (engine, state', clk')))).
Proof.
  split; [| split].
  - intros e He. apply step_unknown_environment. exact He.
  - intros env Henv.
    exact (step_fails_early Rng default_rng rng_uniform rng_normal
             rng_random float_repr json_escape sha256_hexdigest
             engine state clk env Henv).
  - intros env envelope ao Henv Henvp Hao Hready. split.
    + exact (step_raises_after_recording Rng default_rng rng_uniform
               rng_normal rng_random float_repr json_escape sha256_hexdigest
               engine state clk env envelope ao Henv Henvp Hao Hready).
    + exact (kalman_step_raises Rng default_rng rng_uniform
               rng_normal rng_random float_repr json_escape sha256_hexdigest
               engine state clk env envelope ao Henv Henvp Hao Hready).
Qed.

(** C10.  [reset] rewrites the state's own [clarity_ema] field to 0.9 and
    takes no calculator.  [step] does not read that field (run on a state
    whose field holds any other value it does the same and leaves that
    value in it) and does not write it.  A step that goes through replaces
    the calculator's [clarity_ema] by [0.15 * raw + 0.85 * clarity_ema]
    and reports that value times 100; so the first clarity computed after
    [reset] is [(0.15 * raw + 0.85 * m) * 100] with [m] the memory the
    calculator was left with by the ticks before the reset, and it is
    [(0.15 * raw + 0.85 * 0.9) * 100] once [ClarityRiskCalculator.reset]
    has been called on the calculator as well. *)
Theorem reset_leaves_calculator_memory (engine : StepEngine)
    (state : EngineState) (clk : Clock) :
  (forall new_seed,
      st_clarity_ema (fst (reset state new_seed clk)) = 0.9) /\
  (forall v,
      step_ engine (set_clarity_ema state v) clk =
      let '(r, (engine', state', clk')) := step_ engine state clk in
      (r, (engine', set_clarity_ema state' v, clk'))) /\
  (forall r engine' state' clk',
      step_ engine state clk = (r, (engine', state', clk')) ->
      st_clarity_ema state' = st_clarity_ema state) /\
  (forall env envelope ao engine' state' clk',
      dict_index ENVIRONMENTS (st_env_name state) = Ok env ->
      dict_index ENVELOPES (st_envelope_name state) = Ok envelope ->
      st_ao state = Some ao ->
      step_ready engine state ->
      step_ engine state clk = (Ok tt, (engine', state', clk')) ->
      exists raw tel,
        0 <= raw <= 1 /\
        crc_clarity_ema (se_clarity_calc engine') =
          0.15 * raw + 0.85 * crc_clarity_ema (se_clarity_calc engine) /\
        st_history state' =
          deque_append (cfg_max_telemetry_history (st_config state))
            (st_history state) tel /\
        tel_clarity tel = crc_clarity_ema (se_clarity_calc engine') * 100) /\
  (forall new_seed state0 clk0 engine0 env envelope ao engine' state' clk',
      reset state new_seed clk = (state0, clk0) ->
      engine0 = engine \/
      engine0 = {| se_config := se_config engine;
                   se_clarity_calc :=
                     ClarityRiskCalculator_reset (se_clarity_calc engine) |} ->
      dict_index ENVIRONMENTS (st_env_name state) = Ok env ->
      dict_index ENVELOPES (st_envelope_name state) = Ok envelope ->
      st_ao state = Some ao ->
      step_ready engine0 state0 ->
      step_ engine0 state0 clk0 = (Ok tt, (engine', state', clk')) ->
      exists raw tel,
        0 <= raw <= 1 /\
        st_history state' =
          deque_append (cfg_max_telemetry_history (st_config state)) [] tel /\
        tel_clarity tel =
          (0.15 * raw + 0.85 * crc_clarity_ema (se_clarity_calc engine0))
          * 100).
Proof.
  split; [intro new_seed; reflexivity |].
  split; [intro v; apply step_blind |].
  split; [intros r engine' state' clk'; apply step_keeps_clarity_field |].
  split.
  - intros env envelope ao engine' state' clk' Henv Henvp Hao Hready Hstep.
    exact (step_reports_calculator_memory Rng default_rng rng_uniform
             rng_normal rng_random float_repr json_escape sha256_hexdigest
             engine state clk env envelope ao Henv Henvp Hao Hready
             engine' state' clk' Hstep).
  - intros new_seed state0 clk0 engine0 env envelope ao engine' state' clk'
           Hreset _ Henv Henvp Hao Hready Hstep.
    assert (E : state0 = fst (reset state new_seed clk))
      by (rewrite Hreset; reflexivity).
    assert (Hkept : st_env_name state0 = st_env_name state /\
                    st_envelope_name state0 = st_envelope_name state /\
                    st_ao state0 = st_ao state /\
                    st_config state0 = st_config state /\
                    st_history state0 = [])
      by (rewrite E; repeat split).
    destruct Hkept as (Kenv & Kenvp & Kao & Kcfg & Khist).
    rewrite <- Kenv in Henv. rewrite <- Kenvp in Henvp. rewrite <- Kao in Hao.
    destruct (step_reports_calculator_memory Rng default_rng rng_uniform
                rng_normal rng_random float_repr json_escape sha256_hexdigest
                engine0 state0 clk0 env envelope ao Henv Henvp Hao Hready
                engine' state' clk' Hstep)
      as (raw & tel & Hraw & Hmem & Hhist & Hcl).
    rewrite Kcfg, Khist in Hhist.
    exists raw, tel. split; [exact Hraw |]. split; [exact Hhist |].
    rewrite Hcl, Hmem. reflexivity.
Qed.

End Ticks.

Lemma failed_step_keeps_recorded_measurements_witness :
  exists state' clk' ms,
    fixed_step (engine_with_ema 0.9) (fresh_state "kalman")
      (stopped_clock "2026-01-01T00:00:00Z") =
    (Raise (NotImplementedError
              "KalmanFusion is a stub and must be explicitly implemented."),
     (engine_with_ema 0.9, state', clk')) /\
    recorded_only (fresh_state "kalman") state' ms.
Proof.
  assert (Hready : step_ready (engine_with_ema 0.9) (fresh_state "kalman"))
    by (apply fresh_state_ready; lra).
  destruct (proj2 (proj2 (failed_step_keeps_recorded_measurements
                     FixedRng fixed_default_rng fixed_uniform fixed_normal
                     fixed_random (fun _ => "f") (fun s => s) (fun s => s)
                     (engine_with_ema 0.9) (fresh_state "kalman")
                     (stopped_clock "2026-01-01T00:00:00Z")))
              _ _ _ eq_refl eq_refl eq_refl Hready) as [Hany Hkalman].
  destruct (Hkalman eq_refl) as (state' & clk' & Hstep).
  destruct (Hany _ _ _ _ Hstep) as (_ & ms & Hrec).
  exists state', clk', ms. split; [exact Hstep | exact Hrec].
Defined.

(** With the strategy "kalman" the first tick of a fresh run raises, and
    the state it leaves has at least five measurements in a buffer that
    was empty and a last-seen entry for "LINK_1" that was not there. *)
Lemma failed_step_counterexample :
  exists state' clk',
    fixed_step (engine_with_ema 0.9) (fresh_state "kalman")
      (stopped_clock "2026-01-01T00:00:00Z") =
    (Raise (NotImplementedError
              "KalmanFusion is a stub and must be explicitly implemented."),
     (engine_with_ema 0.9, state', clk')) /\
    st_meas_history (fresh_state "kalman") = [] /\
    (5 <= List.length (st_meas_history state'))%nat /\
    dict_find (st_last_seen_tick (fresh_state "kalman")) "LINK_1" = None /\
    dict_find (st_last_seen_tick state') "LINK_1" = Some 1%Z.
Proof.
  assert (Hready : step_ready (engine_with_ema 0.9) (fresh_state "kalman"))
    by (apply fresh_state_ready; lra).
  destruct (kalman_step_raises FixedRng fixed_default_rng fixed_uniform
              fixed_normal fixed_random (fun _ => "f") (fun s => s)
              (fun s => s) (engine_with_ema 0.9) (fresh_state "kalman")
              (stopped_clock "2026-01-01T00:00:00Z")
              _ _ _ eq_refl eq_refl eq_refl Hready eq_refl)
    as (state' & clk' & Hstep).
  destruct (step_raises_after_recording FixedRng fixed_default_rng
              fixed_uniform fixed_normal fixed_random (fun _ => "f")
              (fun s => s) (fun s => s) (engine_with_ema 0.9)
              (fresh_state "kalman") (stopped_clock "2026-01-01T00:00:00Z")
              _ _ _ eq_refl eq_refl eq_refl Hready _ _ _ _ Hstep)
    as (_ & ms & _ & Hlen & Hmeas & _ & Hlink).
  exists state', clk'. split; [exact Hstep |].
  split; [reflexivity |]. split; [| split; [reflexivity | exact Hlink]].
  rewrite Hmeas, deque_extend_length by apply Nat.le_0_l.
  apply Nat.min_glb.
  - cbn [st_meas_history fresh_state List.length]. lia.
  - apply Nat.leb_le. reflexivity.
Qed.

Lemma reset_leaves_calculator_memory_witness :
  reset (fresh_state "weighted") None (stopped_clock "2026-01-01T00:00:00Z") =
    (fresh_state "weighted", stopped_clock "2026-01-01T00:00:00Z") /\
  exists engine' state' clk' raw tel,
    fixed_step (engine_with_ema 0.5) (fresh_state "weighted")
      (stopped_clock "2026-01-01T00:00:00Z") =
    (Ok tt, (engine', state', clk')) /\
    0 <= raw <= 1 /\
    tel_clarity tel =
      (0.15 * raw + 0.85 * crc_clarity_ema (se_clarity_calc (engine_with_ema 0.5)))
      * 100.
Proof.
  split; [reflexivity |].
  assert (Hema : 0 <= 0.5 <= 1) by lra.
  destruct (fresh_step_returns 0.5 (stopped_clock "2026-01-01T00:00:00Z") Hema)
    as (raw0 & audit & tel0 & state' & _ & Hstep & _).
  destruct (proj2 (proj2 (proj2 (proj2
              (reset_leaves_calculator_memory
                 FixedRng fixed_default_rng fixed_uniform fixed_normal
                 fixed_random (fun _ => "f") (fun s => s) (fun s => s)
                 (engine_with_ema 0.5) (fresh_state "weighted")
                 (stopped_clock "2026-01-01T00:00:00Z")))))
              None (fresh_state "weighted")
              (stopped_clock "2026-01-01T00:00:00Z") (engine_with_ema 0.5)
              _ _ _ _ _ _
              eq_refl (or_introl eq_refl) eq_refl eq_refl eq_refl
              (fresh_state_ready "weighted" 0.5 Hema) Hstep)
    as (raw & tel & Hraw & _ & Hcl).
  exists (engine_after (engine_with_ema 0.5) raw0), state',
         (reads 7 (stopped_clock "2026-01-01T00:00:00Z")), raw, tel.
  split; [exact Hstep |]. split; [exact Hraw | exact Hcl].
Defined.

(** C1.  Two runs of one tick from the same freshly reset state, with the
    same seed, scenario, strategy and calculator memory, under the same
    generator, leave different audit records and different telemetry
    records when the wall clock reads differently: the time [utc()]
    returns is the [utc] of the audit record, which is part of the hashed
    payload, and the [utc_timestamp] of the telemetry record. *)
Theorem replay_depends_on_wall_clock :
  exists w1 w2 a1 a2 t1 t2,
    fixed_run 1 (engine_with_ema 0.9) (fresh_state "weighted")
      (stopped_clock "2026-01-01T00:00:00Z") = (Ok tt, w1) /\
    fixed_run 1 (engine_with_ema 0.9) (fresh_state "weighted")
      (stopped_clock "2026-01-01T00:00:05Z") = (Ok tt, w2) /\
    st_audit_chain (snd (fst w1)) = [a1] /\
    st_audit_chain (snd (fst w2)) = [a2] /\
    st_history (snd (fst w1)) = [t1] /\
    st_history (snd (fst w2)) = [t2] /\
    ar_utc a1 = "2026-01-01T00:00:00Z" /\
    ar_utc a2 = "2026-01-01T00:00:05Z" /\
    tel_utc_timestamp t1 = "2026-01-01T00:00:00Z" /\
    tel_utc_timestamp t2 = "2026-01-01T00:00:05Z" /\
    a1 <> a2 /\ t1 <> t2.
Proof.
  assert (Hema : 0 <= 0.9 <= 1) by lra.
  destruct (fresh_step_returns 0.9 (stopped_clock "2026-01-01T00:00:00Z") Hema)
    as (raw1 & a1 & t1 & s1 & _ & Hstep1 & _ & _ & Ha1 & Ht1 & Hu1 & Hv1 & _).
  destruct (fresh_step_returns 0.9 (stopped_clock "2026-01-01T00:00:05Z") Hema)
    as (raw2 & a2 & t2 & s2 & _ & Hstep2 & _ & _ & Ha2 & Ht2 & Hu2 & Hv2 & _).
  rewrite reads_stopped_clock in Hu1, Hv1, Hu2, Hv2.
  cbn [utc_readings stopped_clock] in Hu1, Hv1, Hu2, Hv2.
  eexists _, _, a1, a2, t1, t2.
  split; [apply run_one; exact Hstep1 |].
  split; [apply run_one; exact Hstep2 |].
  cbn [fst snd].
  repeat (split; [assumption |]).
  split; intro Heq.
  - rewrite Heq, Hu2 in Hu1. discriminate Hu1.
  - rewrite Heq, Hv2 in Hv1. discriminate Hv1.
Qed.

Lemma clarity_ema_converges_witness :
  exists g c',
    compute_n 1 (ClarityRiskCalculator_init default_FusionConfig)
      (fresh_state "weighted") (mkPhysicalState 300 0.2 10) fallback_record =
      (Ok (Some g), c') /\
    g_clarity g = crc_clarity_ema c' * 100.
Proof.
  destruct (proj1 (proj2 (clarity_ema_converges
                            (ClarityRiskCalculator_init default_FusionConfig)
                            (fresh_state "weighted")
                            (mkPhysicalState 300 0.2 10) fallback_record
                            _ eq_refl ltac:(simpl; lra))) 0%nat)
    as (g & c' & Hrun & Hcl & _).
  exists g, c'. split; [exact Hrun | exact Hcl].
Defined.

(* ================================================================== *)
(** * Further properties *)
(* ================================================================== *)

(* ================================================================== *)
(** * Further properties of the fusion engine and the strategies *)
(* ================================================================== *)

(** ** The time gate *)

Lemma age_ms_same_cadence (cfg1 cfg2 : FusionConfig) (T : Z)
    (m : SensorMeasurement) :
  cfg_dt_seconds cfg1 = cfg_dt_seconds cfg2 ->
  age_ms cfg1 T m = age_ms cfg2 T m.
Proof. intro H. unfold age_ms. rewrite H. reflexivity. Qed.

Lemma select_scan_gate_mono (cfg1 cfg2 : FusionConfig) (T : Z) (g1 g2 : R)
    (l : list SensorMeasurement) :
  cfg_dt_seconds cfg1 = cfg_dt_seconds cfg2 ->
  g1 <= g2 ->
  exists more,
    select_scan cfg2 T g2 l = select_scan cfg1 T g1 l ++ more.
Proof.
  intros Hdt Hg. induction l as [| m l (more & IH)]; cbn [select_scan].
  - exists []. reflexivity.
  - destruct (m_dropped m); [exists more; exact IH |].
    rewrite (age_ms_same_cadence cfg1 cfg2 T m Hdt).
    destruct (Rleb (age_ms cfg2 T m) g1) eqn:H1.
    + apply Rleb_true_iff in H1.
      rewrite (proj2 (Rleb_true_iff _ g2)) by lra.
      exists more. rewrite IH. reflexivity.
    + eexists. reflexivity.
Qed.

(** X1.  Widening the time gate only extends the selection: with the
    same cadence and a gate at least as wide, [select_measurements]
    returns the measurements it returned before, in the same order,
    followed by further (older) ones. *)
Theorem wider_gate_extends_selection (cfg1 cfg2 : FusionConfig)
    (history : list SensorMeasurement) (T : Z) :
  cfg_dt_seconds cfg1 = cfg_dt_seconds cfg2 ->
  cfg_fusion_time_gate_ms cfg1 <= cfg_fusion_time_gate_ms cfg2 ->
  exists more,
    select_measurements cfg2 history T =
    select_measurements cfg1 history T ++ more.
Proof.
  intros Hdt Hg. unfold select_measurements.
  apply select_scan_gate_mono; assumption.
Qed.

Lemma wider_gate_extends_selection_witness :
  exists more,
    select_measurements wide_gate_config [gate_demo 400; gate_demo 100] 7 =
    select_measurements default_FusionConfig
      [gate_demo 400; gate_demo 100] 7 ++ more.
Proof.
  apply (wider_gate_extends_selection default_FusionConfig wide_gate_config).
  - reflexivity.
  - simpl. lra.
Defined.

Lemma select_scan_older_out (cfg : FusionConfig) (T : Z) (gate : R)
    (older : list SensorMeasurement) :
  Forall (fun m => m_dropped m = true \/
                   Rleb (age_ms cfg T m) gate = false) older ->
  forall newer,
    select_scan cfg T gate (newer ++ older) = select_scan cfg T gate newer.
Proof.
  intros Hold newer. induction newer as [| x newer IH]; cbn [app select_scan].
  - induction Hold as [| m older [Hd | Hout] _ IH]; cbn [select_scan];
      [reflexivity | now rewrite Hd |].
    destruct (m_dropped m); [exact IH | now rewrite Hout].
  - destruct (m_dropped x); [exact IH |].
    destruct (Rleb (age_ms cfg T x) gate); [now rewrite IH | reflexivity].
Qed.

Lemma earlier_tick_out_of_gate (cfg : FusionConfig) (T : Z)
    (m : SensorMeasurement) :
  0 <= cfg_dt_seconds cfg ->
  cfg_fusion_time_gate_ms cfg < cfg_dt_seconds cfg * 1000 ->
  (m_tick m < T)%Z -> 0 <= m_latency_ms m ->
  Rleb (age_ms cfg T m) (cfg_fusion_time_gate_ms cfg) = false.
Proof.
  intros Hdt Hgate Htick Hlat. apply Rleb_false_iff. unfold age_ms.
  assert (Hd : 1 <= IZR (T - m_tick m)) by (apply IZR_le; lia).
  assert (Hprod : cfg_dt_seconds cfg * 1000.0
                  <= IZR (T - m_tick m) * cfg_dt_seconds cfg * 1000.0) by nra.
  rewrite Rabs_right; lra.
Qed.

Lemma select_measurements_drop_earlier (cfg : FusionConfig)
    (earlier ms : list SensorMeasurement) (T : Z) :
  0 <= cfg_dt_seconds cfg ->
  cfg_fusion_time_gate_ms cfg < cfg_dt_seconds cfg * 1000 ->
  Forall (fun m => (m_tick m < T)%Z /\ 0 <= m_latency_ms m) earlier ->
  select_measurements cfg (earlier ++ ms) T = select_measurements cfg ms T.
Proof.
  intros Hdt Hgate Hearlier.
  unfold select_measurements. rewrite rev_app_distr.
  apply select_scan_older_out.
  apply Forall_rev. eapply Forall_impl; [| exact Hearlier].
  intros m [Htick Hlat]. right.
  now apply earlier_tick_out_of_gate.
Qed.

(** X2.  When the gate is shorter than one tick
    ([fusion_time_gate_ms < 1000 * dt_seconds], as in the default
    configuration), what the history holds from earlier ticks has no
    effect on the selection, nor on what the engine fuses: appending the
    measurements [ms] to a history whose measurements all carry an earlier
    tick (and a non-negative latency) selects what [ms] alone selects. *)
Theorem selection_reads_current_tick_only (cfg : FusionConfig)
    (name : string) (earlier ms : list SensorMeasurement) (T : Z) :
  0 <= cfg_dt_seconds cfg ->
  cfg_fusion_time_gate_ms cfg < cfg_dt_seconds cfg * 1000 ->
  Forall (fun m => (m_tick m < T)%Z /\ 0 <= m_latency_ms m) earlier ->
  select_measurements cfg (earlier ++ ms) T = select_measurements cfg ms T /\
  FusionEngine_fuse (FusionEngine_init cfg name) (earlier ++ ms) T =
  FusionEngine_fuse (FusionEngine_init cfg name) ms T.
Proof.
  intros Hdt Hgate Hearlier.
  pose proof (select_measurements_drop_earlier cfg earlier ms T
                Hdt Hgate Hearlier) as Hsel.
  split; [exact Hsel |].
  unfold FusionEngine_fuse.
  change (eng_config (FusionEngine_init cfg name)) with cfg.
  rewrite Hsel. reflexivity.
Qed.

Lemma selection_reads_current_tick_only_witness :
  select_measurements default_FusionConfig [stale_demo; gate_demo 90] 7 =
  select_measurements default_FusionConfig [gate_demo 90] 7.
Proof.
  apply (selection_reads_current_tick_only default_FusionConfig "weighted"
           [stale_demo] [gate_demo 90] 7).
  - simpl. lra.
  - simpl. lra.
  - constructor; [| constructor]. split; [reflexivity | simpl; lra].
Defined.

(** ** The registry of strategies *)

(** X3.  The engine's [strategy] is always the object registered under
    its [strategy_name], and that name is always "weighted" or "kalman",
    whatever name it was built or switched with; switching the strategy
    of an engine gives the engine that is built with the new name, so the
    last switch alone decides. *)
Theorem strategy_is_the_registered_one (cfg : FusionConfig)
    (name name' : string) :
  let e := FusionEngine_init cfg name in
  (eng_strategy_name e = "weighted" \/ eng_strategy_name e = "kalman") /\
  dict_find (eng_strategies e) (eng_strategy_name e) = Some (eng_strategy e) /\
  (eng_strategy_name e = name \/
   (dict_mem (eng_strategies e) name = false /\
    eng_strategy_name e = "weighted")) /\
  set_strategy e name' = FusionEngine_init cfg name' /\
  set_strategy (set_strategy e name) name' = set_strategy e name'.
Proof.
  cbv zeta. unfold FusionEngine_init, set_strategy.
  cbn [eng_strategy_name eng_strategies eng_strategy eng_config].
  unfold dict_mem, dict_find.
  destruct (String.eqb_spec "weighted" name) as [<- | Hw].
  - cbn. repeat split; auto.
  - destruct (String.eqb_spec "kalman" name) as [<- | Hk].
    + cbn. repeat split; auto.
    + cbn. repeat split; auto.
Qed.

(** ** Weights *)

Lemma weight_product (cfg : FusionConfig) (m : SensorMeasurement) :
  0 <= m_latency_ms m ->
  exists c l,
    0 < c /\ 0 < l <= 1 /\
    c = 1.0 / Rmax (trace (m_R m)) 1e-9 /\
    l * (1.0 + m_latency_ms m / 200.0) = 1 /\
    _weight cfg m =
      Rmax 0.0
        (c * l * clip (m_quality m) 0.0 1.0
         * dict_get (cfg_position_fusion_weight cfg)
             (SensorType_value (m_sensor_type m)) 0.5).
Proof.
  intro Hlat.
  exists (1.0 / Rmax (trace (m_R m)) 1e-9),
         (1.0 / (1.0 + m_latency_ms m / 200.0)).
  assert (Ht : 0 < Rmax (trace (m_R m)) 1e-9).
  { pose proof (Rmax_r (trace (m_R m)) 1e-9). lra. }
  assert (Hd : 1 <= 1.0 + m_latency_ms m / 200.0) by lra.
  split; [apply Rdiv_lt_0_compat; lra |].
  split.
  { split; [apply Rdiv_lt_0_compat; lra |].
    apply (Rmult_le_reg_r (1.0 + m_latency_ms m / 200.0)); [lra |].
    unfold Rdiv. rewrite Rmult_assoc, Rinv_l by lra. lra. }
  split; [reflexivity |].
  split; [unfold Rdiv; rewrite Rmult_assoc, Rinv_l by lra; lra | reflexivity].
Qed.

Lemma weight_zero_quality (cfg : FusionConfig) (m : SensorMeasurement) :
  m_quality m <= 0 -> 0 <= m_latency_ms m -> _weight cfg m = 0.
Proof.
  intros Hq Hlat.
  destruct (weight_product cfg m Hlat) as (c & l & Hc & Hl & _ & _ & ->).
  assert (Hz : clip (m_quality m) 0.0 1.0 = 0).
  { unfold clip. rewrite Rmax_right by lra. rewrite Rmin_left by lra. lra. }
  rewrite Hz. rewrite Rmax_left; lra.
Qed.

(** X4.  [_weight] is never negative, is zero for a measurement of
    quality zero or less, and, everything else being equal, a measurement
    that arrived later or with a lower quality never weighs more. *)
Theorem weight_falls_with_latency_and_rises_with_quality
    (cfg : FusionConfig) (m1 m2 : SensorMeasurement) :
  0 <= _weight cfg m1 /\
  (m_quality m1 <= 0 -> 0 <= m_latency_ms m1 -> _weight cfg m1 = 0) /\
  (m_R m1 = m_R m2 ->
   m_sensor_type m1 = m_sensor_type m2 ->
   0 <= m_latency_ms m1 <= m_latency_ms m2 ->
   m_quality m2 <= m_quality m1 ->
   _weight cfg m2 <= _weight cfg m1).
Proof.
  split; [apply weight_nonneg |]. split.
  - apply weight_zero_quality.
  - intros HR Hty Hlat Hq.
    destruct (weight_product cfg m1 (proj1 Hlat))
      as (c1 & l1 & Hc1 & Hl1 & Ec1 & El1 & ->).
    assert (Hlat2 : 0 <= m_latency_ms m2) by lra.
    destruct (weight_product cfg m2 Hlat2)
      as (c2 & l2 & Hc2 & Hl2 & Ec2 & El2 & ->).
    rewrite <- HR in Ec2. rewrite <- Hty.
    assert (Hc : c2 = c1) by congruence. clear Ec2. subst c2.
    set (tw := dict_get _ _ _).
    set (q1 := clip (m_quality m1) 0.0 1.0).
    set (q2 := clip (m_quality m2) 0.0 1.0).
    assert (Hq1 : 0 <= q1 <= 1) by (unfold q1; clip_facts; lra).
    assert (Hq2 : 0 <= q2 <= 1) by (unfold q2; clip_facts; lra).
    assert (Hq21 : q2 <= q1).
    { unfold q1, q2, clip.
      apply Rle_min_compat_r. apply Rle_max_compat_r. exact Hq. }
    assert (Hl21 : l2 <= l1).
    { destruct (Rle_dec l2 l1) as [Hle | Hgt]; [exact Hle | exfalso].
      assert (l1 * (1.0 + m_latency_ms m1 / 200.0)
              < l2 * (1.0 + m_latency_ms m1 / 200.0))
        by (apply Rmult_lt_compat_r; lra).
      assert (l2 * (1.0 + m_latency_ms m1 / 200.0)
              <= l2 * (1.0 + m_latency_ms m2 / 200.0))
        by (apply Rmult_le_compat_l; lra).
      lra. }
    assert (Hprod : 0 <= c1 * l2 * q2 <= c1 * l1 * q1).
    { split; [apply Rmult_le_pos; [apply Rmult_le_pos |]; lra |].
      apply Rmult_le_compat; try lra.
      - apply Rmult_le_pos; lra.
      - apply Rmult_le_compat_l; lra. }
    destruct (Rle_dec 0 tw) as [Htw | Htw].
    + apply Rle_max_compat_l. apply Rmult_le_compat_r; lra.
    + assert (c1 * l2 * q2 * tw <= 0) by nra.
      rewrite (Rmax_left 0.0 (c1 * l2 * q2 * tw)) by lra.
      apply Rmax_l.
Qed.

Lemma weight_falls_with_latency_and_rises_with_quality_witness :
  _weight default_FusionConfig (gate_demo 120)
    <= _weight default_FusionConfig (gate_demo 90).
Proof.
  apply (proj2 (proj2 (weight_falls_with_latency_and_rises_with_quality
                         default_FusionConfig (gate_demo 90) (gate_demo 120)))).
  - reflexivity.
  - reflexivity.
  - simpl. lra.
  - simpl. lra.
Defined.

(** ** What [fuse] reads *)

Lemma filter_idem {A} (p : A -> bool) (l : list A) :
  filter p (filter p l) = filter p l.
Proof.
  induction l as [| x l IH]; [reflexivity |]. cbn [filter].
  destruct (p x) eqn:Hx; [| exact IH].
  cbn [filter]. rewrite Hx, IH. reflexivity.
Qed.

Lemma fuse_same_usable (cfg : FusionConfig)
    (ms ms' : list SensorMeasurement) :
  filter usable ms = filter usable ms' ->
  WeightedFusion_fuse cfg ms = WeightedFusion_fuse cfg ms'.
Proof.
  intro H. unfold WeightedFusion_fuse. cbv zeta. rewrite H. reflexivity.
Qed.

(** X5.  [WeightedFusion.fuse] reads nothing but the usable
    measurements (GNSS, EO/IR and radar readings that are not dropped):
    it returns what it returns on the usable ones alone, so a barometer,
    IMU, link or RF reading and a dropped reading never change the
    estimate, wherever they stand in the list. *)
Theorem fuse_reads_usable_only (cfg : FusionConfig)
    (ms : list SensorMeasurement) :
  WeightedFusion_fuse cfg ms = WeightedFusion_fuse cfg (filter usable ms) /\
  (forall before m after,
      ms = before ++ m :: after ->
      m_dropped m = true \/ m_sensor_type m = BARO \/ m_sensor_type m = IMU \/
      m_sensor_type m = LINK \/ m_sensor_type m = RF ->
      WeightedFusion_fuse cfg ms = WeightedFusion_fuse cfg (before ++ after)).
Proof.
  split.
  - apply fuse_same_usable. symmetry. apply filter_idem.
  - intros before m after -> Hm.
    assert (Hu : usable m = false).
    { unfold usable.
      destruct Hm as [-> | [-> | [-> | [-> | ->]]]];
        [apply andb_false_r | reflexivity ..]. }
    apply fuse_same_usable.
    rewrite !filter_app. cbn [filter]. rewrite Hu. reflexivity.
Qed.

Lemma weights_agree (cfg cfg' : FusionConfig) (ms : list SensorMeasurement) :
  (forall k, k = "GNSS" \/ k = "EOIR" \/ k = "RADAR" ->
             dict_get (cfg_position_fusion_weight cfg) k 0.5 =
             dict_get (cfg_position_fusion_weight cfg') k 0.5) ->
  map (_weight cfg) (filter usable ms) = map (_weight cfg') (filter usable ms).
Proof.
  intro Hw. apply map_ext_in. intros m Hm.
  apply filter_In in Hm. destruct Hm as [_ Hu].
  unfold usable in Hu. apply andb_prop in Hu. destruct Hu as [Hty _].
  unfold _weight. cbv zeta.
  rewrite (Hw (SensorType_value (m_sensor_type m))); [reflexivity |].
  destruct (m_sensor_type m); try discriminate; cbn; auto.
Qed.

(** X6.  The only sensor-type weights [fuse] ever looks up are those of
    "GNSS", "EOIR" and "RADAR": two configurations that agree on these
    three give the same result on every list of measurements.  The
    "BARO" entry of [position_fusion_weight] in particular has no effect
    on any estimate. *)
Theorem fuse_ignores_other_type_weights (cfg : FusionConfig)
    (w w' : Dict R) (ms : list SensorMeasurement) :
  ((forall k, k = "GNSS" \/ k = "EOIR" \/ k = "RADAR" ->
              dict_get w k 0.5 = dict_get w' k 0.5) ->
   WeightedFusion_fuse (set_position_fusion_weight cfg w) ms =
   WeightedFusion_fuse (set_position_fusion_weight cfg w') ms) /\
  (forall x,
      WeightedFusion_fuse
        (set_position_fusion_weight cfg (dict_set w "BARO" x)) ms =
      WeightedFusion_fuse (set_position_fusion_weight cfg w) ms).
Proof.
  assert (Hmain : forall v v',
             (forall k, k = "GNSS" \/ k = "EOIR" \/ k = "RADAR" ->
                        dict_get v k 0.5 = dict_get v' k 0.5) ->
             WeightedFusion_fuse (set_position_fusion_weight cfg v) ms =
             WeightedFusion_fuse (set_position_fusion_weight cfg v') ms).
  { intros v v' Hw. unfold WeightedFusion_fuse. cbv zeta.
    rewrite (weights_agree (set_position_fusion_weight cfg v)
               (set_position_fusion_weight cfg v') ms Hw).
    reflexivity. }
  split; [apply Hmain |].
  intro x. apply Hmain. intros k Hk.
  assert (Hne : "BARO" <> k)
    by (destruct Hk as [-> | [-> | ->]]; discriminate).
  clear Hk. induction w as [| [k0 v0] w IH]; cbn [dict_set dict_get].
  - destruct (String.eqb_spec "BARO" k); [contradiction | reflexivity].
  - destruct (String.eqb_spec k0 "BARO") as [-> | Hk0]; cbn [dict_get].
    + destruct (String.eqb_spec "BARO" k); [contradiction | reflexivity].
    + rewrite IH. reflexivity.
Qed.

Lemma fuse_ignores_other_type_weights_witness :
  WeightedFusion_fuse
    (set_position_fusion_weight default_FusionConfig
       [("GNSS", 1.0); ("EOIR", 0.8); ("RADAR", 0.9)]) [gate_demo 90] =
  WeightedFusion_fuse
    (set_position_fusion_weight default_FusionConfig
       (cfg_position_fusion_weight default_FusionConfig)) [gate_demo 90].
Proof.
  apply (proj1 (fuse_ignores_other_type_weights default_FusionConfig
                  [("GNSS", 1.0); ("EOIR", 0.8); ("RADAR", 0.9)]
                  (cfg_position_fusion_weight default_FusionConfig)
                  [gate_demo 90])).
  intros k [-> | [-> | ->]]; reflexivity.
Defined.

(** ** The fused position *)




Lemma weighted_column_uniform (j : nat) (c : R) {A} (f : SensorMeasurement -> A)
    (pos : list SensorMeasurement) :
  weighted_column j pos (map (fun _ => c) (map f pos)) =
  Rsum (map (fun m => nth j (z3 m) 0) pos) * c.
Proof.
  induction pos as [| m pos IH]; cbn [map weighted_column Rsum]; [lra |].
  rewrite IH. lra.
Qed.

Lemma dict_set_values_Forall {V} (P : V -> Prop) (d : Dict V) (k : string)
    (v : V) :
  Forall P (dict_values d) -> P v -> Forall P (dict_values (dict_set d k v)).
Proof.
  intros Hd Hv. induction d as [| [k' v'] d IH]; cbn [dict_set].
  - repeat constructor. exact Hv.
  - inversion Hd as [| ? ? Hv' Hd']; subst.
    destruct (String.eqb k' k); constructor; auto.
Qed.

Lemma contrib_from_values_Forall (P : R -> Prop)
    (ms : list SensorMeasurement) :
  forall ws acc,
    Forall P ws -> Forall P (dict_values acc) ->
    Forall P (dict_values (contrib_from acc ms ws)).
Proof.
  induction ms as [| m ms IH]; intros ws acc Hws Hacc; cbn [contrib_from];
    [exact Hacc |].
  destruct ws as [| w ws]; [exact Hacc |].
  inversion Hws; subst.
  apply IH; [assumption | now apply dict_set_values_Forall].
Qed.

(** X8.  When the weights of the usable measurements add up to no more
    than 1e-12 (each has quality zero, say), [fuse] does not divide by
    their sum: it gives every usable measurement the weight [1 / n].  So
    in an estimate it returns from at most 3000 positions (the default
    capacity of the measurement buffer) inside the ranges of
    [FusedEstimate], every contribution is [1 / n], and the fused
    latitude, longitude and altitude are the plain means of the usable
    positions up to rounding (within 1e-6). *)
Theorem zero_weights_fuse_to_plain_mean (cfg : FusionConfig)
    (ms : list SensorMeasurement) (est : FusedEstimate) :
  let pos := filter usable ms in
  let n := INR (List.length pos) in
  pos <> [] ->
  (List.length pos <= 3000)%nat ->
  Forall position_ok pos ->
  Rsum (map (_weight cfg) pos) <= 1e-12 ->
  WeightedFusion_fuse cfg ms = Ok est ->
  Forall (fun w => w = 1 / n) (dict_values (fe_sensor_contrib est)) /\
  Rabs (fe_lat est - Rsum (map (fun m => nth 0 (z3 m) 0) pos) * (1 / n))
    <= 1e-6 /\
  Rabs (fe_lon est - Rsum (map (fun m => nth 1 (z3 m) 0) pos) * (1 / n))
    <= 1e-6 /\
  Rabs (fe_altitude_m est
        - Rsum (map (fun m => nth 2 (z3 m) 0) pos) * (1 / n)) <= 1e-6.
Proof.
  intros pos n Hne _ Hpos Hsum Hest.
  rewrite (fuse_returns_fused_record cfg ms est Hest Hne). fold pos.
  assert (Hw : normalize (map (_weight cfg) pos) =
               map (fun _ => 1 / n) (map (_weight cfg) pos)).
  { unfold normalize.
    rewrite (proj2 (Rleb_true_iff _ _) Hsum).
    unfold n. rewrite length_map. reflexivity. }
  unfold fused_record.
  cbn [fe_sensor_contrib fe_lat fe_lon fe_altitude_m].
  rewrite Hw. unfold weighted_sum. cbn [nth].
  rewrite !weighted_column_uniform.
  assert (Hzero : forall x, Rabs (x - x) <= 1e-6).
  { intro x. replace (x - x) with 0 by lra. rewrite Rabs_R0. lra. }
  split; [| repeat split; apply Hzero].
  apply contrib_from_values_Forall; [| constructor].
  apply Forall_forall. intros w Hin.
  apply in_map_iff in Hin. destruct Hin as (x & <- & _). reflexivity.
Qed.

Lemma zero_weights_fuse_to_plain_mean_witness :
  exists est,
    WeightedFusion_fuse default_FusionConfig
      [reading "GNSS_A" GNSS 50 0; reading "RADAR_1" RADAR 52 0] = Ok est /\
    Rabs (fe_lat est - 51) <= 1e-6.
Proof.
  assert (Hpos : Forall position_ok
                   [reading "GNSS_A" GNSS 50 0; reading "RADAR_1" RADAR 52 0]).
  { repeat constructor; simpl; lra. }
  assert (Hest : WeightedFusion_fuse default_FusionConfig
                   [reading "GNSS_A" GNSS 50 0; reading "RADAR_1" RADAR 52 0]
                 = Ok (fused_record default_FusionConfig
                         [reading "GNSS_A" GNSS 50 0;
                          reading "RADAR_1" RADAR 52 0])).
  { apply (WeightedFusion_fuse_ok default_FusionConfig
             [reading "GNSS_A" GNSS 50 0; reading "RADAR_1" RADAR 52 0]);
      [discriminate | exact Hpos]. }
  eexists. split; [exact Hest |].
  destruct (zero_weights_fuse_to_plain_mean default_FusionConfig
              [reading "GNSS_A" GNSS 50 0; reading "RADAR_1" RADAR 52 0]
              (fused_record default_FusionConfig
                 [reading "GNSS_A" GNSS 50 0; reading "RADAR_1" RADAR 52 0]))
    as (_ & Hlat & _); [| | exact Hpos | | exact Hest |].
  - discriminate.
  - apply Nat.leb_le. reflexivity.
  - cbn [filter usable reading m_sensor_type m_dropped position_capable
         andb negb map Rsum].
    rewrite !weight_zero_quality by (simpl; lra). lra.
  - replace 51 with
      (Rsum (map (fun m => nth 0 (z3 m) 0)
               (filter usable
                  [reading "GNSS_A" GNSS 50 0; reading "RADAR_1" RADAR 52 0]))
       * (1 / INR (List.length
                     (filter usable
                        [reading "GNSS_A" GNSS 50 0;
                         reading "RADAR_1" RADAR 52 0]))))
      by (simpl; lra).
    exact Hlat.
Defined.

(** X9.  In every estimate [fuse] builds from at least one usable
    measurement, confidence and surprise add up to exactly 1; only the
    fallback estimate, returned when nothing is usable, breaks this
    (0.1 and 1.0). *)
Theorem confidence_complements_surprise (cfg : FusionConfig)
    (ms : list SensorMeasurement) (est : FusedEstimate) :
  WeightedFusion_fuse cfg ms = Ok est ->
  (filter usable ms <> [] -> fe_fusion_conf est + fe_surprise est = 1) /\
  (filter usable ms = [] ->
   fe_fusion_conf est = 0.1 /\ fe_surprise est = 1.0).
Proof.
  intro Hest. split.
  - intro Hne.
    rewrite (fuse_returns_fused_record cfg ms est Hest Hne).
    unfold fused_record. cbn [fe_fusion_conf fe_surprise].
    unfold WeightedFusion_calculate_confidence.
    destruct (_ <? 2)%nat; cbn [fst snd]; [lra |].
    set (s := clip (dispersion _ _ _ / 2.0) 0.0 1.0).
    assert (Hs : 0 <= s <= 1) by (unfold s; clip_facts; lra).
    rewrite clip_id; lra.
  - intro Hnone. rewrite (fuse_no_usable cfg ms Hnone) in Hest.
    injection Hest as <-. split; reflexivity.
Qed.

Lemma confidence_complements_surprise_witness :
  exists est,
    WeightedFusion_fuse default_FusionConfig
      [reading "GNSS_A" GNSS 50 0.9; reading "RADAR_1" RADAR 52 0.75] = Ok est /\
    fe_fusion_conf est + fe_surprise est = 1.
Proof.
  assert (Hest : WeightedFusion_fuse default_FusionConfig
                   [reading "GNSS_A" GNSS 50 0.9;
                    reading "RADAR_1" RADAR 52 0.75] =
                 Ok (fused_record default_FusionConfig
                       [reading "GNSS_A" GNSS 50 0.9;
                        reading "RADAR_1" RADAR 52 0.75])).
  { apply (WeightedFusion_fuse_ok default_FusionConfig
             [reading "GNSS_A" GNSS 50 0.9; reading "RADAR_1" RADAR 52 0.75]);
      [discriminate | repeat constructor; simpl; lra]. }
  eexists. split; [exact Hest |].
  apply (proj1 (confidence_complements_surprise _ _ _ Hest)). discriminate.
Defined.

(* ================================================================== *)
(** * Further properties of the governance calculator *)
(* ================================================================== *)

Lemma envelope_pressure_bounds (envp : EnvelopePreset) (ps : PhysicalState) :
  0 <= envelope_pressure envp ps <= 1.68.
Proof. unfold envelope_pressure. cbv zeta. clip_facts. lra. Qed.

Lemma raw_clarity_floor (envp : EnvelopePreset) (ps : PhysicalState)
    (fused : FusedEstimate) :
  0 <= fe_fusion_conf fused <= 1 ->
  0 <= fe_surprise fused <= 1 ->
  0.2695 <= raw_clarity envp ps fused.
Proof.
  intros Hc Hs. unfold raw_clarity. cbv zeta.
  rewrite (clip_id (0.70 + 0.30 * fe_fusion_conf fused)) by lra.
  rewrite (clip_id (1.0 - 0.30 * fe_surprise fused)) by lra.
  set (base := clip _ 0.55 1.0).
  assert (Hb : 0.55 <= base <= 1) by (unfold base; clip_facts; lra).
  assert (H1 : 0.55 * 0.7 <= base * (0.70 + 0.30 * fe_fusion_conf fused))
    by (apply Rmult_le_compat; lra).
  assert (H2 : 0.55 * 0.7 * 0.7
               <= base * (0.70 + 0.30 * fe_fusion_conf fused)
                  * (1.0 - 0.30 * fe_surprise fused))
    by (apply Rmult_le_compat; lra).
  lra.
Qed.

(** X10.  [compute] fails only at the envelope lookup, with the
    [KeyError] of the unknown name, and then leaves the calculator's
    memory as it was.  Otherwise, with a memory in [0, 1], it returns
    outputs inside the ranges the telemetry record demands (clarity, risk
    and predicted risk in [0, 100], a pressure of at most 1.69, which is
    below the 2.0 of the record) and leaves a memory in [0, 1] again,
    whatever the physical state and the estimate; and for an estimate
    with confidence and surprise in [0, 1] a memory of at least 0.269
    stays at least 0.269, so that clarity never falls below 26.9. *)
Theorem governance_outputs_in_range (c : ClarityRiskCalculator)
    (state : EngineState) (ps : PhysicalState) (fused : FusedEstimate) :
  (dict_find ENVELOPES (st_envelope_name state) = None ->
   compute c state ps fused =
   (Raise (KeyError (st_envelope_name state)), c)) /\
  (forall envp,
      dict_find ENVELOPES (st_envelope_name state) = Some envp ->
      0 <= crc_clarity_ema c <= 1 ->
      exists g c',
        compute c state ps fused = (Ok g, c') /\
        crc_config c' = crc_config c /\
        0 <= crc_clarity_ema c' <= 1 /\
        g_clarity g = crc_clarity_ema c' * 100 /\
        0 <= g_clarity g <= 100 /\
        0 <= g_risk g <= 100 /\
        0 <= g_pred g <= 100 /\
        0 <= g_pressure g <= 1.69 /\
        (0 <= fe_fusion_conf fused <= 1 ->
         0 <= fe_surprise fused <= 1 ->
         0.269 <= crc_clarity_ema c ->
         0.269 <= crc_clarity_ema c' /\ 26.9 <= g_clarity g)).
Proof.
  split.
  - intro Hnone. unfold compute, dict_index. rewrite Hnone. reflexivity.
  - intros envp Hsome Hema.
    assert (Henv : dict_index ENVELOPES (st_envelope_name state) = Ok envp)
      by (unfold dict_index; rewrite Hsome; reflexivity).
    pose proof (raw_clarity_bounds envp ps fused) as Hraw.
    destruct (compute_ok c state ps fused envp Henv) as (g & Hg & Hcl & Hp).
    eexists g, _. split; [exact Hg |].
    cbn [crc_config crc_clarity_ema].
    split; [reflexivity |]. split; [lra |]. split; [rewrite Hcl; lra |].
    split; [rewrite Hcl; lra |].
    assert (Hrp : 0 <= g_risk g <= 100 /\ 0 <= g_pred g <= 100).
    { unfold compute in Hg. rewrite Henv in Hg. injection Hg as <-.
      cbn [g_risk g_pred]. split; clip_facts; lra. }
    split; [tauto |]. split; [tauto |].
    split; [rewrite Hp; pose proof (envelope_pressure_bounds envp ps); lra |].
    intros Hc Hs Hfloor.
    pose proof (raw_clarity_floor envp ps fused Hc Hs).
    split; [lra | rewrite Hcl; lra].
Qed.

Lemma governance_outputs_in_range_witness :
  exists g c',
    compute (ClarityRiskCalculator_init default_FusionConfig)
      (fresh_state "weighted") (mkPhysicalState 300 0.2 10) fallback_record =
      (Ok g, c') /\
    0 <= crc_clarity_ema c' <= 1 /\
    0 <= g_risk g <= 100 /\
    0 <= g_pressure g <= 1.69.
Proof.
  destruct (proj2 (governance_outputs_in_range
                     (ClarityRiskCalculator_init default_FusionConfig)
                     (fresh_state "weighted") (mkPhysicalState 300 0.2 10)
                     fallback_record) _ eq_refl)
    as (g & c' & Hg & _ & Hema & _ & _ & Hrisk & _ & Hpress & _).
  - simpl. lra.
  - exists g, c'. split; [exact Hg |]. repeat split; tauto.
Defined.

Lemma clip_below (x lo hi b : R) :
  lo <= hi -> b <= hi -> clip x lo hi < b -> x < b.
Proof.
  intros Hlh Hb. unfold clip, Rmin, Rmax.
  destruct (Rle_dec x lo); destruct (Rle_dec _ hi); lra.
Qed.

(** X11.  The state label [compute] returns is decided by clarity and
    risk alone: CRITICAL exactly below clarity 65, HIGH_RISK exactly from
    65 up to 80, STABLE exactly when clarity is at least 90 and risk below
    30, TENSE otherwise (so a clarity of 90 or more with a risk of 30 or
    more is TENSE).  Since pressure enters the risk with the factor 60,
    STABLE is never reported at an envelope pressure of 0.5 or more. *)
Theorem system_state_classification (c c' : ClarityRiskCalculator)
    (state : EngineState) (ps : PhysicalState) (fused : FusedEstimate)
    (g : Governance) :
  compute c state ps fused = (Ok g, c') ->
  (g_sys_state g = CRITICAL <-> g_clarity g < 65) /\
  (g_sys_state g = HIGH_RISK <-> 65 <= g_clarity g < 80) /\
  (g_sys_state g = STABLE <-> 90 <= g_clarity g /\ g_risk g < 30) /\
  (g_sys_state g = TENSE <->
   80 <= g_clarity g /\ ~ (90 <= g_clarity g /\ g_risk g < 30)) /\
  (crc_clarity_ema c <= 1 -> fe_fusion_conf fused <= 1 ->
   0 <= fe_surprise fused ->
   g_sys_state g = STABLE -> g_pressure g < 0.5).
Proof.
  intro Hg. unfold compute in Hg.
  destruct (dict_index ENVELOPES (st_envelope_name state)) as [envp | e];
    [| discriminate].
  injection Hg as <- _.
  cbn [g_sys_state g_clarity g_risk g_pressure].
  pose proof (raw_clarity_bounds envp ps fused) as Hraw.
  pose proof (envelope_pressure_bounds envp ps) as Hp.
  set (cl := (0.15 * raw_clarity envp ps fused + 0.85 * crc_clarity_ema c)
             * 100.0) in *.
  set (risk := clip _ 0.0 100.0) in *.
  assert (Hstable : 90 <= cl /\ risk < 30 ->
                    crc_clarity_ema c <= 1 -> fe_fusion_conf fused <= 1 ->
                    0 <= fe_surprise fused ->
                    envelope_pressure envp ps < 0.5).
  { intros [Hcl Hr] He Hc Hs. unfold risk in Hr.
    apply clip_below in Hr; [| lra | lra].
    assert (cl <= 100) by (unfold cl; lra).
    nra. }
  destruct (Rleb 90 cl) eqn:H90; destruct (Rltb risk 30) eqn:H30;
    destruct (Rleb 80 cl) eqn:H80; destruct (Rleb 65 cl) eqn:H65;
    cbn [andb];
    repeat match goal with
           | H : Rleb _ _ = true |- _ => apply Rleb_true_iff in H
           | H : Rleb _ _ = false |- _ => apply Rleb_false_iff in H
           | H : Rltb _ _ = true |- _ => apply Rltb_true_iff in H
           | H : Rltb _ _ = false |- _ => apply Rltb_false_iff in H
           end;
    repeat split; intros; try discriminate; try lra; try tauto;
    try (exfalso; lra); try (apply Hstable; try assumption; split; lra).
Qed.

Lemma system_state_classification_witness :
  exists g c',
    compute (ClarityRiskCalculator_init default_FusionConfig)
      (fresh_state "weighted") (mkPhysicalState 300 0.2 10) fallback_record =
      (Ok g, c') /\
    (g_sys_state g = CRITICAL <-> g_clarity g < 65).
Proof.
  destruct (compute_ok (ClarityRiskCalculator_init default_FusionConfig)
              (fresh_state "weighted") (mkPhysicalState 300 0.2 10)
              fallback_record _ eq_refl) as (g & Hg & _).
  eexists g, _. split; [exact Hg |].
  exact (proj1 (system_state_classification _ _ _ _ _ _ Hg)).
Defined.

(* ================================================================== *)
(** * Further properties of the simulator and of [step] *)
(* ================================================================== *)

Ltac nodup_step :=
  let H := fresh "H" in
  intro H;
  repeat match type of H with
         | _ \/ _ => destruct H as [H | H]; [discriminate H |]
         end;
  first [exact H | discriminate H].

Section TickProperties.

Variable Rng : Type.
Variable default_rng : Z -> Rng.
Variable rng_uniform : R -> R -> Rng -> R * Rng.
Variable rng_normal : R -> R -> Rng -> R * Rng.
Variable rng_random : Rng -> R * Rng.
Variable float_repr : R -> string.
Variable json_escape : string -> string.
Variable sha256_hexdigest : string -> string.

Local Abbreviation step_ :=
  (step Rng default_rng rng_uniform rng_normal rng_random
     float_repr json_escape sha256_hexdigest).

(** What holds of the draws of every generator. *)
Local Abbreviation any3 := (fun _ _ _ : R => True).
Local Abbreviation any1 := (fun _ : R => True).

Lemma tick_measurements_inventory (Pn : R -> R -> R -> Prop)
    (Pr : R -> Prop) (state : EngineState) (truth : Truth)
    (env : EnvProfile) (ms : list SensorMeasurement) :
  tick_measurements Pn Pr state truth env ms ->
  tick_inventory (st_tick state + 1) ms.
Proof.
  intro Hms. unfold tick_inventory.
  destruct Hms as (link & imu & baro & gnss & eoir & tail & -> &
                   ((T1 & I1 & Y1 & V1 & Z1) & D1 & _) &
                   ((T2 & I2 & Y2 & V2 & Z2) & D2 & L2 & _) &
                   ((T3 & I3 & Y3 & V3 & Z3) & D3 & L3) &
                   ((T4 & I4 & Y4 & V4 & Z4) & L4 & u4 & _ & _ & G4) &
                   ((T5 & I5 & Y5 & V5 & Z5) & L5 & u5 & _ & _ & G5) &
                   u & _ & Htail).
  assert (Hfive :
            Forall (fun m =>
                      m_tick m = (st_tick state + 1)%Z /\
                      SensorMeasurement_ok m = true /\
                      List.length (m_z m) = 3%nat /\
                      (m_dropped m = true ->
                       m_sensor_type m = GNSS \/ m_sensor_type m = EOIR) /\
                      (m_dropped m = false -> m_sensor_type m <> LINK ->
                       m_latency_ms m <= 320))
                   [link; imu; baro; gnss; eoir]).
  { constructor; [| constructor; [| constructor; [| constructor;
      [| constructor; [| constructor]]]]];
      (split; [assumption | split; [assumption | split; [assumption |]]]).
    - split; [congruence | intros _ Hn; congruence].
    - split; [congruence | intros _ _; lra].
    - split; [congruence | intros _ _; lra].
    - split; [intros _; left; exact Y4 |].
      intros Hd _. destruct (G4 Hd) as [Hl _]. lra.
    - split; [intros _; right; exact Y5 |].
      intros Hd _. destruct (G5 Hd) as [Hl _]. lra. }
  destruct (Rltb u 0.55).
  - destruct Htail as (radar & -> & (T6 & I6 & Y6 & V6 & Z6) & D6 & L6 & _).
    cbn [map]. rewrite I1, I2, I3, I4, I5, I6, Y1, Y2, Y3, Y4, Y5, Y6.
    split; [right; reflexivity |].
    split.
    { repeat (constructor; [cbn [In]; nodup_step |]). constructor. }
    change [link; imu; baro; gnss; eoir; radar]
      with ([link; imu; baro; gnss; eoir] ++ [radar]).
    apply Forall_app. split; [exact Hfive |].
    constructor; [| constructor].
    split; [assumption | split; [assumption | split; [assumption |]]].
    split; [congruence | intros _ _; lra].
  - subst tail. cbn [map].
    rewrite I1, I2, I3, I4, I5, Y1, Y2, Y3, Y4, Y5.
    split; [left; reflexivity |].
    split; [| exact Hfive].
    repeat (constructor; [cbn [In]; nodup_step |]). constructor.
Qed.

(** X12.  For any generator, [simulate_all] does not raise: it returns
    the readings of LINK_1, IMU_1, BARO_1, GNSS_A and EOIR_1, in this
    order, followed or not by one of RADAR_1, so no two readings of a
    tick share a sensor id.  Each reading passes the validation of
    [SensorMeasurement], is stamped with the tick being computed and has
    a three-component [z]; only the GNSS and the EO/IR reading can be
    dropped; a reading that is not dropped, the link's apart, has a
    latency of at most 320 ms.  The call reads the clock once per reading
    and leaves the state and the engine alone. *)
Theorem simulate_all_inventory (state : EngineState) (truth : Truth)
    (env : EnvProfile) (s : Store Rng) :
  (0 <= st_tick state + 1)%Z ->
  exists ms s',
    simulate_all Rng rng_normal rng_random state truth env s = (Ok ms, s') /\
    s_engine Rng s' = s_engine Rng s /\
    s_state Rng s' = s_state Rng s /\
    s_clock Rng s' = reads (List.length ms) (s_clock Rng s) /\
    (map (fun m => (m_sensor_id m, m_sensor_type m)) ms =
       [("LINK_1", LINK); ("IMU_1", IMU); ("BARO_1", BARO);
        ("GNSS_A", GNSS); ("EOIR_1", EOIR)] \/
     map (fun m => (m_sensor_id m, m_sensor_type m)) ms =
       [("LINK_1", LINK); ("IMU_1", IMU); ("BARO_1", BARO);
        ("GNSS_A", GNSS); ("EOIR_1", EOIR); ("RADAR_1", RADAR)]) /\
    NoDup (map m_sensor_id ms) /\
    Forall (fun m =>
              m_tick m = (st_tick state + 1)%Z /\
              SensorMeasurement_ok m = true /\
              List.length (m_z m) = 3%nat /\
              (m_dropped m = true ->
               m_sensor_type m = GNSS \/ m_sensor_type m = EOIR) /\
              (m_dropped m = false -> m_sensor_type m <> LINK ->
               m_latency_ms m <= 320)) ms.
Proof.
  intro Htick.
  destruct (simulate_all_spec Rng rng_normal rng_random any3 any1
              (fun _ _ _ => I) (fun _ => I) state truth env s Htick)
    as (ms & s' & Hrun & He & Hs & Hc & Hms).
  exists ms, s'. split; [exact Hrun |]. split; [exact He |].
  split; [exact Hs |]. split; [exact Hc |].
  exact (tick_measurements_inventory _ _ _ _ _ _ Hms).
Qed.

(** X13.  For any generator whose [uniform(lo, hi)] stays within
    [lo, hi], [_generate_truth] on a state with a known envelope and an
    area of operation returns a truth inside the ranges the telemetry
    record demands -- Mach number within the envelope, altitude in
    [0, 18000], dynamic pressure in [0, 900], thermal index, civilian
    density and hot ratio in [0, 1], threat in [0, 100] -- with a speed of
    295 m/s per Mach and a position inside the rectangle of the area of
    operation; it writes nothing to the state, the engine or the clock. *)
Theorem truth_stays_in_envelope_and_area (state : EngineState)
    (env : EnvProfile) (envelope : EnvelopePreset) (ao : AOConfig)
    (s : Store Rng) :
  (forall lo hi g, lo <= hi -> lo <= fst (rng_uniform lo hi g) <= hi) ->
  dict_index ENVELOPES (st_envelope_name state) = Ok envelope ->
  st_ao state = Some ao ->
  0 <= ao_lat_delta ao -> 0 <= ao_lon_delta ao ->
  exists truth s',
    _generate_truth Rng rng_uniform rng_normal state env s = (Ok truth, s') /\
    s_engine Rng s' = s_engine Rng s /\
    s_state Rng s' = s_state Rng s /\
    s_clock Rng s' = s_clock Rng s /\
    0 <= tr_mach truth <= envp_max_mach envelope /\
    tr_velocity_mps truth = tr_mach truth * 295.0 /\
    0 <= tr_velocity_mps truth <= 2000 /\
    0 <= tr_altitude_m truth <= 18000 /\
    0 <= tr_q_kpa truth <= 900 /\
    0 <= tr_thermal_index truth <= 1 /\
    0 <= tr_threat_index truth <= 100 /\
    0 <= tr_civ_density truth <= 1 /\
    0 <= tr_vision_hot_ratio truth <= 1 /\
    ao_base_lat ao - ao_lat_delta ao <= tr_lat truth
      <= ao_base_lat ao + ao_lat_delta ao /\
    ao_base_lon ao - ao_lon_delta ao <= tr_lon truth
      <= ao_base_lon ao + ao_lon_delta ao.
Proof.
  intros Huniform Henvp Hao Hlat Hlon.
  destruct (generate_truth_spec Rng rng_uniform rng_normal
              (fun lo hi x => lo <= hi -> lo <= x <= hi) any3
              Huniform (fun _ _ _ => I) state env envelope ao s Henvp Hao)
    as (truth & s' & Hrun & He & Hs & Hc & Hfacts).
  exists truth, s'. split; [exact Hrun |].
  split; [exact He |]. split; [exact Hs |]. split; [exact Hc |].
  destruct Hfacts as (Hm & Hv & Ha & Hq & Ht & _ & Hth & Hciv & _ & Hhot &
                      u_lat & u_lon & Hu_lat & Hu_lon & -> & ->).
  pose proof (ENVELOPES_positive _ _ Henvp) as (Hmach & _ & _).
  specialize (Hu_lat ltac:(lra)). specialize (Hu_lon ltac:(lra)).
  repeat split; try lra; try tauto; rewrite Hv; nra.
Qed.

(** X14.  Before anything is simulated, [step] can fail in three more
    ways, each leaving the state, the engine and the clock exactly as
    they were: with [ValueError] when [rng_seed + tick + 1] is negative,
    with the [KeyError] of the envelope name when [ENVELOPES] does not
    hold it, and with [AttributeError] when no area of operation is
    set. *)
Theorem step_fails_before_sensing (engine : StepEngine)
    (state : EngineState) (clk : Clock) (env : EnvProfile) :
  dict_index ENVIRONMENTS (st_env_name state) = Ok env ->
  ((st_rng_seed state + st_tick state + 1 < 0)%Z ->
   step_ engine state clk = (Raise ValueError, (engine, state, clk))) /\
  ((0 <= st_rng_seed state + st_tick state + 1)%Z ->
   dict_find ENVELOPES (st_envelope_name state) = None ->
   step_ engine state clk =
   (Raise (KeyError (st_envelope_name state)), (engine, state, clk))) /\
  ((0 <= st_rng_seed state + st_tick state + 1)%Z ->
   dict_find ENVELOPES (st_envelope_name state) <> None ->
   st_ao state = None ->
   step_ engine state clk = (Raise AttributeError, (engine, state, clk))).
Proof.
  intro Henv. unfold step. rewrite Henv. repeat split.
  - intro Hneg. rewrite (proj2 (Z.ltb_lt _ 0) Hneg). reflexivity.
  - intros Hseed Hnone. rewrite (proj2 (Z.ltb_ge _ 0) Hseed).
    unfold step_body.
    cbv beta iota zeta
        delta [bind lift get_engine get_state _generate_truth dict_index].
    cbn [fst snd s_rng s_engine s_state s_clock].
    rewrite Hnone. reflexivity.
  - intros Hseed Hsome Hao. rewrite (proj2 (Z.ltb_ge _ 0) Hseed).
    unfold step_body.
    cbv beta iota zeta
        delta [bind ret lift get_engine get_state uniform normal draw
               _generate_truth dict_index].
    cbn [fst snd s_rng s_engine s_state s_clock].
    rewrite Hao.
    destruct (dict_find ENVELOPES (st_envelope_name state)) as [envp |];
      [| congruence].
    repeat match goal with
           | |- context [rng_uniform ?lo ?hi ?g] =>
               destruct (rng_uniform lo hi g)
           | |- context [rng_normal ?mu ?sigma ?g] =>
               destruct (rng_normal mu sigma g)
           end;
      cbn [fst snd s_rng s_engine s_state s_clock].
    reflexivity.
Qed.

End TickProperties.

Lemma simulate_all_inventory_witness :
  exists ms s',
    simulate_all FixedRng fixed_normal fixed_random (fresh_state "weighted")
      sample_truth (mkEnvProfile "Clear" 120 40 0.0 0.0 0.0 0.0)
      (fresh_store "weighted") = (Ok ms, s') /\
    NoDup (map m_sensor_id ms).
Proof.
  destruct (simulate_all_inventory FixedRng fixed_normal fixed_random
              (fresh_state "weighted") sample_truth
              (mkEnvProfile "Clear" 120 40 0.0 0.0 0.0 0.0)
              (fresh_store "weighted"))
    as (ms & s' & Hrun & _ & _ & _ & _ & Hnd & _).
  - simpl. lia.
  - exists ms, s'. split; assumption.
Defined.

Lemma truth_stays_in_envelope_and_area_witness :
  exists truth s',
    _generate_truth FixedRng fixed_uniform fixed_normal
      (fresh_state "weighted")
      (mkEnvProfile "Clear" 120 40 0.0 0.0 0.0 0.0)
      (fresh_store "weighted") = (Ok truth, s') /\
    49.9135 <= tr_lat truth <= 50.0735.
Proof.
  destruct (truth_stays_in_envelope_and_area FixedRng fixed_uniform
              fixed_normal (fresh_state "weighted")
              (mkEnvProfile "Clear" 120 40 0.0 0.0 0.0 0.0)
              (mkEnvelopePreset "Nominal Demo Flight" 1.8 650 4.5 0.78 300
                 "Balanced flight envelope")
              (mkAOConfig "Kharkiv Region" 49.9935 36.2304 0.08 0.12)
              (fresh_store "weighted"))
    as (truth & s' & Hrun & _ & _ & _ & _ & _ & _ & _ & _ & _ & _ & _ & _
        & Hlat & _).
  - intros lo hi g Hle. simpl. lra.
  - reflexivity.
  - reflexivity.
  - simpl. lra.
  - simpl. lra.
  - exists truth, s'. split; [exact Hrun |]. simpl in Hlat. lra.
Defined.

Lemma step_fails_before_sensing_witness :
  fixed_step (engine_with_ema 0.9)
    (set_envelope_name (fresh_state "weighted") "Unlisted Envelope")
    (stopped_clock "2026-01-01T00:00:00Z") =
  (Raise (KeyError "Unlisted Envelope"),
   (engine_with_ema 0.9,
    set_envelope_name (fresh_state "weighted") "Unlisted Envelope",
    stopped_clock "2026-01-01T00:00:00Z")).
Proof.
  apply (proj1 (proj2 (step_fails_before_sensing
                         FixedRng fixed_default_rng fixed_uniform fixed_normal
                         fixed_random (fun _ => "f") (fun s => s) (fun s => s)
                         (engine_with_ema 0.9)
                         (set_envelope_name (fresh_state "weighted")
                            "Unlisted Envelope")
                         (stopped_clock "2026-01-01T00:00:00Z")
                         (mkEnvProfile "Clear" 120 40 0.0 0.0 0.0 0.0)
                         eq_refl))).
  - simpl. lia.
  - reflexivity.
Defined.

(** ** Bounded buffers *)

Lemma Forall_skipn_keep {A} (P : A -> Prop) (k : nat) (l : list A) :
  Forall P l -> Forall P (skipn k l).
Proof.
  intro H. rewrite <- (firstn_skipn k l) in H.
  apply Forall_app in H. tauto.
Qed.

Lemma Forall_deque_append {A} (P : A -> Prop) (maxlen : nat) (d : list A)
    (x : A) :
  Forall P d -> P x -> Forall P (deque_append maxlen d x).
Proof.
  intros Hd Hx. unfold deque_append. apply Forall_skipn_keep.
  apply Forall_app. split; [exact Hd | constructor; [exact Hx | constructor]].
Qed.

Lemma Forall_deque_extend {A} (P : A -> Prop) (maxlen : nat) (xs : list A) :
  forall d,
    Forall P d -> Forall P xs ->
    Forall P (fold_left (deque_append maxlen) xs d).
Proof.
  induction xs as [| x xs IH]; intros d Hd Hxs; cbn [fold_left];
    [exact Hd |].
  inversion Hxs; subst. apply IH; [| assumption].
  now apply Forall_deque_append.
Qed.

(** A bounded buffer that is extended holds the last [maxlen] elements
    of what it held followed by what was appended. *)
Lemma deque_extend_suffix {A} (maxlen : nat) (xs : list A) :
  forall d,
    (List.length d <= maxlen)%nat ->
    fold_left (deque_append maxlen) xs d =
    skipn (List.length d + List.length xs - maxlen) (d ++ xs).
Proof.
  induction xs as [| x xs IH]; intros d Hd; cbn [fold_left List.length].
  - rewrite app_nil_r.
    replace (List.length d + 0 - maxlen)%nat with 0%nat by lia. reflexivity.
  - rewrite IH by (rewrite deque_append_length; lia).
    rewrite deque_append_length. unfold deque_append.
    rewrite length_app. cbn [List.length].
    set (k := (List.length d + 1 - maxlen)%nat).
    assert (Hk : (k <= List.length (d ++ [x]))%nat)
      by (rewrite length_app; cbn [List.length]; lia).
    replace (skipn k (d ++ [x]) ++ xs) with (skipn k ((d ++ [x]) ++ xs)).
    + rewrite skipn_skipn, <- app_assoc. cbn [app]. f_equal. lia.
    + rewrite skipn_app.
      replace (k - List.length (d ++ [x]))%nat with 0%nat by lia.
      reflexivity.
Qed.

Lemma deque_extend_keeps_new {A} (maxlen : nat) (xs d : list A) :
  (List.length d <= maxlen)%nat ->
  (List.length xs <= maxlen)%nat ->
  exists kept,
    fold_left (deque_append maxlen) xs d = kept ++ xs /\
    (forall P : A -> Prop, Forall P d -> Forall P kept).
Proof.
  intros Hd Hxs. rewrite deque_extend_suffix by exact Hd.
  rewrite skipn_app.
  replace (List.length d + List.length xs - maxlen - List.length d)%nat
    with 0%nat by lia.
  eexists. split; [reflexivity |].
  intros P HP. now apply Forall_skipn_keep.
Qed.

Section StepEffects.

Variable Rng : Type.
Variable default_rng : Z -> Rng.
Variable rng_uniform : R -> R -> Rng -> R * Rng.
Variable rng_normal : R -> R -> Rng -> R * Rng.
Variable rng_random : Rng -> R * Rng.
Variable float_repr : R -> string.
Variable json_escape : string -> string.
Variable sha256_hexdigest : string -> string.

Local Abbreviation step_ :=
  (step Rng default_rng rng_uniform rng_normal rng_random
     float_repr json_escape sha256_hexdigest).
Local Abbreviation run_ :=
  (run Rng default_rng rng_uniform rng_normal rng_random
     float_repr json_escape sha256_hexdigest).
Local Abbreviation any3 := (fun _ _ _ : R => True).
Local Abbreviation any1 := (fun _ : R => True).

(** Every way [step] can go once its lookups succeed. *)
Lemma step_outcome (engine : StepEngine) (state : EngineState)
    (clk : Clock) (env : EnvProfile) (envelope : EnvelopePreset)
    (ao : AOConfig) :
  dict_index ENVIRONMENTS (st_env_name state) = Ok env ->
  dict_index ENVELOPES (st_envelope_name state) = Ok envelope ->
  st_ao state = Some ao ->
  step_ready engine state ->
  exists truth ms,
    tick_measurements any3 any1 state truth env ms /\
    let state1 := fold_left record_pure ms state in
    same_but_measurements state state1 /\
    st_meas_history state1 = recorded_history state ms /\
    match tick_fusion engine state ms with
    | Raise e =>
        step_ engine state clk =
        (Raise e, (engine, state1, reads (List.length ms) clk))
    | Ok fused =>
        exists audit g,
          FusedEstimate_ok fused = true /\
          build_audit_record float_repr json_escape sha256_hexdigest
            (st_tick state + 1)
            (utc_readings (reads (List.length ms) clk) 0)
            (select_measurements (se_config engine)
               (recorded_history state ms) (st_tick state + 1))
            fused = Ok audit /\
          0 <= raw_clarity envelope (physical_state_of truth) fused <= 1 /\
          step_ engine state clk =
          (Ok tt,
           (engine_after engine
              (raw_clarity envelope (physical_state_of truth) fused),
            state_after state1 fused audit
              (telemetry_record engine state truth ms fused g
                 (utc_readings (reads (S (List.length ms)) clk) 0)),
            reads (S (S (List.length ms))) clk))
    end.
Proof.
  intros Henv Henvp Hao Hready.
  destruct (step_trace_full Rng default_rng rng_uniform rng_normal rng_random
              float_repr json_escape sha256_hexdigest any3 any3 any1
              (fun _ _ _ => I) (fun _ _ _ => I) (fun _ => I)
              engine state clk env envelope ao Henv Henvp Hao Hready)
    as (truth & ms & _ & Hms & Hrun).
  exists truth, ms. split; [exact Hms |].
  cbv zeta in *.
  destruct (record_all_frame ms state) as [Hframe Hmeas].
  split; [exact Hframe |]. split; [exact Hmeas |].
  unfold tick_fusion, recorded_history. rewrite <- Hmeas.
  destruct (FusionEngine_fuse _ _ _) as [fused | e]; [| exact Hrun].
  destruct Hrun as (audit & g & Hok & Haudit & _ & Hstep).
  exists audit, g. split; [exact Hok |]. split; [exact Haudit |].
  split; [apply raw_clarity_bounds | exact Hstep].
Qed.

(** X15.  Once its lookups succeed, [step] raises exactly when the
    fusion over the buffer extended by the tick's five or six readings
    raises, and with the same error.  When the fusion returns an
    estimate, [step] returns, and the state it leaves has the tick
    advanced by one, the mission time by [dt_seconds], the estimate as
    [fused], one more audit record and one more telemetry record (each
    buffer dropping its oldest entry when full), both stamped with the new
    tick; the audit record carries the digest of the tick, the estimate
    and the selected measurements, and the telemetry record reports the
    estimate's latitude, longitude, altitude, confidence and surprise.
    The clock is read once per reading and twice more. *)
Theorem step_succeeds_iff_fusion_does (engine : StepEngine)
    (state : EngineState) (clk : Clock) (env : EnvProfile)
    (envelope : EnvelopePreset) (ao : AOConfig) :
  dict_index ENVIRONMENTS (st_env_name state) = Ok env ->
  dict_index ENVELOPES (st_envelope_name state) = Ok envelope ->
  st_ao state = Some ao ->
  step_ready engine state ->
  exists ms,
    (5 <= List.length ms <= 6)%nat /\
    (forall e,
        tick_fusion engine state ms = Raise e ->
        exists state',
          step_ engine state clk =
          (Raise e, (engine, state', reads (List.length ms) clk)) /\
          st_meas_history state' = recorded_history state ms) /\
    (forall fused,
        tick_fusion engine state ms = Ok fused ->
        exists engine' state' audit tel,
          step_ engine state clk =
          (Ok tt, (engine', state', reads (S (S (List.length ms))) clk)) /\
          se_config engine' = se_config engine /\
          st_tick state' = (st_tick state + 1)%Z /\
          st_mission_time_s state' =
            st_mission_time_s state + cfg_dt_seconds (se_config engine) /\
          st_fused state' = Some fused /\
          st_meas_history state' = recorded_history state ms /\
          st_audit_chain state' =
            deque_append (cfg_max_audit_history (st_config state))
              (st_audit_chain state) audit /\
          st_history state' =
            deque_append (cfg_max_telemetry_history (st_config state))
              (st_history state) tel /\
          ar_tick audit = (st_tick state + 1)%Z /\
          ar_sha256 audit =
            audit_digest float_repr json_escape sha256_hexdigest
              (st_tick state + 1)
              (utc_readings (reads (List.length ms) clk) 0)
              (select_measurements (se_config engine)
                 (recorded_history state ms) (st_tick state + 1))
              fused /\
          tel_tick tel = (st_tick state + 1)%Z /\
          tel_lat tel = fe_lat fused /\
          tel_lon tel = fe_lon fused /\
          tel_altitude_m tel = fe_altitude_m fused /\
          tel_fusion_conf tel = fe_fusion_conf fused /\
          tel_fusion_surprise tel = fe_surprise fused).
Proof.
  intros Henv Henvp Hao Hready.
  destruct (step_outcome engine state clk env envelope ao
              Henv Henvp Hao Hready)
    as (truth & ms & Hms & Hframe & Hmeas & Hrun).
  cbv zeta in *.
  exists ms.
  split; [exact (proj1 (tick_measurements_shape _ _ _ _ _ _ Hms)) |].
  unfold same_but_measurements in Hframe.
  destruct Hframe as (Hcfg & Htick & Hmt & _ & _ & _ & _ & _ & _ & _ & _ & _
                      & Hhist & Haudit & _).
  split.
  - intros e He. rewrite He in Hrun.
    eexists. split; [exact Hrun | exact Hmeas].
  - intros fused Hfused. rewrite Hfused in Hrun.
    destruct Hrun as (audit & g & _ & Hbuild & _ & Hstep).
    apply build_audit_record_inv in Hbuild as (Hat & _ & Hsha).
    eexists _, _, audit, _. split; [exact Hstep |].
    unfold state_after, telemetry_record.
    cbn [se_config engine_after st_tick st_mission_time_s st_fused
         st_meas_history st_audit_chain st_history st_config
         set_history set_mission_time_s set_tick set_audit_chain set_fused
         tel_tick tel_mission_time_s tel_lat tel_lon tel_altitude_m
         tel_fusion_conf tel_fusion_surprise].
    rewrite Hcfg, Hhist, Haudit, Hmeas.
    repeat split; assumption.
Qed.

Lemma step_keeps_run_ready (engine : StepEngine) (state : EngineState)
    (clk : Clock) (engine' : StepEngine) (state' : EngineState)
    (clk' : Clock) :
  run_ready engine state ->
  step_ engine state clk = (Ok tt, (engine', state', clk')) ->
  run_ready engine' state' /\
  same_scenario state state' /\
  se_config engine' = se_config engine /\
  st_tick state' = (st_tick state + 1)%Z /\
  st_mission_time_s state' =
    st_mission_time_s state + cfg_dt_seconds (se_config engine) /\
  List.length (st_history state') =
    Nat.min (S (List.length (st_history state)))
      (cfg_max_telemetry_history (st_config state)) /\
  List.length (st_audit_chain state') =
    Nat.min (S (List.length (st_audit_chain state)))
      (cfg_max_audit_history (st_config state)).
Proof.
  intros ((env & Henv) & (envp & Henvp) & (ao & Hao) & Hready & Hlt & Hla
          & Hlm & Hold) Hstep.
  destruct (step_outcome engine state clk env envp ao Henv Henvp Hao Hready)
    as (truth & ms & Hms & Hframe & Hmeas & Hrun).
  cbv zeta in *.
  destruct (tick_fusion engine state ms) as [fused | e];
    [| rewrite Hrun in Hstep; discriminate].
  destruct Hrun as (audit & g & _ & _ & Hraw & Hok).
  rewrite Hok in Hstep. injection Hstep as <- <- _.
  unfold same_but_measurements in Hframe.
  destruct Hframe as (Hcfg & Htick & Hmt & _ & Hst & Hrun_id & Hseed & Hao'
                      & Henv' & Henvp' & Hthr & Hema & Hhist & Haudit & _
                      & _ & Hstrat).
  destruct Hready as (R1 & R2 & R3 & R4 & R5 & R6).
  unfold run_ready, same_scenario, step_ready, state_after, telemetry_record.
  cbn [se_config se_clarity_calc crc_clarity_ema engine_after
       st_tick st_mission_time_s st_fused st_rng_seed st_run_id st_ao
       st_env_name st_envelope_name st_threshold_name st_clarity_ema
       st_fusion_strategy_name st_mission_stage_tick
       st_meas_history st_audit_chain st_history st_config
       set_history set_mission_time_s set_tick set_audit_chain set_fused
       tel_tick tel_mission_time_s].
  rewrite Hcfg, Hhist, Haudit, Hmeas, Hseed, Hao', Henv', Henvp', Hst,
    Hrun_id, Hthr, Hema, Hstrat.
  rewrite !deque_append_length.
  assert (Hnew : Forall (fun m => (m_tick m <= st_tick state + 1)%Z /\
                                  0 <= m_latency_ms m)
                   (recorded_history state ms)).
  { apply Forall_deque_extend.
    - eapply Forall_impl; [| exact Hold]. intros m [Ht Hl].
      split; [lia | exact Hl].
    - destruct Hms as (link & imu & baro & gnss & eoir & tail & -> &
                       ((T1 & _ & _ & V1 & _) & _) &
                       ((T2 & _ & _ & V2 & _) & _) &
                       ((T3 & _ & _ & V3 & _) & _) &
                       ((T4 & _ & _ & V4 & _) & _) &
                       ((T5 & _ & _ & V5 & _) & _) & u & _ & Htail).
      apply SensorMeasurement_ok_bounds in V1 as (_ & _ & ?).
      apply SensorMeasurement_ok_bounds in V2 as (_ & _ & ?).
      apply SensorMeasurement_ok_bounds in V3 as (_ & _ & ?).
      apply SensorMeasurement_ok_bounds in V4 as (_ & _ & ?).
      apply SensorMeasurement_ok_bounds in V5 as (_ & _ & ?).
      repeat (constructor; [split; [lia | assumption] |]).
      destruct (Rltb u 0.55).
      + destruct Htail as (radar & -> & (T6 & _ & _ & V6 & _) & _).
        apply SensorMeasurement_ok_bounds in V6 as (_ & _ & ?).
        constructor; [split; [lia | assumption] | constructor].
      + subst tail. constructor. }
  assert (Hlen : (List.length (recorded_history state ms)
                  <= cfg_max_measurement_history (st_config state))%nat).
  { unfold recorded_history. rewrite deque_extend_length by exact Hlm.
    apply Nat.le_min_r. }
  repeat split; try (eexists; eassumption); try assumption; try lia;
    try lra; try apply Nat.le_min_r.
Qed.

(** The invariant of a run, by induction on the number of steps. *)
Lemma run_invariant (n : nat) :
  forall engine state clk engine' state' clk',
    run_ready engine state ->
    run_ n engine state clk = (Ok tt, (engine', state', clk')) ->
    run_ready engine' state' /\
    same_scenario state state' /\
    se_config engine' = se_config engine /\
    st_tick state' = (st_tick state + Z.of_nat n)%Z /\
    st_mission_time_s state' =
      Nat.iter n (fun t => t + cfg_dt_seconds (se_config engine))
        (st_mission_time_s state) /\
    List.length (st_history state') =
      Nat.min (List.length (st_history state) + n)
        (cfg_max_telemetry_history (st_config state)) /\
    List.length (st_audit_chain state') =
      Nat.min (List.length (st_audit_chain state) + n)
        (cfg_max_audit_history (st_config state)) /\
    0 <= crc_clarity_ema (se_clarity_calc engine') <= 1.
Proof.
  induction n as [| n IH];
    intros engine state clk engine' state' clk' Hready Hrun.
  - cbn [run] in Hrun. injection Hrun as <- <- <-.
    pose proof Hready as (_ & _ & _ & (_ & _ & _ & _ & _ & Hema) & Hlt & Hla
                          & _ & _).
    split; [exact Hready |].
    split; [unfold same_scenario; repeat split |].
    split; [reflexivity |].
    split; [cbn [Z.of_nat]; lia |].
    split; [reflexivity |].
    split; [lia |]. split; [lia | exact Hema].
  - cbn [run] in Hrun.
    destruct (step_ engine state clk) as [[[] | e] [[engine1 state1] clk1]]
      eqn:Hstep; [| discriminate].
    destruct (step_keeps_run_ready engine state clk engine1 state1 clk1
                Hready Hstep)
      as (Hready1 & Hsame1 & Hcfg1 & Htick1 & Hmt1 & Hlt1 & Hla1).
    destruct (IH engine1 state1 clk1 engine' state' clk' Hready1 Hrun)
      as (Hready' & Hsame' & Hcfg' & Htick' & Hmt' & Hlt' & Hla' & Hema').
    unfold same_scenario in *.
    destruct Hsame1 as (S1 & S2 & S3 & S4 & S5 & S6 & S7 & S8 & S9).
    destruct Hsame' as (T1 & T2 & T3 & T4 & T5 & T6 & T7 & T8 & T9).
    split; [exact Hready' |].
    split; [repeat split; congruence |].
    split; [congruence |].
    split; [rewrite Htick', Htick1; lia |].
    split; [rewrite Hmt', Hmt1, Hcfg1, Nat.iter_succ_r; reflexivity |].
    split; [rewrite Hlt', Hlt1, S1; lia |].
    split; [rewrite Hla', Hla1, S1; lia | exact Hema'].
Qed.

(** X16.  A run of [n] steps that all return, started from a state
    that is ready for a run (its environment and its envelope are known
    and its area is set; [tick], [rng_seed], [mission_stage_tick] and
    [mission_time_s] are not negative; [dt_seconds >= 0]; the
    calculator's memory is in [0, 1]; the three buffers are within their
    bounds; the recorded measurements have a tick no later than the
    state's and a latency that is not negative), leaves the tick advanced
    by [n] and the mission time advanced by [n] successive additions of
    [dt_seconds] (which in binary64 is not the one product
    [n * dt_seconds]); the telemetry and
    the audit buffer have grown by one record per step up to their
    configured bounds; the scenario (configuration, seed, run id, area,
    names, strategy) and the state's own [clarity_ema] are untouched; the
    calculator's memory is still in [0, 1]; and every measurement in the
    buffer carries a tick no later than the state's, so the state is fit
    for the next step. *)
Theorem run_keeps_clock_and_buffers_in_step (n : nat) :
  forall engine state clk engine' state' clk',
    run_ready engine state ->
    run_ n engine state clk = (Ok tt, (engine', state', clk')) ->
    run_ready engine' state' /\
    same_scenario state state' /\
    se_config engine' = se_config engine /\
    st_tick state' = (st_tick state + Z.of_nat n)%Z /\
    st_mission_time_s state' =
      Nat.iter n (fun t => t + cfg_dt_seconds (se_config engine))
        (st_mission_time_s state) /\
    List.length (st_history state') =
      Nat.min (List.length (st_history state) + n)
        (cfg_max_telemetry_history (st_config state)) /\
    List.length (st_audit_chain state') =
      Nat.min (List.length (st_audit_chain state) + n)
        (cfg_max_audit_history (st_config state)) /\
    0 <= crc_clarity_ema (se_clarity_calc engine') <= 1.
Proof. exact (run_invariant n). Qed.

End StepEffects.

Lemma fresh_state_run_ready (strategy : string) :
  run_ready (engine_with_ema 0.9) (fresh_state strategy).
Proof.
  unfold run_ready.
  split; [eexists; reflexivity |]. split; [eexists; reflexivity |].
  split; [eexists; reflexivity |].
  split; [apply fresh_state_ready; lra |].
  split; [apply Nat.le_0_l |]. split; [apply Nat.le_0_l |].
  split; [apply Nat.le_0_l | constructor].
Qed.

Lemma step_succeeds_iff_fusion_does_witness :
  exists ms,
    (5 <= List.length ms <= 6)%nat /\
    (forall e,
        tick_fusion (engine_with_ema 0.9) (fresh_state "kalman") ms
          = Raise e ->
        exists state',
          fixed_step (engine_with_ema 0.9) (fresh_state "kalman")
            (stopped_clock "2026-01-01T00:00:00Z") =
          (Raise e,
           (engine_with_ema 0.9, state',
            reads (List.length ms) (stopped_clock "2026-01-01T00:00:00Z"))) /\
          st_meas_history state' = recorded_history (fresh_state "kalman") ms).
Proof.
  destruct (step_succeeds_iff_fusion_does
              FixedRng fixed_default_rng fixed_uniform fixed_normal
              fixed_random (fun _ => "f") (fun s => s) (fun s => s)
              (engine_with_ema 0.9) (fresh_state "kalman")
              (stopped_clock "2026-01-01T00:00:00Z") _ _ _
              eq_refl eq_refl eq_refl
              (fresh_state_ready "kalman" 0.9 ltac:(lra)))
    as (ms & Hlen & Hraise & _).
  exists ms. split; [exact Hlen | exact Hraise].
Defined.

Lemma run_keeps_clock_and_buffers_in_step_witness :
  exists engine' state' clk',
    fixed_run 1 (engine_with_ema 0.9) (fresh_state "weighted")
      (stopped_clock "2026-01-01T00:00:00Z") = (Ok tt, (engine', state', clk')) /\
    st_tick state' = 1%Z /\
    List.length (st_history state') = 1%nat.
Proof.
  destruct (fresh_step_returns 0.9 (stopped_clock "2026-01-01T00:00:00Z")
              ltac:(lra))
    as (raw & audit & tel & state' & _ & Hstep & _).
  pose proof (run_one _ _ _ _ _ _ _ _ _ _ _ _ Hstep) as Hrun.
  destruct (run_keeps_clock_and_buffers_in_step
              FixedRng fixed_default_rng fixed_uniform fixed_normal
              fixed_random (fun _ => "f") (fun s => s) (fun s => s)
              1 _ _ _ _ _ _ (fresh_state_run_ready "weighted") Hrun)
    as (_ & _ & _ & Htick & _ & Hlen & _).
  eexists _, state', _. split; [exact Hrun |].
  split; [exact Htick |].
  rewrite Hlen. reflexivity.
Defined.

(** ** Fusion inside a tick *)

Lemma usable_not_dropped (m : SensorMeasurement) :
  m_dropped m = true -> usable m = false.
Proof. intro H. unfold usable. rewrite H. apply andb_false_r. Qed.

Lemma select_scan_front_then_last (cfg : FusionConfig) (T : Z) (gate : R)
    (front : list SensorMeasurement) (last : SensorMeasurement) :
  Forall (fun m => m_dropped m = false ->
                   Rleb (age_ms cfg T m) gate = true) front ->
  usable last = false ->
  filter usable (select_scan cfg T gate (front ++ [last])) =
  filter usable front.
Proof.
  intros Hfront Hlast.
  induction Hfront as [| m front Hm _ IH]; cbn [app select_scan filter].
  - destruct (m_dropped last); [reflexivity |].
    destruct (Rleb _ _); [| reflexivity].
    cbn [filter]. rewrite Hlast. reflexivity.
  - destruct (m_dropped m) eqn:Hd.
    + rewrite (usable_not_dropped m Hd). exact IH.
    + rewrite (Hm eq_refl). cbn [filter]. rewrite IH. reflexivity.
Qed.

Lemma engine_fuse_weighted (cfg : FusionConfig) (name : string)
    (history : list SensorMeasurement) (T : Z) :
  name <> "kalman" ->
  FusionEngine_fuse (FusionEngine_init cfg name) history T =
  WeightedFusion_fuse cfg (select_measurements cfg history T).
Proof.
  intro Hname. unfold FusionEngine_fuse.
  destruct (FusionEngine_init_strategy cfg name) as [-> ->].
  destruct (String.eqb_spec "kalman" name); [congruence | reflexivity].
Qed.

Lemma tick_inventory_link_first (T : Z) (ms : list SensorMeasurement) :
  tick_inventory T ms ->
  exists link rest,
    ms = link :: rest /\ m_sensor_type link = LINK /\
    Forall (fun m => m_sensor_type m <> LINK) rest.
Proof.
  intros [Hmap _].
  assert (Hpairs : exists tail,
             map (fun m => (m_sensor_id m, m_sensor_type m)) ms =
               ("LINK_1", LINK) :: tail /\
             Forall (fun p => snd p <> LINK) tail).
  { destruct Hmap as [-> | ->]; eexists; (split; [reflexivity |]);
      repeat (constructor; [discriminate |]); constructor. }
  destruct Hpairs as (tail & Hcons & Htail).
  destruct ms as [| link rest]; [discriminate |].
  cbn [map] in Hcons. injection Hcons as _ Hty Hrest.
  exists link, rest. split; [reflexivity |]. split; [exact Hty |].
  subst tail. clear -Htail.
  induction rest as [| m rest IH]; [constructor |].
  cbn [map] in Htail. inversion Htail; subst.
  constructor; [assumption | now apply IH].
Qed.

Lemma tick_selection_usable (cfg : FusionConfig) (T : Z)
    (ms : list SensorMeasurement) :
  tick_inventory T ms ->
  320 <= cfg_fusion_time_gate_ms cfg ->
  filter usable (select_measurements cfg ms T) = filter usable (rev ms).
Proof.
  intros Hinv Hgate.
  destruct (tick_inventory_link_first T ms Hinv)
    as (link & rest & -> & Hlink & Hrest).
  destruct Hinv as (_ & _ & Hall).
  inversion Hall as [| ? ? _ Hall']; subst.
  assert (Hunusable : usable link = false)
    by (unfold usable; rewrite Hlink; reflexivity).
  unfold select_measurements. cbn [rev].
  rewrite select_scan_front_then_last; [| | exact Hunusable].
  - rewrite filter_app. cbn [filter]. rewrite Hunusable.
    now rewrite app_nil_r.
  - apply Forall_rev. rewrite Forall_forall in *.
    intros m Hin Hd.
    destruct (Hall' m Hin) as (Ht & Hok & _ & _ & Hlat).
    apply SensorMeasurement_ok_bounds in Hok as (_ & _ & Hpos).
    apply Rleb_true_iff. rewrite age_ms_current by assumption.
    specialize (Hlat Hd (Hrest m Hin)). lra.
Qed.

Lemma distinct_ids_filter (keep : SensorMeasurement -> bool)
    (ms : list SensorMeasurement) (Hnd : NoDup (map m_sensor_id ms)) :
  NoDup (map m_sensor_id (filter keep ms)).
Proof.
  induction ms as [| m ms IH]; cbn [map filter]; [constructor |].
  cbn [map] in Hnd. inversion Hnd as [| ? ? Hnin Hnd']; subst.
  destruct (keep m); [| now apply IH].
  cbn [map]. constructor; [| now apply IH].
  intro Hin. apply Hnin.
  apply in_map_iff in Hin. destruct Hin as (y & Hy & Hin).
  apply filter_In in Hin. apply in_map_iff. exists y. tauto.
Qed.

(** What [fuse] makes of the readings of a tick. *)
Lemma tick_estimate (cfg : FusionConfig) (T : Z)
    (ms : list SensorMeasurement) (fused : FusedEstimate) :
  tick_inventory T ms ->
  WeightedFusion_fuse cfg (rev ms) = Ok fused ->
  let pos := filter usable (rev ms) in
  (pos = [] -> fused = fallback_record) /\
  (pos <> [] ->
   dict_keys (fe_sensor_contrib fused) = map m_sensor_id pos /\
   Rsum (dict_values (fe_sensor_contrib fused)) = 1 /\
   incl (dict_keys (fe_sensor_contrib fused))
     ["RADAR_1"; "EOIR_1"; "GNSS_A"] /\
   fe_used_meas_count fused = Z.of_nat (List.length pos)).
Proof.
  intros Hinv Hfuse pos. split.
  - intro Hnone. rewrite (fuse_no_usable cfg (rev ms) Hnone) in Hfuse.
    now injection Hfuse as <-.
  - intro Hne.
    rewrite (fuse_returns_fused_record cfg (rev ms) fused Hfuse Hne).
    fold pos. unfold fused_record.
    cbn [fe_sensor_contrib fe_used_meas_count].
    set (ws := normalize (map (_weight cfg) pos)).
    assert (Hlen : List.length (map m_sensor_id pos) = List.length ws)
      by (unfold ws; now rewrite normalize_length, !length_map).
    assert (Hnd : NoDup (map m_sensor_id pos)).
    { unfold pos. apply distinct_ids_filter. rewrite map_rev.
      apply NoDup_rev. exact (proj1 (proj2 Hinv)). }
    rewrite contrib_from_distinct by exact Hnd. cbn [app].
    rewrite dict_keys_combine, dict_values_combine by exact Hlen.
    split; [reflexivity |].
    split; [apply normalize_sum; unfold pos in *;
            destruct (filter usable (rev ms)); [congruence | discriminate] |].
    split; [| reflexivity].
    intros k Hk. apply in_map_iff in Hk. destruct Hk as (m & <- & Hm).
    apply filter_In in Hm. destruct Hm as [Hin Hu].
    apply in_rev in Hin.
    assert (Hp : In (m_sensor_id m, m_sensor_type m)
                   (map (fun m => (m_sensor_id m, m_sensor_type m)) ms))
      by (apply in_map_iff; exists m; tauto).
    unfold usable in Hu. apply andb_prop in Hu. destruct Hu as [Hty _].
    destruct Hinv as [[Hmap | Hmap] _]; rewrite Hmap in Hp; cbn [In] in Hp;
      repeat match type of Hp with
             | _ \/ _ => destruct Hp as [Hp | Hp]
             | False => contradiction
             | _ = _ => injection Hp as <- Hty'; rewrite <- Hty' in Hty;
                        first [discriminate Hty | cbn [In]; auto]
             end.
Qed.

Section TickFusion.

Variable Rng : Type.
Variable default_rng : Z -> Rng.
Variable rng_uniform : R -> R -> Rng -> R * Rng.
Variable rng_normal : R -> R -> Rng -> R * Rng.
Variable rng_random : Rng -> R * Rng.
Variable float_repr : R -> string.
Variable json_escape : string -> string.
Variable sha256_hexdigest : string -> string.

Local Abbreviation step_ :=
  (step Rng default_rng rng_uniform rng_normal rng_random
     float_repr json_escape sha256_hexdigest).

Lemma tick_selection_local (engine : StepEngine) (state : EngineState)
    (ms : list SensorMeasurement) :
  run_ready engine state ->
  tick_local engine state ->
  tick_inventory (st_tick state + 1) ms ->
  (5 <= List.length ms <= 6)%nat ->
  (exists kept, recorded_history state ms = kept ++ ms) /\
  select_measurements (se_config engine) (recorded_history state ms)
    (st_tick state + 1) =
  select_measurements (se_config engine) ms (st_tick state + 1).
Proof.
  intros (_ & _ & _ & Hready & _ & _ & Hlm & Hold)
         (Hgate & Hshort & Hname & Hroom) Hinv Hlen.
  destruct Hready as (_ & _ & _ & _ & Hdt & _).
  destruct (deque_extend_keeps_new
              (cfg_max_measurement_history (st_config state)) ms
              (st_meas_history state) Hlm ltac:(lia))
    as (kept & Hkept & Hforall).
  fold (recorded_history state ms) in Hkept.
  split; [exists kept; exact Hkept |].
  rewrite Hkept.
  apply select_measurements_drop_earlier; [exact Hdt | exact Hshort |].
  apply Hforall. eapply Forall_impl; [| exact Hold].
  intros m [Ht Hl]. split; [lia | exact Hl].
Qed.

Lemma tick_fusion_local (engine : StepEngine) (state : EngineState)
    (ms : list SensorMeasurement) :
  run_ready engine state ->
  tick_local engine state ->
  tick_inventory (st_tick state + 1) ms ->
  (5 <= List.length ms <= 6)%nat ->
  (exists kept, recorded_history state ms = kept ++ ms) /\
  tick_fusion engine state ms =
  WeightedFusion_fuse (se_config engine) (rev ms).
Proof.
  intros Hready Hlocal Hinv Hlen.
  destruct (tick_selection_local engine state ms Hready Hlocal Hinv Hlen)
    as [Hkept Hsel].
  split; [exact Hkept |].
  destruct Hlocal as (Hgate & _ & Hname & _).
  unfold tick_fusion. rewrite engine_fuse_weighted by exact Hname.
  rewrite Hsel.
  apply fuse_same_usable. now apply tick_selection_usable.
Qed.

(** X17.  On a state that is ready for a run (its environment and its
    envelope are known and its area is set; [tick], [rng_seed],
    [mission_stage_tick] and [mission_time_s] are not negative;
    [dt_seconds >= 0]; the calculator's memory is in [0, 1]; the three
    buffers are within their bounds; the recorded measurements have a
    tick no later than the state's and a latency that is not negative),
    with [320 <= fusion_time_gate_ms < 1000 * dt_seconds] (the default
    350 ms at one tick per second), a strategy name other than "kalman"
    and [max_measurement_history >= 6], a step that returns has fused the
    readings of its own tick and nothing else: the estimate it stores is
    what
    [WeightedFusion.fuse] returns on the tick's readings, most recent
    first.  So the estimate is the fallback when the tick has no usable
    reading, and otherwise its contributions are keyed by the usable
    readings' sensor ids (among RADAR_1, EOIR_1 and GNSS_A, each at most
    once) and add up to 1 within 1e-9. *)
Theorem step_fuses_its_own_tick (engine : StepEngine) (state : EngineState)
    (clk : Clock) (engine' : StepEngine) (state' : EngineState)
    (clk' : Clock) :
  run_ready engine state ->
  tick_local engine state ->
  step_ engine state clk = (Ok tt, (engine', state', clk')) ->
  exists ms kept fused,
    tick_inventory (st_tick state + 1) ms /\
    st_meas_history state' = kept ++ ms /\
    st_fused state' = Some fused /\
    WeightedFusion_fuse (se_config engine) (rev ms) = Ok fused /\
    (filter usable (rev ms) = [] -> fused = fallback_record) /\
    (filter usable (rev ms) <> [] ->
     dict_keys (fe_sensor_contrib fused) =
       map m_sensor_id (filter usable (rev ms)) /\
     Rabs (Rsum (dict_values (fe_sensor_contrib fused)) - 1) <= 1e-9 /\
     incl (dict_keys (fe_sensor_contrib fused))
       ["RADAR_1"; "EOIR_1"; "GNSS_A"] /\
     fe_used_meas_count fused =
       Z.of_nat (List.length (filter usable (rev ms)))).
Proof.
  intros Hready Hlocal Hstep.
  pose proof Hready as ((env & Henv) & (envp & Henvp) & (ao & Hao) & Hsr & _).
  destruct (step_outcome Rng default_rng rng_uniform rng_normal rng_random
              float_repr json_escape sha256_hexdigest
              engine state clk env envp ao Henv Henvp Hao Hsr)
    as (truth & ms & Hms & _ & Hmeas & Hrun).
  cbv zeta in *.
  pose proof (tick_measurements_inventory _ _ _ _ _ _ Hms) as Hinv.
  pose proof (proj1 (tick_measurements_shape _ _ _ _ _ _ Hms)) as Hlen.
  destruct (tick_fusion_local engine state ms Hready Hlocal Hinv Hlen)
    as [(kept & Hkept) Hlocalf].
  rewrite Hlocalf in Hrun.
  destruct (WeightedFusion_fuse (se_config engine) (rev ms))
    as [fused | e] eqn:Hfuse; [| rewrite Hrun in Hstep; discriminate].
  destruct Hrun as (audit & g & _ & _ & _ & Hok).
  rewrite Hok in Hstep. injection Hstep as _ <- _.
  exists ms, kept, fused.
  split; [exact Hinv |].
  split; [cbn; rewrite Hmeas; exact Hkept |].
  split; [reflexivity |]. split; [exact Hfuse |].
  destruct (tick_estimate (se_config engine) _ ms fused Hinv Hfuse)
    as [Hnone Hsome].
  split; [exact Hnone |].
  intro Hne. destruct (Hsome Hne) as (Hkeys & Hsum & Hincl & Hcount).
  split; [exact Hkeys |].
  split; [rewrite Hsum; replace (1 - 1) with 0 by lra;
          rewrite Rabs_R0; lra |].
  split; [exact Hincl | exact Hcount].
Qed.

End TickFusion.

Lemma fresh_state_tick_local :
  tick_local (engine_with_ema 0.9) (fresh_state "weighted").
Proof.
  unfold tick_local. simpl.
  split; [lra |]. split; [lra |]. split; [discriminate |].
  apply Nat.leb_le. reflexivity.
Qed.

Lemma step_fuses_its_own_tick_witness :
  exists engine' state' clk' ms kept fused,
    fixed_step (engine_with_ema 0.9) (fresh_state "weighted")
      (stopped_clock "2026-01-01T00:00:00Z") =
      (Ok tt, (engine', state', clk')) /\
    st_meas_history state' = kept ++ ms /\
    st_fused state' = Some fused /\
    WeightedFusion_fuse default_FusionConfig (rev ms) = Ok fused.
Proof.
  destruct (fresh_step_returns 0.9 (stopped_clock "2026-01-01T00:00:00Z")
              ltac:(lra))
    as (raw & audit & tel & state' & _ & Hstep & _).
  destruct (step_fuses_its_own_tick
              FixedRng fixed_default_rng fixed_uniform fixed_normal
              fixed_random (fun _ => "f") (fun s => s) (fun s => s)
              _ _ _ _ _ _ (fresh_state_run_ready "weighted")
              fresh_state_tick_local Hstep)
    as (ms & kept & fused & _ & Hhist & Hfused & Hfuse & _).
  eexists _, state', _, ms, kept, fused.
  split; [exact Hstep |]. split; [exact Hhist |].
  split; [exact Hfused | exact Hfuse].
Defined.

(** ** A tick without a position fix *)

Lemma script_truth_keeps_rng (state : EngineState) (env : EnvProfile)
    (s : Store ScriptRng) :
  s_rng ScriptRng
    (snd (_generate_truth ScriptRng script_uniform script_normal
            state env s)) = s_rng ScriptRng s.
Proof.
  unfold _generate_truth.
  cbv beta iota zeta
      delta [bind ret lift uniform normal draw script_uniform script_normal].
  cbn [fst snd s_rng s_engine s_state s_clock].
  destruct (dict_index ENVELOPES (st_envelope_name state)) as [envp | e];
    [| reflexivity].
  cbn [fst snd s_rng s_engine s_state s_clock].
  destruct (st_ao state) as [ao |]; reflexivity.
Qed.

(** Validates the next measurement a simulated tick builds. *)
Ltac build_reading :=
  match goal with
  | |- context [new_SensorMeasurement ?m] =>
      let Hok := fresh "Hok" in
      assert (Hok : SensorMeasurement_ok m = true)
        by (apply SensorMeasurement_ok_intro;
            cbn [m_tick m_quality m_latency_ms m_R];
            [ lia | clip_facts; lra | clip_facts; lra | reflexivity ]);
      unfold new_SensorMeasurement at 1; rewrite Hok; clear Hok;
      cbv beta iota zeta;
      cbn [fst snd s_rng s_engine s_state s_clock m_meta dict_get
           String.eqb Ascii.eqb Bool.eqb json_float]
  end.

Lemma script_tick_is_blind (state : EngineState) (truth : Truth)
    (engine : StepEngine) (st : EngineState) (clk : Clock) :
  (0 <= st_tick state + 1)%Z ->
  exists ms s',
    simulate_all ScriptRng script_normal script_random state truth clear_env
      {| s_engine := engine; s_state := st; s_clock := clk;
         s_rng := blind_script |} = (Ok ms, s') /\
    Forall (fun m => usable m = false) ms.
Proof.
  intro Htick.
  unfold simulate_all, simulate_link, simulate_imu, simulate_baro,
    simulate_gnss, simulate_eoir, blind_script, clear_env.
  cbv beta iota zeta
      delta [bind ret normal3 normal random uniform draw state_utc lift utc
             script_normal script_random].
  cbn [fst snd s_rng s_engine s_state s_clock env_latency_base
       env_latency_jitter env_imu_drift_bias env_gnss_jam_factor
       env_eoir_degrade].
  rewrite (clip_id (120 + 0) 40 800) by lra.
  rewrite (proj2 (Rltb_false_iff 0.99 (0.02 + 0.08 * ((120 + 0) / 600.0))))
    by lra.
  rewrite (proj2 (Rltb_true_iff 0 (0.02 + 0.0 * 0.25))) by lra.
  build_reading. build_reading. build_reading.
  build_reading.
  rewrite (proj2 (Rltb_true_iff 0 (0.03 + 0.0 * 0.22 + 0.0 * 0.15))) by lra.
  build_reading.
  rewrite (proj2 (Rltb_false_iff 0.99 0.55)) by lra.
  do 2 eexists. split; [reflexivity |].
  repeat constructor.
Qed.

Lemma app_same_length_suffix {A} (l1 l2 l1' l2' : list A) :
  l1 ++ l2 = l1' ++ l2' -> List.length l2 = List.length l2' -> l2 = l2'.
Proof.
  intros Heq Hlen.
  assert (Hl : List.length l1 = List.length l1').
  { apply (f_equal (@List.length A)) in Heq.
    rewrite !length_app in Heq. lia. }
  apply (f_equal (skipn (List.length l1))) in Heq.
  rewrite skipn_app, skipn_all, Nat.sub_diag in Heq.
  rewrite Hl, skipn_app, skipn_all, Nat.sub_diag in Heq.
  exact Heq.
Qed.

(** The readings of a tick are the last five or six entries of the
    buffer, and only one suffix of the buffer has their shape. *)
Lemma tick_inventory_suffix_unique (T : Z)
    (kept ms kept' ms' : list SensorMeasurement) :
  tick_inventory T ms -> tick_inventory T ms' ->
  kept ++ ms = kept' ++ ms' -> ms = ms'.
Proof.
  intros (Hids & _) (Hids' & _) Heq.
  assert (Hlast : forall l : list SensorMeasurement,
             map (fun m => (m_sensor_id m, m_sensor_type m)) l =
               [("LINK_1", LINK); ("IMU_1", IMU); ("BARO_1", BARO);
                ("GNSS_A", GNSS); ("EOIR_1", EOIR)] ->
             exists front m, l = front ++ [m] /\ m_sensor_id m = "EOIR_1").
  { intros l Hl.
    destruct l as [| a [| b [| c [| d [| e [| f l]]]]]]; try discriminate Hl.
    exists [a; b; c; d], e. split; [reflexivity |].
    cbn [map] in Hl. now injection Hl as _ _ _ _ _ _ _ _ He _. }
  assert (Hlast' : forall l : list SensorMeasurement,
             map (fun m => (m_sensor_id m, m_sensor_type m)) l =
               [("LINK_1", LINK); ("IMU_1", IMU); ("BARO_1", BARO);
                ("GNSS_A", GNSS); ("EOIR_1", EOIR); ("RADAR_1", RADAR)] ->
             exists front m, l = front ++ [m] /\ m_sensor_id m = "RADAR_1").
  { intros l Hl.
    destruct l as [| a [| b [| c [| d [| e [| f [| g l]]]]]]];
      try discriminate Hl.
    exists [a; b; c; d; e], f. split; [reflexivity |].
    cbn [map] in Hl. now injection Hl as _ _ _ _ _ _ _ _ _ _ Hf _. }
  destruct Hids as [H5 | H6], Hids' as [H5' | H6'].
  - apply (app_same_length_suffix kept ms kept' ms' Heq).
    apply (f_equal (@List.length _)) in H5, H5'.
    rewrite length_map in H5, H5'. congruence.
  - destruct (Hlast ms H5) as (front & m & -> & Hm).
    destruct (Hlast' ms' H6') as (front' & m' & -> & Hm').
    rewrite !app_assoc in Heq. apply app_inj_tail in Heq.
    destruct Heq as [_ <-]. rewrite Hm in Hm'. discriminate Hm'.
  - destruct (Hlast' ms H6) as (front & m & -> & Hm).
    destruct (Hlast ms' H5') as (front' & m' & -> & Hm').
    rewrite !app_assoc in Heq. apply app_inj_tail in Heq.
    destruct Heq as [_ <-]. rewrite Hm in Hm'. discriminate Hm'.
  - apply (app_same_length_suffix kept ms kept' ms' Heq).
    apply (f_equal (@List.length _)) in H6, H6'.
    rewrite length_map in H6, H6'. congruence.
Qed.

Section BlindTick.

Variable Rng : Type.
Variable default_rng : Z -> Rng.
Variable rng_uniform : R -> R -> Rng -> R * Rng.
Variable rng_normal : R -> R -> Rng -> R * Rng.
Variable rng_random : Rng -> R * Rng.
Variable float_repr : R -> string.
Variable json_escape : string -> string.
Variable sha256_hexdigest : string -> string.

Local Abbreviation step_ :=
  (step Rng default_rng rng_uniform rng_normal rng_random
     float_repr json_escape sha256_hexdigest).

(** X18.  On a state that is ready for a run (its environment and its
    envelope are known and its area is set; [tick], [rng_seed],
    [mission_stage_tick] and [mission_time_s] are not negative;
    [dt_seconds >= 0]; the calculator's memory is in [0, 1]; the three
    buffers are within their bounds; the recorded measurements have a
    tick no later than the state's and a latency that is not negative),
    with [320 <= fusion_time_gate_ms < 1000 * dt_seconds], a strategy
    name other than "kalman" and [max_measurement_history >= 6]: when the
    readings a step recorded
    for its tick, the last five or six entries of the measurement buffer
    it leaves, hold no usable position reading (the GNSS and the EO/IR
    reading are dropped and there is no radar reading), the step has not
    failed and has not held the last fix: it returned, it stored the
    fallback estimate, and its telemetry record reports latitude,
    longitude and altitude 0 with confidence 0.1 and surprise 1. *)
Theorem blind_tick_reports_the_fallback (engine : StepEngine)
    (state : EngineState) (clk : Clock) (r : result unit)
    (engine' : StepEngine) (state' : EngineState) (clk' : Clock)
    (kept ms : list SensorMeasurement) :
  run_ready engine state ->
  tick_local engine state ->
  step_ engine state clk = (r, (engine', state', clk')) ->
  tick_inventory (st_tick state + 1) ms ->
  st_meas_history state' = kept ++ ms ->
  Forall (fun m => usable m = false) ms ->
  r = Ok tt /\
  st_fused state' = Some fallback_record /\
  exists tel,
    st_history state' =
      deque_append (cfg_max_telemetry_history (st_config state))
        (st_history state) tel /\
    tel_lat tel = 0 /\ tel_lon tel = 0 /\ tel_altitude_m tel = 0 /\
    tel_fusion_conf tel = 0.1 /\ tel_fusion_surprise tel = 1.
Proof.
  intros Hready Hlocal Hstep Hinv Hhist Hblind.
  pose proof Hready as ((env & Henv) & (envp & Henvp) & (ao & Hao) & Hsr & _).
  destruct (step_outcome Rng default_rng rng_uniform rng_normal rng_random
              float_repr json_escape sha256_hexdigest
              engine state clk env envp ao Henv Henvp Hao Hsr)
    as (truth & ms0 & Hms & Hframe & Hmeas & Hrun).
  cbv zeta in *.
  pose proof (tick_measurements_inventory _ _ _ _ _ _ Hms) as Hinv0.
  pose proof (proj1 (tick_measurements_shape _ _ _ _ _ _ Hms)) as Hlen.
  destruct (tick_fusion_local engine state ms0 Hready Hlocal Hinv0 Hlen)
    as [(kept0 & Hkept) Hlocalf].
  rewrite Hlocalf in Hrun.
  assert (Hsame : st_meas_history state' = kept0 ++ ms0).
  { rewrite <- Hkept, <- Hmeas.
    destruct (WeightedFusion_fuse (se_config engine) (rev ms0))
      as [fused | e].
    - destruct Hrun as (audit & g & _ & _ & _ & Hok).
      rewrite Hok in Hstep. injection Hstep as _ _ <- _. reflexivity.
    - rewrite Hrun in Hstep. injection Hstep as _ _ <- _. reflexivity. }
  rewrite Hhist in Hsame.
  pose proof (tick_inventory_suffix_unique _ _ _ _ _ Hinv Hinv0 Hsame)
    as <-.
  assert (Hnone : filter usable (rev ms) = []).
  { apply Forall_rev in Hblind. clear -Hblind.
    induction Hblind as [| m l Hm _ IH]; [reflexivity |].
    cbn [filter]. rewrite Hm. exact IH. }
  rewrite (fuse_no_usable _ _ Hnone) in Hrun.
  destruct Hrun as (audit & g & _ & _ & _ & Hok).
  rewrite Hok in Hstep. injection Hstep as <- _ <- _.
  unfold same_but_measurements in Hframe.
  destruct Hframe as (Hcfg & _ & _ & _ & _ & _ & _ & _ & _ & _ & _ & _
                      & Hhistory & _).
  split; [reflexivity |]. split; [reflexivity |].
  eexists. split.
  { unfold state_after.
    cbn [st_history st_config set_history set_mission_time_s set_tick
         set_audit_chain set_fused].
    rewrite Hcfg, Hhistory. reflexivity. }
  unfold telemetry_record.
  cbn [tel_lat tel_lon tel_altitude_m tel_fusion_conf tel_fusion_surprise
       fallback_record fe_lat fe_lon fe_altitude_m fe_fusion_conf
       fe_surprise].
  repeat split; lra.
Qed.

End BlindTick.

Lemma blind_tick_reports_the_fallback_witness :
  exists engine' state' clk',
    blind_step (engine_with_ema 0.9) (fresh_state "weighted")
      (stopped_clock "2026-01-01T00:00:00Z") =
      (Ok tt, (engine', state', clk')) /\
    st_fused state' = Some fallback_record /\
    exists tel,
      st_history state' = deque_append 600 [] tel /\
      tel_lat tel = 0 /\ tel_fusion_conf tel = 0.1.
Proof.
  set (engine := engine_with_ema 0.9).
  set (state := fresh_state "weighted").
  set (clk := stopped_clock "2026-01-01T00:00:00Z").
  assert (Hready : run_ready engine state) by apply fresh_state_run_ready.
  assert (Hlocal : tick_local engine state) by apply fresh_state_tick_local.
  destruct (step_trace_tied ScriptRng blind_default_rng script_uniform
              script_normal script_random (fun _ => "f") (fun s => s)
              (fun s => s)
              (fun _ _ _ => True) (fun _ _ _ => True) (fun _ => True)
              (fun _ _ _ => I) (fun _ _ _ => I) (fun _ => I)
              engine state clk clear_env
              (mkEnvelopePreset "Nominal Demo Flight" 1.8 650 4.5 0.78 300
                 "Balanced flight envelope")
              (mkAOConfig "Kharkiv Region" 49.9935 36.2304 0.08 0.12)
              eq_refl eq_refl eq_refl
              (fresh_state_ready "weighted" 0.9 ltac:(lra)))
    as (truth & s1 & ms & s2 & E1 & E2 & _ & Hms & Hrun).
  cbv zeta in Hrun.
  (* the readings of the tick are those of the script *)
  assert (Hblind : Forall (fun m => usable m = false) ms).
  { pose proof (script_truth_keeps_rng state clear_env
                  {| s_engine := engine; s_state := state; s_clock := clk;
                     s_rng := blind_default_rng
                                (st_rng_seed state + st_tick state + 1) |})
      as Hrng.
    rewrite E1 in Hrng. cbn [snd s_rng] in Hrng.
    destruct s1 as [e1 st1 c1 g1]. cbn [s_rng] in Hrng. subst g1.
    destruct (script_tick_is_blind state truth e1 st1 c1 ltac:(simpl; lia))
      as (ms1 & s' & E & Hb).
    unfold blind_default_rng in E2. rewrite E in E2.
    injection E2 as <- _. exact Hb. }
  pose proof (tick_measurements_inventory _ _ _ _ _ _ Hms) as Hinv.
  pose proof (proj1 (tick_measurements_shape _ _ _ _ _ _ Hms)) as Hlen.
  (* what the step leaves in the buffer *)
  destruct (record_all_frame ms state) as [_ Hmeas].
  destruct (deque_extend_keeps_new
              (cfg_max_measurement_history (st_config state)) ms
              (st_meas_history state))
    as (kept & Hkept & Hall).
  { apply Nat.le_0_l. }
  { apply Nat.le_trans with 6%nat; [lia |].
    apply Nat.leb_le. reflexivity. }
  assert (kept = []) as ->.
  { specialize (Hall (fun _ => False) (Forall_nil _)).
    destruct kept as [| x kept]; [reflexivity |].
    inversion Hall; contradiction. }
  rewrite <- Hmeas in Hkept.
  destruct (FusionEngine_fuse _ _ _) as [fused | e].
  - destruct Hrun as (audit & g & _ & _ & _ & Hstep).
    destruct (blind_tick_reports_the_fallback
                ScriptRng blind_default_rng script_uniform script_normal
                script_random (fun _ => "f") (fun s => s) (fun s => s)
                engine state clk _ _ _ _ [] ms
                Hready Hlocal Hstep Hinv Hkept Hblind)
      as (_ & Hfused & tel & Hh & Hlat & _ & _ & Hconf & _).
    eexists _, _, _. split; [exact Hstep |].
    split; [exact Hfused |].
    exists tel. split; [exact Hh |]. split; assumption.
  - destruct (blind_tick_reports_the_fallback
                ScriptRng blind_default_rng script_uniform script_normal
                script_random (fun _ => "f") (fun s => s) (fun s => s)
                engine state clk _ _ _ _ [] ms
                Hready Hlocal Hrun Hinv Hkept Hblind)
      as (Hr & _).
    discriminate Hr.
Defined.

(* ------------------------------------------------------------------ *)
(** *** What an audit record covers *)

Lemma measurement_summary_same (m m' : SensorMeasurement) :
  same_audited_fields m m' ->
  measurement_summary m' = measurement_summary m.
Proof.
  intros (H1 & H2 & H3 & H4 & H5 & H6 & H7 & H8 & H9).
  unfold measurement_summary, z3.
  now rewrite H1, H2, H3, H4, H5, H6, H7, H8, H9.
Qed.

Lemma fused_summary_same (e e' : FusedEstimate) :
  same_audited_estimate e e' -> fused_summary e' = fused_summary e.
Proof.
  intros (H1 & H2 & H3 & H4 & H5 & H6 & H7 & H8 & H9).
  unfold fused_summary.
  now rewrite H1, H2, H3, H4, H5, H6, H7, H8, H9.
Qed.

Lemma measurement_summaries_same (ms ms' : list SensorMeasurement) :
  Forall2 same_audited_fields ms ms' ->
  map measurement_summary ms' = map measurement_summary ms.
Proof.
  induction 1 as [| m m' ms ms' Hm _ IH]; cbn [map]; [reflexivity |].
  now rewrite (measurement_summary_same m m' Hm), IH.
Qed.

(** X19.  [build_audit_record] raises exactly when the tick is negative
    (the [ge=0] validation of [AuditRecord]); otherwise the record
    carries the tick and the timestamp it was given and one summary per
    measurement.  The record, its digest included, covers the
    measurements and the estimate only through the summarised fields: two
    lists of measurements that agree on sensor id, type, quality, latency,
    tick, the first three components of [z], the trace of [R], the
    dropped flag and the meta dict, and two estimates that agree on
    everything but [threat_index] and [civ_density], give the same
    record; the measurements' own timestamps, the rest of [z] and of [R]
    are not covered. *)
Theorem audit_record_covers_summaries_only
    (float_repr : R -> string) (json_escape sha256_hexdigest : string -> string)
    (tick : Z) (utc_now : string) (ms ms' : list SensorMeasurement)
    (fused fused' : FusedEstimate) :
  Forall2 same_audited_fields ms ms' ->
  same_audited_estimate fused fused' ->
  build_audit_record float_repr json_escape sha256_hexdigest
    tick utc_now ms' fused' =
  build_audit_record float_repr json_escape sha256_hexdigest
    tick utc_now ms fused /\
  ((tick < 0)%Z ->
   build_audit_record float_repr json_escape sha256_hexdigest
     tick utc_now ms fused = Raise (ValidationError "AuditRecord")) /\
  ((0 <= tick)%Z ->
   exists a,
     build_audit_record float_repr json_escape sha256_hexdigest
       tick utc_now ms fused = Ok a /\
     ar_tick a = tick /\ ar_utc a = utc_now /\
     List.length (ar_used_measurements a) = List.length ms).
Proof.
  intros Hms Hfused. split; [| split].
  - unfold build_audit_record.
    now rewrite (measurement_summaries_same ms ms' Hms),
      (fused_summary_same fused fused' Hfused).
  - intro Hneg. unfold build_audit_record, new_AuditRecord. cbn [ar_tick].
    now rewrite (proj2 (Z.leb_gt 0 tick) Hneg).
  - intro Hpos. eexists. split.
    + unfold build_audit_record, new_AuditRecord. cbn [ar_tick].
      rewrite (proj2 (Z.leb_le 0 tick) Hpos). reflexivity.
    + cbn [ar_tick ar_utc ar_used_measurements].
      split; [reflexivity |]. split; [reflexivity | apply length_map].
Qed.

Lemma audit_record_covers_summaries_only_witness :
  let m := reading "GNSS_A" GNSS 50.0 0.9 in
  build_audit_record (fun _ => "f") (fun s => s) (fun s => s) 7
    "2026-01-01T00:00:00Z"
    [set_stamp_and_covariance m "1999-12-31T23:59:59Z"
       [[3; 9; 9]; [9; 0; 9]; [9; 9; 0]]]
    (set_threat_and_density fallback_record 99 1) =
  build_audit_record (fun _ => "f") (fun s => s) (fun s => s) 7
    "2026-01-01T00:00:00Z" [m] fallback_record.
Proof.
  refine (proj1 (audit_record_covers_summaries_only
                   (fun _ => "f") (fun s => s) (fun s => s) 7
                   "2026-01-01T00:00:00Z" _ _ _ _ _ _)).
  - constructor; [| constructor].
    unfold same_audited_fields, set_stamp_and_covariance, reading.
    cbn -[Rplus]. repeat split. unfold trace. cbn. lra.
  - unfold same_audited_estimate. repeat split.
Defined.

(* ------------------------------------------------------------------ *)
(** *** Starting a run: [init_state] and [reset] *)

Lemma record_all_last_seen_other (ms : list SensorMeasurement) (k : string) :
  ~ In k (map m_sensor_id ms) ->
  forall st,
    dict_find (st_last_seen_tick (fold_left record_pure ms st)) k =
    dict_find (st_last_seen_tick st) k.
Proof.
  induction ms as [| m ms IH]; intros Hk st; cbn [fold_left];
    [reflexivity |].
  cbn [map In] in Hk. rewrite IH by tauto.
  change (st_last_seen_tick (record_pure st m))
    with (dict_set (st_last_seen_tick st) (m_sensor_id m) (m_tick m)).
  apply dict_find_set_other. tauto.
Qed.

Lemma tick_inventory_ids (T : Z) (ms : list SensorMeasurement) :
  tick_inventory T ms ->
  map m_sensor_id ms = ["LINK_1"; "IMU_1"; "BARO_1"; "GNSS_A"; "EOIR_1"] \/
  map m_sensor_id ms = tick_sensor_ids.
Proof.
  intros (Hids & _).
  assert (Hfst : map m_sensor_id ms =
                 map fst (map (fun m => (m_sensor_id m, m_sensor_type m)) ms))
    by (rewrite map_map; reflexivity).
  rewrite Hfst. destruct Hids as [-> | ->]; [left | right]; reflexivity.
Qed.

Section RunStart.

Variable Rng : Type.
Variable default_rng : Z -> Rng.
Variable rng_uniform : R -> R -> Rng -> R * Rng.
Variable rng_normal : R -> R -> Rng -> R * Rng.
Variable rng_random : Rng -> R * Rng.
Variable float_repr : R -> string.
Variable json_escape : string -> string.
Variable sha256_hexdigest : string -> string.

Local Abbreviation step_ :=
  (step Rng default_rng rng_uniform rng_normal rng_random
     float_repr json_escape sha256_hexdigest).
Local Abbreviation run_ :=
  (run Rng default_rng rng_uniform rng_normal rng_random
     float_repr json_escape sha256_hexdigest).

(** X20.  [reset] makes any state fit for a run, whatever its buffers
    held: when the scenario of the state resolves (its environment and
    its envelope are known and its area is set), the seed in force after
    the reset is not negative, [dt_seconds] is not negative and the
    calculator's memory is in [0, 1], a run of [n] steps that all return
    after [reset] ends at tick [n] and the mission time of [n]
    successive additions of [dt_seconds] to 0.0, with [min n max]
    telemetry and audit records, a measurement buffer
    within its bound holding ticks up to [n] only, under the run id read
    off the clock by [reset], the seed in force, and the configuration
    and scenario the state had before. *)
Theorem reset_starts_a_clean_run (n : nat) (engine : StepEngine)
    (state : EngineState) (new_seed : option Z) (clk : Clock)
    (state0 : EngineState) (clk0 : Clock)
    (engine' : StepEngine) (state' : EngineState) (clk' : Clock) :
  (exists env, dict_index ENVIRONMENTS (st_env_name state) = Ok env) ->
  (exists envp, dict_index ENVELOPES (st_envelope_name state) = Ok envp) ->
  (exists ao, st_ao state = Some ao) ->
  (0 <= match new_seed with Some s => s | None => st_rng_seed state end)%Z ->
  0 <= cfg_dt_seconds (se_config engine) ->
  0 <= crc_clarity_ema (se_clarity_calc engine) <= 1 ->
  reset state new_seed clk = (state0, clk0) ->
  run_ n engine state0 clk0 = (Ok tt, (engine', state', clk')) ->
  st_tick state' = Z.of_nat n /\
  st_mission_time_s state' =
    Nat.iter n (fun t => t + cfg_dt_seconds (se_config engine)) 0.0 /\
  List.length (st_history state') =
    Nat.min n (cfg_max_telemetry_history (st_config state)) /\
  List.length (st_audit_chain state') =
    Nat.min n (cfg_max_audit_history (st_config state)) /\
  (List.length (st_meas_history state')
     <= cfg_max_measurement_history (st_config state))%nat /\
  Forall (fun m => (m_tick m <= Z.of_nat n)%Z) (st_meas_history state') /\
  st_run_id state' = time_readings clk 0 /\
  st_rng_seed state' =
    match new_seed with Some s => s | None => st_rng_seed state end /\
  st_config state' = st_config state /\
  st_ao state' = st_ao state /\
  st_env_name state' = st_env_name state /\
  st_envelope_name state' = st_envelope_name state /\
  st_fusion_strategy_name state' = st_fusion_strategy_name state.
Proof.
  intros Henv Henvp Hao Hseed Hdt Hema Hreset Hrun.
  unfold reset, time_ms in Hreset. injection Hreset as <- <-.
  match type of Hrun with
  | run_ n engine ?s0 ?c0 = _ => set (state0 := s0) in *; set (clk0 := c0) in *
  end.
  assert (Hready : run_ready engine state0).
  { unfold run_ready, step_ready. subst state0.
    cbn [st_env_name st_envelope_name st_ao st_tick st_rng_seed
         st_mission_stage_tick st_mission_time_s st_history st_audit_chain
         st_meas_history st_config List.length].
    split; [exact Henv |]. split; [exact Henvp |]. split; [exact Hao |].
    split; [repeat split; try lia; try lra; tauto |].
    split; [apply Nat.le_0_l |]. split; [apply Nat.le_0_l |].
    split; [apply Nat.le_0_l | constructor]. }
  destruct (run_invariant Rng default_rng rng_uniform rng_normal rng_random
              float_repr json_escape sha256_hexdigest n
              engine state0 clk0 engine' state' clk' Hready Hrun)
    as (Hready' & Hsame & _ & Htick & Hmt & Hlt & Hla & _).
  destruct Hready' as (_ & _ & _ & _ & _ & _ & Hlm & Hold).
  destruct Hsame as (S1 & S2 & S3 & S4 & S5 & S6 & S7 & S8 & S9).
  subst state0.
  cbn [st_tick st_mission_time_s st_history st_audit_chain st_config
       st_rng_seed st_run_id st_ao st_env_name st_envelope_name
       st_fusion_strategy_name List.length time_readings Nat.add] in *.
  split; [lia |]. split; [exact Hmt |].
  split; [exact Hlt |]. split; [exact Hla |].
  split; [rewrite <- S1; exact Hlm |].
  split.
  { eapply Forall_impl; [| exact Hold]. intros m [Ht _]. lia. }
  repeat split; assumption.
Qed.

(** X22.  Every step that gets past its lookups, whether it then
    returns or raises in the fusion, leaves [last_seen_tick] mapping
    LINK_1, IMU_1, BARO_1, GNSS_A and EOIR_1 to the tick being computed,
    a reading marked dropped counting as seen; RADAR_1 is mapped to that
    tick or left as it was; every other key is left as it was. *)
Theorem step_marks_every_sensor_seen (engine : StepEngine)
    (state : EngineState) (clk : Clock) (r : result unit)
    (engine' : StepEngine) (state' : EngineState) (clk' : Clock) :
  (exists env, dict_index ENVIRONMENTS (st_env_name state) = Ok env) ->
  (exists envp, dict_index ENVELOPES (st_envelope_name state) = Ok envp) ->
  (exists ao, st_ao state = Some ao) ->
  step_ready engine state ->
  step_ engine state clk = (r, (engine', state', clk')) ->
  (forall k, In k ["LINK_1"; "IMU_1"; "BARO_1"; "GNSS_A"; "EOIR_1"] ->
     dict_find (st_last_seen_tick state') k = Some (st_tick state + 1)%Z) /\
  (dict_find (st_last_seen_tick state') "RADAR_1"
     = Some (st_tick state + 1)%Z \/
   dict_find (st_last_seen_tick state') "RADAR_1"
     = dict_find (st_last_seen_tick state) "RADAR_1") /\
  (forall k, ~ In k tick_sensor_ids ->
     dict_find (st_last_seen_tick state') k =
     dict_find (st_last_seen_tick state) k).
Proof.
  intros (env & Henv) (envp & Henvp) (ao & Hao) Hready Hstep.
  destruct (step_outcome Rng default_rng rng_uniform rng_normal rng_random
              float_repr json_escape sha256_hexdigest
              engine state clk env envp ao Henv Henvp Hao Hready)
    as (truth & ms & Hms & _ & _ & Hrun).
  pose proof (tick_measurements_inventory _ _ _ _ _ _ Hms) as Hinv.
  pose proof (proj1 (proj2 (tick_measurements_shape _ _ _ _ _ _ Hms)))
    as Hticks.
  pose proof (tick_inventory_ids _ _ Hinv) as Hids.
  assert (Hseen : st_last_seen_tick state' =
                  st_last_seen_tick (fold_left record_pure ms state)).
  { destruct (tick_fusion engine state ms) as [fused | e].
    - destruct Hrun as (audit & g & _ & _ & _ & Hok).
      rewrite Hok in Hstep. injection Hstep as _ _ <- _. reflexivity.
    - rewrite Hrun in Hstep. injection Hstep as _ _ <- _. reflexivity. }
  rewrite Hseen.
  pose proof (record_all_last_seen _ ms Hticks state) as Hall.
  rewrite Forall_forall in Hall.
  assert (Hin : forall k, In k (map m_sensor_id ms) ->
                  dict_find
                    (st_last_seen_tick (fold_left record_pure ms state)) k
                  = Some (st_tick state + 1)%Z).
  { intros k Hk. apply in_map_iff in Hk. destruct Hk as (m & <- & Hm).
    exact (Hall m Hm). }
  split; [| split].
  - intros k Hk. apply Hin.
    destruct Hids as [-> | ->]; [exact Hk |].
    unfold tick_sensor_ids. cbn [In] in *. tauto.
  - destruct Hids as [Hfive | Hsix].
    + right. apply record_all_last_seen_other. rewrite Hfive.
      cbn [In]. intros [H | [H | [H | [H | [H | []]]]]]; discriminate H.
    + left. apply Hin. rewrite Hsix. unfold tick_sensor_ids.
      cbn [In]. tauto.
  - intros k Hk. apply record_all_last_seen_other.
    destruct Hids as [-> | ->]; [| exact Hk].
    intro Hfive. apply Hk. unfold tick_sensor_ids. cbn [In] in *. tauto.
Qed.

End RunStart.

(** X21.  [init_state] never raises, whatever the clock reads: the area
    it asks for is registered, the run id is the clock's reading in
    milliseconds and the seed is that reading reduced to
    [0 <= seed < 2**32], so the generator of no later tick is refused a
    negative seed; and the state it returns, with the engine
    [StepEngine(state.config)] the application builds for it, meets the
    conditions of a run whose every step fuses its own tick. *)
Theorem init_state_is_ready (clk : Clock) :
  exists state,
    init_state clk = (Ok state, snd (time_ms clk)) /\
    st_run_id state = time_readings clk 0 /\
    (0 <= st_rng_seed state < 2 ^ 32)%Z /\
    st_rng_seed state = (time_readings clk 0 mod 2 ^ 32)%Z /\
    st_ao state = Some (mkAOConfig "Kharkiv Region" 49.9935 36.2304 0.08 0.12) /\
    st_tick state = 0%Z /\
    run_ready (StepEngine_init (st_config state)) state /\
    tick_local (StepEngine_init (st_config state)) state.
Proof.
  eexists. split; [reflexivity |].
  cbn [st_run_id st_rng_seed st_ao st_tick st_config EngineState_init].
  pose proof (Z.mod_pos_bound (time_readings clk 0) (2 ^ 32) ltac:(lia))
    as Hmod.
  split; [reflexivity |]. split; [exact Hmod |].
  split; [reflexivity |]. split; [reflexivity |]. split; [reflexivity |].
  split.
  - unfold run_ready, step_ready.
    cbn [st_env_name st_envelope_name st_ao st_tick st_rng_seed
         st_mission_stage_tick st_mission_time_s st_history st_audit_chain
         st_meas_history st_config EngineState_init List.length].
    split; [eexists; reflexivity |]. split; [eexists; reflexivity |].
    split; [eexists; reflexivity |].
    split.
    { simpl. repeat split; try lia; try lra; apply Hmod. }
    split; [apply Nat.le_0_l |]. split; [apply Nat.le_0_l |].
    split; [apply Nat.le_0_l | constructor].
  - unfold tick_local. simpl.
    split; [lra |]. split; [lra |]. split; [discriminate |].
    apply Nat.leb_le. reflexivity.
Qed.

Lemma reset_starts_a_clean_run_witness :
  exists engine' state' clk',
    fixed_run 1 (engine_with_ema 0.9)
      (fst (reset (fresh_state "weighted") (Some 42%Z)
              (stopped_clock "2026-01-01T00:00:00Z")))
      (stopped_clock "2026-01-01T00:00:00Z") = (Ok tt, (engine', state', clk')) /\
    st_tick state' = 1%Z /\
    List.length (st_history state') = 1%nat.
Proof.
  destruct (fresh_step_returns 0.9 (stopped_clock "2026-01-01T00:00:00Z")
              ltac:(lra))
    as (raw & audit & tel & state' & _ & Hstep & _).
  pose proof (run_one _ _ _ _ _ _ _ _ _ _ _ _ Hstep) as Hrun.
  exists (engine_after (engine_with_ema 0.9) raw), state',
    (reads 8 (stopped_clock "2026-01-01T00:00:00Z")).
  assert (Hrun0 : fixed_run 1 (engine_with_ema 0.9)
      (fst (reset (fresh_state "weighted") (Some 42%Z)
              (stopped_clock "2026-01-01T00:00:00Z")))
      (stopped_clock "2026-01-01T00:00:00Z") =
      (Ok tt, (engine_after (engine_with_ema 0.9) raw, state',
               reads 8 (stopped_clock "2026-01-01T00:00:00Z")))).
  { exact Hrun. }
  split; [exact Hrun0 |].
  destruct (reset_starts_a_clean_run
              FixedRng fixed_default_rng fixed_uniform fixed_normal
              fixed_random (fun _ => "f") (fun s => s) (fun s => s)
              1 (engine_with_ema 0.9) (fresh_state "weighted") (Some 42%Z)
              (stopped_clock "2026-01-01T00:00:00Z") _ _ _ _ _
              (ex_intro _ _ eq_refl) (ex_intro _ _ eq_refl)
              (ex_intro _ _ eq_refl) ltac:(cbv; discriminate)
              ltac:(simpl; lra) ltac:(simpl; lra) eq_refl Hrun0)
    as (Htick & _ & Hlen & _).
  split; [exact Htick | exact Hlen].
Defined.

Lemma step_marks_every_sensor_seen_witness :
  exists r engine' state' clk',
    fixed_step (engine_with_ema 0.9) (fresh_state "kalman")
      (stopped_clock "2026-01-01T00:00:00Z") = (r, (engine', state', clk')) /\
    dict_find (st_last_seen_tick state') "GNSS_A" = Some 1%Z /\
    dict_find (st_last_seen_tick state') "AUX_9" = None.
Proof.
  destruct (fixed_step (engine_with_ema 0.9) (fresh_state "kalman")
              (stopped_clock "2026-01-01T00:00:00Z"))
    as [r [[engine' state'] clk']] eqn:Hstep.
  exists r, engine', state', clk'. split; [reflexivity |].
  destruct (step_marks_every_sensor_seen
              FixedRng fixed_default_rng fixed_uniform fixed_normal
              fixed_random (fun _ => "f") (fun s => s) (fun s => s)
              (engine_with_ema 0.9) (fresh_state "kalman")
              (stopped_clock "2026-01-01T00:00:00Z") r engine' state' clk'
              (ex_intro _ _ eq_refl) (ex_intro _ _ eq_refl)
              (ex_intro _ _ eq_refl)
              (fresh_state_ready "kalman" 0.9 ltac:(lra)) Hstep)
    as (Hfive & _ & Hother).
  split.
  - apply Hfive. cbn [In]. tauto.
  - rewrite Hother; [reflexivity |].
    unfold tick_sensor_ids. cbn [In].
    intros [H | [H | [H | [H | [H | [H | []]]]]]]; discriminate H.
Defined.

(* ------------------------------------------------------------------ *)
(** *** What the audit record of a tick lists *)

Lemma select_scan_front_all (cfg : FusionConfig) (T : Z) (gate : R)
    (front tail : list SensorMeasurement) :
  Forall (fun m => m_dropped m = false ->
                   Rleb (age_ms cfg T m) gate = true) front ->
  select_scan cfg T gate (front ++ tail) =
  filter (fun m => negb (m_dropped m)) front ++ select_scan cfg T gate tail.
Proof.
  induction 1 as [| m front Hm _ IH]; cbn [app select_scan filter];
    [reflexivity |].
  destruct (m_dropped m) eqn:Hd; cbn [negb]; [exact IH |].
  rewrite (Hm eq_refl). cbn [app]. now rewrite IH.
Qed.

Lemma audit_lists_selection
    (float_repr : R -> string) (json_escape sha256_hexdigest : string -> string)
    (tick : Z) (now : string) (ms : list SensorMeasurement)
    (fused : FusedEstimate) (a : AuditRecord) :
  build_audit_record float_repr json_escape sha256_hexdigest tick now ms fused
    = Ok a ->
  ar_used_measurements a = map measurement_summary ms.
Proof.
  unfold build_audit_record, new_AuditRecord. cbn [ar_tick].
  destruct (0 <=? tick)%Z; [| discriminate].
  intro H. injection H as <-. reflexivity.
Qed.

(** The selection over the readings of a tick: every reading that is
    not dropped, most recent first, the link's only if its latency is
    within the gate. *)
Lemma tick_selection (cfg : FusionConfig) (T : Z)
    (link : SensorMeasurement) (rest : list SensorMeasurement) :
  tick_inventory T (link :: rest) ->
  320 <= cfg_fusion_time_gate_ms cfg ->
  select_measurements cfg (link :: rest) T =
  filter (fun m => negb (m_dropped m)) (rev rest) ++
  (if Rleb (m_latency_ms link) (cfg_fusion_time_gate_ms cfg)
   then [link] else []).
Proof.
  intros Hinv Hgate.
  destruct (tick_inventory_link_first T _ Hinv)
    as (link0 & rest0 & Heq & Hlink & Hrest).
  injection Heq as <- <-.
  destruct Hinv as (_ & _ & Hall).
  inversion Hall as [| ? ? (Ht & Hok & _ & Hdrop & _) Hall']; subst.
  unfold select_measurements. cbn [rev].
  rewrite select_scan_front_all.
  - f_equal. cbn [select_scan].
    destruct (m_dropped link) eqn:Hd.
    { destruct (Hdrop eq_refl) as [H | H]; rewrite Hlink in H;
        discriminate H. }
    apply SensorMeasurement_ok_bounds in Hok as (_ & _ & Hpos).
    rewrite age_ms_current by (reflexivity || assumption). reflexivity.
  - apply Forall_rev. rewrite Forall_forall in *.
    intros m Hin Hd.
    destruct (Hall' m Hin) as (Htm & Hokm & _ & _ & Hlat).
    apply SensorMeasurement_ok_bounds in Hokm as (_ & _ & Hpos).
    apply Rleb_true_iff. rewrite age_ms_current by assumption.
    specialize (Hlat Hd (Hrest m Hin)). lra.
Qed.

(** Of the readings of a tick other than the link's, those not dropped
    outnumber the usable ones by two: the IMU's and the barometer's. *)
Lemma tick_selection_count (T : Z) (link : SensorMeasurement)
    (rest : list SensorMeasurement) :
  tick_inventory T (link :: rest) ->
  List.length (filter (fun m => negb (m_dropped m)) (rev rest)) =
  (List.length (filter usable (rev (link :: rest))) + 2)%nat.
Proof.
  intros (Hmap & _ & Hall).
  assert (Hshape : exists imu baro gnss eoir tail,
             rest = imu :: baro :: gnss :: eoir :: tail /\
             m_sensor_type link = LINK /\
             m_sensor_type imu = IMU /\ m_sensor_type baro = BARO /\
             m_sensor_type gnss = GNSS /\ m_sensor_type eoir = EOIR /\
             (tail = [] \/
              exists radar, tail = [radar] /\ m_sensor_type radar = RADAR)).
  { destruct rest as [| imu [| baro [| gnss [| eoir tail]]]];
      try (destruct Hmap as [Hmap | Hmap]; discriminate Hmap).
    exists imu, baro, gnss, eoir, tail. split; [reflexivity |].
    destruct Hmap as [Hmap | Hmap]; cbn [map] in Hmap;
      injection Hmap as _ Y1 _ Y2 _ Y3 _ Y4 _ Y5 Htail;
      repeat (split; [assumption |]).
    - left. destruct tail; [reflexivity | discriminate Htail].
    - right. destruct tail as [| radar [| x tail]]; try discriminate Htail.
      exists radar. split; [reflexivity |].
      cbn [map] in Htail. now injection Htail as _ Y6. }
  destruct Hshape as (imu & baro & gnss & eoir & tail & -> & Y1 & Y2 & Y3
                      & Y4 & Y5 & Htail).
  assert (Hnd : forall m, In m (link :: imu :: baro :: gnss :: eoir :: tail) ->
                  m_sensor_type m <> GNSS -> m_sensor_type m <> EOIR ->
                  m_dropped m = false).
  { rewrite Forall_forall in Hall. intros m Hin Hg He.
    destruct (Hall m Hin) as (_ & _ & _ & Hdrop & _).
    destruct (m_dropped m); [| reflexivity].
    destruct (Hdrop eq_refl); contradiction. }
  assert (D2 : m_dropped imu = false)
    by (apply Hnd; [cbn [In]; tauto | rewrite Y2; discriminate
                                    | rewrite Y2; discriminate]).
  assert (D3 : m_dropped baro = false)
    by (apply Hnd; [cbn [In]; tauto | rewrite Y3; discriminate
                                    | rewrite Y3; discriminate]).
  destruct Htail as [-> | (radar & -> & Y6)].
  - cbn [rev app filter]. unfold usable.
    rewrite Y1, Y2, Y3, Y4, Y5, D2, D3. cbn [position_capable andb negb].
    destruct (m_dropped gnss), (m_dropped eoir); reflexivity.
  - assert (D6 : m_dropped radar = false)
      by (apply Hnd; [cbn [In]; tauto | rewrite Y6; discriminate
                                      | rewrite Y6; discriminate]).
    cbn [rev app filter]. unfold usable.
    rewrite Y1, Y2, Y3, Y4, Y5, Y6, D2, D3, D6.
    cbn [position_capable andb negb].
    destruct (m_dropped gnss), (m_dropped eoir); reflexivity.
Qed.

Lemma fuse_count (cfg : FusionConfig) (ms : list SensorMeasurement)
    (fused : FusedEstimate) :
  WeightedFusion_fuse cfg ms = Ok fused ->
  fe_used_meas_count fused = Z.of_nat (List.length (filter usable ms)).
Proof.
  intro Hfuse.
  destruct (filter usable ms) as [| m pos] eqn:Hpos.
  - rewrite (fuse_no_usable cfg ms Hpos) in Hfuse.
    now injection Hfuse as <-.
  - rewrite (fuse_returns_fused_record cfg ms fused Hfuse)
      by (rewrite Hpos; discriminate).
    rewrite Hpos. reflexivity.
Qed.

Section TickAudit.

Variable Rng : Type.
Variable default_rng : Z -> Rng.
Variable rng_uniform : R -> R -> Rng -> R * Rng.
Variable rng_normal : R -> R -> Rng -> R * Rng.
Variable rng_random : Rng -> R * Rng.
Variable float_repr : R -> string.
Variable json_escape : string -> string.
Variable sha256_hexdigest : string -> string.

Local Abbreviation step_ :=
  (step Rng default_rng rng_uniform rng_normal rng_random
     float_repr json_escape sha256_hexdigest).

(** X23.  Under the conditions of X17, the audit record a step appends
    lists under [used_measurements] what [select_measurements] returned,
    not what was fused: every reading of the tick that is not dropped,
    most recent first, with the link's reading last when its latency is
    within the gate.  The IMU's and the barometer's readings are always
    among them although [fuse] never uses them, so the list is at least
    two entries longer than the estimate's [used_meas_count]. *)
Theorem audit_lists_the_selection_not_the_fusion (engine : StepEngine)
    (state : EngineState) (clk : Clock) (engine' : StepEngine)
    (state' : EngineState) (clk' : Clock) :
  run_ready engine state ->
  tick_local engine state ->
  step_ engine state clk = (Ok tt, (engine', state', clk')) ->
  exists link rest fused audit,
    tick_inventory (st_tick state + 1) (link :: rest) /\
    st_fused state' = Some fused /\
    st_audit_chain state' =
      deque_append (cfg_max_audit_history (st_config state))
        (st_audit_chain state) audit /\
    ar_used_measurements audit =
      map measurement_summary
        (filter (fun m => negb (m_dropped m)) (rev rest) ++
         (if Rleb (m_latency_ms link)
               (cfg_fusion_time_gate_ms (se_config engine))
          then [link] else [])) /\
    fe_used_meas_count fused =
      Z.of_nat (List.length (filter usable (rev rest))) /\
    (fe_used_meas_count fused + 2
       <= Z.of_nat (List.length (ar_used_measurements audit)))%Z.
Proof.
  intros Hready Hlocal Hstep.
  pose proof Hready as ((env & Henv) & (envp & Henvp) & (ao & Hao) & Hsr & _).
  destruct (step_outcome Rng default_rng rng_uniform rng_normal rng_random
              float_repr json_escape sha256_hexdigest
              engine state clk env envp ao Henv Henvp Hao Hsr)
    as (truth & ms & Hms & Hframe & Hmeas & Hrun).
  cbv zeta in *.
  pose proof (tick_measurements_inventory _ _ _ _ _ _ Hms) as Hinv.
  pose proof (proj1 (tick_measurements_shape _ _ _ _ _ _ Hms)) as Hlen.
  destruct (tick_selection_local engine state ms Hready Hlocal Hinv Hlen)
    as [(kept & Hkept) Hsel].
  pose proof (tick_fusion_local engine state ms Hready Hlocal Hinv Hlen)
    as [_ Hlocalf].
  rewrite Hlocalf in Hrun.
  destruct (WeightedFusion_fuse (se_config engine) (rev ms))
    as [fused | e] eqn:Hfuse; [| rewrite Hrun in Hstep; discriminate].
  destruct Hrun as (audit & g & _ & Hbuild & _ & Hok).
  rewrite Hok in Hstep. injection Hstep as _ <- _.
  unfold same_but_measurements in Hframe.
  destruct Hframe as (Hcfg & _ & _ & _ & _ & _ & _ & _ & _ & _ & _ & _
                      & _ & Haudit & _).
  destruct (tick_inventory_link_first _ ms Hinv)
    as (link & rest & -> & Hlink & _).
  apply audit_lists_selection in Hbuild.
  rewrite Hsel in Hbuild.
  destruct Hlocal as (Hgate & _).
  rewrite (tick_selection (se_config engine) _ link rest Hinv Hgate)
    in Hbuild.
  pose proof (fuse_count _ _ _ Hfuse) as Hcount.
  pose proof (tick_selection_count _ link rest Hinv) as Hmore.
  assert (Hrest : filter usable (rev (link :: rest)) =
                  filter usable (rev rest)).
  { cbn [rev]. rewrite filter_app. cbn [filter]. unfold usable at 2.
    rewrite Hlink. cbn [position_capable andb]. apply app_nil_r. }
  exists link, rest, fused, audit.
  split; [exact Hinv |]. split; [reflexivity |].
  split.
  { unfold state_after.
    cbn [st_audit_chain st_config set_history set_mission_time_s set_tick
         set_audit_chain set_fused].
    rewrite Hcfg, Haudit. reflexivity. }
  split; [exact Hbuild |].
  split; [rewrite Hcount, Hrest; reflexivity |].
  rewrite Hbuild, length_map, length_app, Hcount, Hmore. lia.
Qed.

End TickAudit.

Lemma audit_lists_the_selection_not_the_fusion_witness :
  exists engine' state' clk' fused audit,
    fixed_step (engine_with_ema 0.9) (fresh_state "weighted")
      (stopped_clock "2026-01-01T00:00:00Z") =
      (Ok tt, (engine', state', clk')) /\
    st_fused state' = Some fused /\
    st_audit_chain state' = deque_append 3000 [] audit /\
    (fe_used_meas_count fused + 2
       <= Z.of_nat (List.length (ar_used_measurements audit)))%Z.
Proof.
  destruct (fresh_step_returns 0.9 (stopped_clock "2026-01-01T00:00:00Z")
              ltac:(lra))
    as (raw & audit0 & tel0 & state' & _ & Hstep & _).
  destruct (audit_lists_the_selection_not_the_fusion
              FixedRng fixed_default_rng fixed_uniform fixed_normal
              fixed_random (fun _ => "f") (fun s => s) (fun s => s)
              _ _ _ _ _ _ (fresh_state_run_ready "weighted")
              fresh_state_tick_local Hstep)
    as (link & rest & fused & audit & _ & Hfused & Hchain & _ & _ & Hmore).
  eexists _, state', _, fused, audit.
  split; [exact Hstep |]. split; [exact Hfused |].
  split; [exact Hchain | exact Hmore].
Defined.
